(** * tfglib.seq2seq_datatable: datatable construction for sequence-to-sequence
    voice conversion

    A shallow embedding of [tfglib/seq2seq_datatable.py] and the properties of
    its four layers: the sequence scanner ([find_longest_sequence]), the pair
    builder ([seq2seq_build_file_table]), the corpus assembler
    ([seq2seq_construct_datatable]) and the datatable store
    ([seq2seq_save_datatable], [seq2seq2_load_datatable]).

    Conventions of the embedding.
    - A Python exception is a value of [exn]; a computation that may raise
      returns a [result].
    - Code that prints or touches the HDF5 container runs in the monad [py],
      which threads the [world] (standard output and the stored containers).
    - A numpy array of floats is a list structure over [Q].  The program only
      copies, compares and selects floats (equality with zero, maximum,
      minimum) and computes [1 - d] on the integers 0 and 1; none of these
      rounds, so rationals describe every finite value exactly. *)

From Stdlib Require Import QArith Qminmax Lia.
From stdpp Require Import gmap strings list.

Set Default Proof Using "Type".

(** ** Exceptions and results *)

Inductive exn : Type :=
  | AssertionError
  | IndexError
  | ValueError
  | TypeError
  | KeyError
  | IOError.

#[global] Instance exn_eq_dec : EqDecision exn.
Proof. solve_decision. Defined.

Inductive result (A : Type) : Type :=
  | Ok (a : A)
  | Raise (e : exn).
Arguments Ok {A} a.
Arguments Raise {A} e.

Definition rbind {A B} (r : result A) (k : A -> result B) : result B :=
  match r with
  | Ok a => k a
  | Raise e => Raise e
  end.

(** ** Arrays *)

(** A two-dimensional array: [shape = (nrows, ncols)].  The column count is
    kept beside the rows because an array may have no row at all. *)
Record matrix : Type := Matrix { ncols : nat; rows : list (list Q) }.

Definition nrows (m : matrix) : nat := length (rows m).
Definition shape (m : matrix) : nat * nat := (nrows m, ncols m).

Definition shape_eqb (a b : nat * nat) : bool :=
  (fst a =? fst b) && (snd a =? snd b).

(** An array of one, two or three dimensions, as the assembler returns them
    and the container stores them. *)
Inductive ndarray : Type :=
  | Nd1 (data : list Q)
  | Nd2 (m : matrix)
  | Nd3 (blocks : list matrix).

Definition ndim (a : ndarray) : nat :=
  match a with
  | Nd1 _ => 1
  | Nd2 _ => 2
  | Nd3 _ => 3
  end.

Definition ravel (a : ndarray) : list Q :=
  match a with
  | Nd1 d => d
  | Nd2 m => concat (rows m)
  | Nd3 ms => concat (map (fun m => concat (rows m)) ms)
  end.

(** *** numpy primitives *)

(** [np.zeros((n, c))]: [n] comes out of a subtraction and may be negative,
    which numpy refuses. *)
Definition np_zeros (n : Z) (c : nat) : result matrix :=
  if (n <? 0)%Z then Raise ValueError
  else Ok (Matrix c (repeat (repeat 0%Q c) (Z.to_nat n))).

Definition np_ones (n c : nat) : matrix :=
  Matrix c (repeat (repeat 1%Q c) n).

(** [np.concatenate((a, b))], along the frame axis. *)
Definition np_concatenate (a b : matrix) : result matrix :=
  if ncols a =? ncols b then Ok (Matrix (ncols a) (rows a ++ rows b))
  else Raise ValueError.

Definition hstack (rs : list (list Q)) (m : matrix) : list (list Q) :=
  zip_with app rs (rows m).

(** [np.concatenate(ms, axis=1)], along the feature axis. *)
Definition np_concatenate1 (ms : list matrix) : result matrix :=
  match ms with
  | [] => Raise ValueError
  | m :: ms' =>
      if forallb (fun x => nrows x =? nrows m) ms'
      then Ok (Matrix (sum_list (map ncols ms)) (fold_left hstack ms' (rows m)))
      else Raise ValueError
  end.

Fixpoint chunks_fuel (fuel w : nat) (l : list Q) : list (list Q) :=
  match fuel with
  | O => []
  | S fuel' =>
      match l with
      | [] => []
      | _ :: _ => take w l :: chunks_fuel fuel' w (drop w l)
      end
  end.

(** Cut a flat sequence into rows of [w] values. *)
Definition chunks (w : nat) (l : list Q) : list (list Q) :=
  chunks_fuel (length l) w l.

(** [a.reshape(-1, c)]: the row count is inferred, which numpy cannot do
    when [c = 0], and the size must be a multiple of [c]. *)
Definition reshape_rows (data : list Q) (c : nat) : result matrix :=
  if c =? 0 then Raise ValueError
  else if length data mod c =? 0 then Ok (Matrix c (chunks c data))
  else Raise ValueError.

(** [np.array(ms)] on a list of equally shaped two-dimensional arrays; the
    empty list gives the one-dimensional empty array. *)
Definition np_array (ms : list matrix) : result ndarray :=
  match ms with
  | [] => Ok (Nd1 [])
  | m :: ms' =>
      if forallb (fun x => shape_eqb (shape x) (shape m)) ms'
      then Ok (Nd3 ms)
      else Raise ValueError
  end.

(** ** The world: standard output and the HDF5 containers *)

(** What an attribute of a container holds, and what [attrs.get] returns. *)
Inductive pyobj : Type :=
  | PyNone
  | PyInt (n : Z)
  | PyArray (a : ndarray).

(** An [h5py.File]: named attributes and named datasets.  Datasets are
    written with gzip compression, which is lossless: the container holds the
    array that was given. *)
Record h5file : Type :=
  H5File { h5_attrs : gmap string pyobj; h5_datasets : gmap string ndarray }.

Record world : Type :=
  World { stdout : list string; h5_store : gmap string h5file }.

(** ** The monad of the program: state and exceptions *)

Definition py (A : Type) : Type := world -> result A * world.

Definition ret {A} (a : A) : py A := fun w => (Ok a, w).

Definition raise {A} (e : exn) : py A := fun w => (Raise e, w).

Definition bind {A B} (m : py A) (k : A -> py B) : py B :=
  fun w =>
    match m w with
    | (Ok a, w') => k a w'
    | (Raise e, w') => (Raise e, w')
    end.

Definition lift {A} (r : result A) : py A := fun w => (r, w).

Declare Scope py_scope.
Delimit Scope py_scope with py.
Notation "x <- m ;; k" := (bind m (fun x => k))
  (at level 100, m at next level, right associativity) : py_scope.
Notation "m ;; k" := (bind m (fun _ => k))
  (at level 100, right associativity) : py_scope.
Open Scope py_scope.

(** [print(msg)] *)
Definition print (msg : string) : py unit :=
  fun w => (Ok tt, World (stdout w ++ [msg]) (h5_store w)).

(** [assert c] *)
Definition assert_ (c : bool) : py unit :=
  if c then ret tt else raise AssertionError.

(** [try: body except e: handler]: only the exception [e] is caught. *)
Definition try_except (body : py unit) (e : exn) (handler : py unit) : py unit :=
  fun w =>
    match body w with
    | (Ok tt, w') => (Ok tt, w')
    | (Raise e', w') => if bool_decide (e' = e) then handler w' else (Raise e', w')
    end.

(** [for x in l: s = body(s, x)] *)
Fixpoint for_fold {A S} (l : list A) (s : S) (body : S -> A -> py S) : py S :=
  match l with
  | [] => ret s
  | x :: l' => s' <- body s x ;; for_fold l' s' body
  end.

(** [enumerate(l)] *)
Definition enumerate {A} (l : list A) : list (nat * A) :=
  zip (seq 0 (length l)) l.

(** ** Python strings *)

Definition newline : Ascii.ascii := Ascii.ascii_of_nat 10.

(** [s[i]], where a negative [i] counts from the end. *)
Definition str_index (s : string) (i : Z) : result Ascii.ascii :=
  let n := Z.of_nat (String.length s) in
  let j := if (i <? 0)%Z then (i + n)%Z else i in
  if ((0 <=? j) && (j <? n))%Z then
    match String.get (Z.to_nat j) s with
    | Some c => Ok c
    | None => Raise IndexError
    end
  else Raise IndexError.

(** [line.split('\n')[0]] *)
Fixpoint before_newline (s : string) : string :=
  match s with
  | EmptyString => EmptyString
  | String c s' => if Ascii.eqb c newline then EmptyString else String c (before_newline s')
  end.

Fixpoint readlines_from (cur : string) (s : string) : list string :=
  match s with
  | EmptyString => if String.eqb cur "" then [] else [cur]
  | String c s' =>
      if Ascii.eqb c newline then (cur +:+ String c EmptyString) :: readlines_from "" s'
      else readlines_from (cur +:+ String c EmptyString) s'
  end.

(** [f.readlines()]: the lines of a text, each with its terminator. *)
Definition readlines (s : string) : list string := readlines_from "" s.

Definition slash : Ascii.ascii := Ascii.ascii_of_nat 47.

(** [s[i] == '/'] *)
Definition char_is_slash (s : string) (i : Z) : py bool :=
  c <- lift (str_index s i) ;; ret (Ascii.eqb c slash).

(** ** Collaborators of the module *)

(** Modelled from the spec: [tfglib.utils.kronecker_delta] is not part of the
    sources; the spec describes it as the indicator that a value equals
    exactly zero. *)
Definition kronecker_delta (x : Q) : Z :=
  if Qeq_bool x 0 then 1%Z else 0%Z.

Inductive pad_mode : Type := src | trg.

(** Modelled from the spec: [tfglib.zero_pad.zero_pad_params] is not part of
    the sources; the spec describes it as extending a sequence to a target
    length by inserting zero-valued rows at one end, in front for the source
    side and at the back for the target side. *)
Definition zero_pad_params (max_length : nat) (mode : pad_mode) (params : matrix)
  : result matrix :=
  rbind (np_zeros (Z.of_nat max_length - Z.of_nat (nrows params)) (ncols params))
    (fun pad =>
       match mode with
       | src => np_concatenate pad params
       | trg => np_concatenate params pad
       end).

(** keras' [to_categorical(y, nb_classes)]: row [i] is all zero except a one
    at column [y[i]], which must be below [nb_classes]. *)
Definition to_categorical (y : list nat) (nb_classes : nat) : result matrix :=
  if forallb (fun k => k <? nb_classes) y
  then Ok (Matrix nb_classes (map (fun k => <[k := 1%Q]> (repeat 0%Q nb_classes)) y))
  else Raise IndexError.

(** The value of a one-element row, as Python reads [x == 0] on it. *)
Definition item (row : list Q) : result Q :=
  match row with
  | [x] => Ok x
  | _ => Raise ValueError
  end.

Fixpoint result_map {A B} (f : A -> result B) (l : list A) : result (list B) :=
  match l with
  | [] => Ok []
  | x :: l' => rbind (f x) (fun y => rbind (result_map f l') (fun ys => Ok (y :: ys)))
  end.

(** The voiced/unvoiced flags of a voicing stream:
    [voiced[index] = 1 - kronecker_delta(vf[index])] for every frame. *)
Definition voiced_flags (vf : matrix) : result matrix :=
  rbind
    (result_map
       (fun row => rbind (item row) (fun x =>
          Ok (repeat (inject_Z (1 - kronecker_delta x)) (ncols vf))))
       (rows vf))
    (fun rs => Ok (Matrix (ncols vf) rs)).

(** The end-of-sequence flag: [flag = np.zeros(shape); flag[-1, :] = 1]. *)
Definition eos_flag (shp : nat * nat) : result matrix :=
  let '(n, c) := shp in
  if n =? 0 then Raise IndexError
  else Ok (Matrix c (<[n - 1 := repeat 1%Q c]> (repeat (repeat 0%Q c) n))).

Section Datatable.

(** The vocoder parameter files below the data root: the numbers each holds. *)
Variable param_files : string -> option (list Q).

(** The list files: the text each holds. *)
Variable text_files : string -> option string.

(** Modelled from the spec: [tfglib.construct_table.parse_file] is not part
    of the sources; the spec gives its contract as
    [parse(width, path) -> frames x width numeric array], failing if the
    file size is not a multiple of [width]. *)
Definition parse_file (param_len : nat) (file_path : string) : result matrix :=
  match param_files file_path with
  | None => Raise IOError
  | Some data => reshape_rows data param_len
  end.

(** [open(path, 'r').readlines()] *)
Definition open_readlines (path : string) : py (list string) :=
  match text_files path with
  | None => raise IOError
  | Some text => ret (readlines text)
  end.

(** ** Sequence scanner *)

Definition find_longest_sequence (data_dir : string)
    (speakers_list basenames_list : list string) : py nat :=
  try_except
    (ok <- char_is_slash data_dir (Z.of_nat (String.length data_dir) - 1) ;;
     assert_ ok)
    AssertionError
    (print "Please, make sure the data directory string ends with a '/'") ;;
  for_fold speakers_list 0 (fun longest_sequence speaker =>
    for_fold basenames_list longest_sequence (fun longest_sequence basename =>
      params <- lift (parse_file 1
                  (data_dir +:+ "vocoded_s2s/" +:+ speaker +:+ "/" +:+
                   basename +:+ "." +:+ "lf0" +:+ ".dat")) ;;
      if longest_sequence <? nrows params
      then ret (nrows params)
      else ret longest_sequence)).

(** ** Pair builder *)

Definition seq2seq_build_file_table (source_dir : string) (src_index : nat)
    (target_dir : string) (trg_index : nat) (basename : string)
    (longest_seq : nat) : py (matrix * matrix * matrix * matrix) :=
  try_except
    (ok <- char_is_slash source_dir (-1) ;; assert_ ok)
    AssertionError
    (print "Please make sure the source data directory string ends with a '/'") ;;
  try_except
    (ok <- char_is_slash target_dir (-1) ;; assert_ ok)
    AssertionError
    (print "Please make sure the target data directory string ends with a '/'") ;;
  (* Parse parameter files *)
  source_mcp <- lift (parse_file 40 (source_dir +:+ basename +:+ "." +:+ "mcp" +:+ ".dat")) ;;
  source_f0 <- lift (parse_file 1 (source_dir +:+ basename +:+ "." +:+ "lf0" +:+ ".dat")) ;;
  source_f0_i <- lift (parse_file 1 (source_dir +:+ basename +:+ "." +:+ "lf0" +:+ ".i.dat")) ;;
  source_vf <- lift (parse_file 1 (source_dir +:+ basename +:+ "." +:+ "vf" +:+ ".dat")) ;;
  source_vf_i <- lift (parse_file 1 (source_dir +:+ basename +:+ "." +:+ "vf" +:+ ".i.dat")) ;;
  target_mcp <- lift (parse_file 40 (target_dir +:+ basename +:+ "." +:+ "mcp" +:+ ".dat")) ;;
  target_f0 <- lift (parse_file 1 (target_dir +:+ basename +:+ "." +:+ "lf0" +:+ ".dat")) ;;
  target_f0_i <- lift (parse_file 1 (target_dir +:+ basename +:+ "." +:+ "lf0" +:+ ".i.dat")) ;;
  target_vf <- lift (parse_file 1 (target_dir +:+ basename +:+ "." +:+ "vf" +:+ ".dat")) ;;
  target_vf_i <- lift (parse_file 1 (target_dir +:+ basename +:+ "." +:+ "vf" +:+ ".i.dat")) ;;
  (* Build voiced/unvoiced flag arrays *)
  assert_ (shape_eqb (shape source_vf) (shape source_f0)) ;;
  source_voiced <- lift (voiced_flags source_vf) ;;
  assert_ (shape_eqb (shape target_vf) (shape target_f0)) ;;
  target_voiced <- lift (voiced_flags target_vf) ;;
  (* Initialize End-Of-Sequence flag *)
  src_eos_flag <- lift (eos_flag (shape source_vf)) ;;
  trg_eos_flag <- lift (eos_flag (shape target_vf)) ;;
  (* Initialize one-hot-encoded speaker indexes *)
  src_spk_index <- lift (to_categorical (repeat src_index (nrows source_vf)) 10) ;;
  trg_spk_index <- lift (to_categorical (repeat trg_index (nrows target_vf)) 10) ;;
  (* Initialize padding masks *)
  src_pad <- lift (np_zeros (Z.of_nat longest_seq - Z.of_nat (nrows source_mcp)) 1) ;;
  source_mask <- lift (np_concatenate src_pad (np_ones (nrows source_mcp) 1)) ;;
  trg_pad <- lift (np_zeros (Z.of_nat longest_seq - Z.of_nat (nrows target_mcp)) 1) ;;
  target_mask <- lift (np_concatenate (np_ones (nrows target_mcp) 1) trg_pad) ;;
  assert_ (shape_eqb (shape source_mask) (shape target_mask)) ;;
  (* Concatenate zero-padded source and target params *)
  s1 <- lift (zero_pad_params longest_seq src source_mcp) ;;
  s2 <- lift (zero_pad_params longest_seq src source_f0_i) ;;
  s3 <- lift (zero_pad_params longest_seq src source_vf_i) ;;
  s4 <- lift (zero_pad_params longest_seq src source_voiced) ;;
  s5 <- lift (zero_pad_params longest_seq src src_eos_flag) ;;
  s6 <- lift (zero_pad_params longest_seq src src_spk_index) ;;
  s7 <- lift (zero_pad_params longest_seq src trg_spk_index) ;;
  source_params <- lift (np_concatenate1 [s1; s2; s3; s4; s5; s6; s7]) ;;
  t1 <- lift (zero_pad_params longest_seq trg target_mcp) ;;
  t2 <- lift (zero_pad_params longest_seq trg target_f0_i) ;;
  t3 <- lift (zero_pad_params longest_seq trg target_vf_i) ;;
  t4 <- lift (zero_pad_params longest_seq trg target_voiced) ;;
  t5 <- lift (zero_pad_params longest_seq trg trg_eos_flag) ;;
  target_params <- lift (np_concatenate1 [t1; t2; t3; t4; t5]) ;;
  ret (source_params, source_mask, target_params, target_mask).

(** ** Corpus assembler *)

(** A numpy masked array: [None] marks a masked cell. *)
Record masked_array : Type :=
  MaskedArray { ma_ncols : nat; ma_rows : list (list (option Q)) }.

(** [a[:, 0:k]] *)
Definition first_columns (k : nat) (a : matrix) : matrix :=
  Matrix (min k (ncols a)) (map (take k) (rows a)).

(** [np.repeat(a, k, axis=1)] *)
Definition np_repeat (a : matrix) (k : nat) : matrix :=
  Matrix (ncols a * k) (map (fun r => mjoin (map (fun x => repeat x k) r)) (rows a)).

(** [1 - a] *)
Definition one_minus (a : matrix) : matrix :=
  Matrix (ncols a) (map (map (fun x => (1 - x)%Q)) (rows a)).

(** [np.ma.array(data, mask=mask)]: a cell is masked where the mask is not
    zero; the two shapes must agree. *)
Definition ma_array (data mask : matrix) : result masked_array :=
  if shape_eqb (shape data) (shape mask)
  then Ok (MaskedArray (ncols data)
             (zip_with (zip_with (fun x m => if Qeq_bool m 0 then Some x else None))
                (rows data) (rows mask)))
  else Raise ValueError.

Definition merge_cell (f : Q -> Q -> Q) (a b : option Q) : option Q :=
  match a, b with
  | Some x, Some y => Some (f x y)
  | Some x, None => Some x
  | None, b => b
  end.

(** numpy's default fill value of a float masked array. *)
Definition default_fill_value : Q := 1e20.

(** [np.ma.max(a, axis=0)] and [np.ma.min(a, axis=0)] as the assignment into a
    plain array reads them: per column, the reduction over the cells that are
    not masked; a column with every cell masked holds the fill value. *)
Definition ma_reduce (f : Q -> Q -> Q) (a : masked_array) : list Q :=
  map (default default_fill_value)
    (fold_left (zip_with (merge_cell f)) (ma_rows a) (repeat None (ma_ncols a))).

Definition ma_max : masked_array -> list Q := ma_reduce Qmax.
Definition ma_min : masked_array -> list Q := ma_reduce Qmin.

(** [np.maximum(a, b)] and [np.minimum(a, b)] on two rows of equal length
    (both have 42 cells in this program, so numpy's broadcasting of a row of
    one cell never comes into play). *)
Definition np_elementwise (f : Q -> Q -> Q) (a b : list Q) : result (list Q) :=
  if length a =? length b then Ok (zip_with f a b) else Raise ValueError.

Definition np_maximum : list Q -> list Q -> result (list Q) := np_elementwise Qmax.
Definition np_minimum : list Q -> list Q -> result (list Q) := np_elementwise Qmin.

(** [a[i, :]] *)
Definition get_row (a : matrix) (i : nat) : result (list Q) :=
  match rows a !! i with
  | Some r => Ok r
  | None => Raise IndexError
  end.

(** [a[i, :] = r] *)
Definition set_row (a : matrix) (i : nat) (r : list Q) : result matrix :=
  if i <? nrows a then
    if length r =? ncols a then Ok (Matrix (ncols a) (<[i := r]> (rows a)))
    else Raise ValueError
  else Raise IndexError.

(** The local variables of the assembler's loop. *)
Record tables : Type :=
  Tables {
    src_datatable : list matrix;
    trg_datatable : list matrix;
    src_masks : list matrix;
    trg_masks : list matrix;
    spk_max : matrix;
    spk_min : matrix
  }.

(** The seed of the minimum accumulator, [1e+50] (as a float, the double
    nearest to this power of ten; only its being a fixed large value matters
    below). *)
Definition min_seed : Q := 1e50.

Definition initial_tables : tables :=
  Tables [] [] [] []
    (Matrix 42 (repeat (repeat 0%Q 42) 10))
    (Matrix 42 (repeat (repeat min_seed 42) 10)).

(** One pass of the innermost loop body. *)
Definition process_pair (data_dir : string) (longest_seq : nat)
    (src_index : nat) (src_spk : string) (trg_index : nat) (trg_spk : string)
    (t : tables) (basename : string) : py tables :=
  print (src_spk +:+ "->" +:+ trg_spk +:+ " " +:+ basename) ;;
  aux <- seq2seq_build_file_table
           (data_dir +:+ "vocoded_s2s/" +:+ src_spk +:+ "/") src_index
           (data_dir +:+ "vocoded_s2s/" +:+ trg_spk +:+ "/") trg_index
           basename longest_seq ;;
  let '(aux_src_params, aux_src_mask, aux_trg_params, aux_trg_mask) := aux in
  (* Mask parameters to avoid the zero-padded values *)
  masked_params <- lift (ma_array (first_columns 42 aux_src_params)
                           (one_minus (np_repeat aux_src_mask 42))) ;;
  (* Compute maximum and minimum values *)
  old_max <- lift (get_row (spk_max t) src_index) ;;
  new_max <- lift (np_maximum old_max (ma_max masked_params)) ;;
  spk_max' <- lift (set_row (spk_max t) src_index new_max) ;;
  old_min <- lift (get_row (spk_min t) src_index) ;;
  new_min <- lift (np_minimum old_min (ma_min masked_params)) ;;
  spk_min' <- lift (set_row (spk_min t) src_index new_min) ;;
  (* Append sequence params and masks to main datatables and masks *)
  ret (Tables (src_datatable t ++ [aux_src_params])
              (trg_datatable t ++ [aux_trg_params])
              (src_masks t ++ [aux_src_mask])
              (trg_masks t ++ [aux_trg_mask])
              spk_max' spk_min').

(** The 7-tuple the assembler returns. *)
Definition datatable : Type :=
  (ndarray * ndarray * ndarray * ndarray * nat * matrix * matrix)%type.

Definition seq2seq_construct_datatable (data_dir speakers_file basenames_file : string)
  : py datatable :=
  try_except
    (ok <- char_is_slash data_dir (-1) ;; assert_ ok)
    AssertionError
    (print "Please, make sure the data directory string ends with a '/'") ;;
  (* Parse speakers file *)
  speakers <- open_readlines (data_dir +:+ speakers_file) ;;
  let speakers := map before_newline speakers in
  (* Parse basenames file *)
  basenames <- open_readlines (data_dir +:+ basenames_file) ;;
  let basenames := map before_newline basenames in
  (* Find number of frames in longest sequence in the dataset *)
  longest_seq <- find_longest_sequence data_dir speakers basenames ;;
  (* Nest iterate over speakers *)
  t <- for_fold (enumerate speakers) initial_tables (fun t '(src_index, src_spk) =>
         for_fold (enumerate speakers) t (fun t '(trg_index, trg_spk) =>
           for_fold basenames t
             (process_pair data_dir longest_seq src_index src_spk trg_index trg_spk))) ;;
  a_src <- lift (np_array (src_datatable t)) ;;
  a_src_masks <- lift (np_array (src_masks t)) ;;
  m_src <- lift (reshape_rows (ravel a_src_masks) longest_seq) ;;
  a_trg <- lift (np_array (trg_datatable t)) ;;
  a_trg_masks <- lift (np_array (trg_masks t)) ;;
  m_trg <- lift (reshape_rows (ravel a_trg_masks) longest_seq) ;;
  ret (a_src, Nd2 m_src, a_trg, Nd2 m_trg, longest_seq, spk_max t, spk_min t).

(** ** Datatable store *)

(** [h5py.File(path, 'w')]: the container is created, or emptied. *)
Definition h5_create (path : string) : py unit :=
  fun w => (Ok tt, World (stdout w) (<[path := H5File ∅ ∅]> (h5_store w))).

Definition h5_update (path : string) (f : h5file -> result h5file) : py unit :=
  fun w =>
    match h5_store w !! path with
    | None => (Raise IOError, w)
    | Some file =>
        match f file with
        | Ok file' => (Ok tt, World (stdout w) (<[path := file']> (h5_store w)))
        | Raise e => (Raise e, w)
        end
    end.

(** [f.attrs.create(name, data)] *)
Definition attrs_create (path name : string) (data : pyobj) : py unit :=
  h5_update path (fun file =>
    Ok (H5File (<[name := data]> (h5_attrs file)) (h5_datasets file))).

(** [f.create_dataset(name, data=data, compression="gzip", compression_opts=9)]:
    a name already in use is refused. *)
Definition create_dataset (path name : string) (data : ndarray) : py unit :=
  h5_update path (fun file =>
    match h5_datasets file !! name with
    | Some _ => Raise ValueError
    | None => Ok (H5File (h5_attrs file) (<[name := data]> (h5_datasets file)))
    end).

(** [h5py.File(path, 'r')] *)
Definition h5_open (path : string) : py h5file :=
  fun w =>
    match h5_store w !! path with
    | None => (Raise IOError, w)
    | Some file => (Ok file, w)
    end.

(** [file[name][:, :]]: the whole dataset, which must have two dimensions or
    more. *)
Definition read_dataset (file : h5file) (name : string) : result ndarray :=
  match h5_datasets file !! name with
  | None => Raise KeyError
  | Some a => if 2 <=? ndim a then Ok a else Raise TypeError
  end.

(** [file.attrs.get(name)] *)
Definition attrs_get (file : h5file) (name : string) : pyobj :=
  default PyNone (h5_attrs file !! name).

Definition seq2seq_save_datatable (data_dir datatable_out_file : string)
  : py datatable :=
  try_except
    (ok <- char_is_slash data_dir (-1) ;; assert_ ok)
    AssertionError
    (print "Please, make sure the data directory string ends with a '/'") ;;
  (* [type(datatable_out_file) == str] holds of every [string] *)
  try_except
    (assert_ true)
    AssertionError
    (print "Please, make sure the data output filename is a string") ;;
  (* Construct datatables and masks *)
  x <- seq2seq_construct_datatable data_dir "speakers.list" "seq2seq_basenames.list" ;;
  let '(source_datatable, source_masks, target_datatable, target_masks,
        max_seq_length, speakers_max, speakers_min) := x in
  let data_dict :=
    [("src_datatable", source_datatable);
     ("trg_datatable", target_datatable);
     ("src_mask", source_masks);
     ("trg_mask", target_masks)] in
  (* Save data to .h5 file *)
  let f := datatable_out_file +:+ ".h5" in
  h5_create f ;;
  attrs_create f "max_seq_length" (PyInt (Z.of_nat max_seq_length)) ;;
  attrs_create f "speakers_max" (PyArray (Nd2 speakers_max)) ;;
  attrs_create f "speakers_min" (PyArray (Nd2 speakers_min)) ;;
  for_fold data_dict tt (fun _ '(dataset_name, dataset) =>
    create_dataset f dataset_name dataset) ;;
  ret (source_datatable, source_masks, target_datatable, target_masks,
       max_seq_length, speakers_max, speakers_min).

(** The 7-tuple as it comes back from a container. *)
Definition loaded_datatable : Type :=
  (ndarray * ndarray * ndarray * ndarray * pyobj * pyobj * pyobj)%type.

Definition seq2seq2_load_datatable (datatable_file : string) : py loaded_datatable :=
  file <- h5_open datatable_file ;;
  (* Load datasets *)
  source_datatable <- lift (read_dataset file "src_datatable") ;;
  target_datatable <- lift (read_dataset file "trg_datatable") ;;
  source_masks <- lift (read_dataset file "src_mask") ;;
  target_masks <- lift (read_dataset file "trg_mask") ;;
  (* Load max_seq_length attribute *)
  let max_seq_length := attrs_get file "max_seq_length" in
  let speakers_max := attrs_get file "speakers_max" in
  let speakers_min := attrs_get file "speakers_min" in
  ret (source_datatable, source_masks, target_datatable, target_masks,
       max_seq_length, speakers_max, speakers_min).

(** How Python sees the assembler's tuple: the integer and the two matrices
    as objects. *)
Definition as_loaded (x : datatable) : loaded_datatable :=
  let '(a, b, c, d, n, mx, mn) := x in
  (a, b, c, d, PyInt (Z.of_nat n), PyArray (Nd2 mx), PyArray (Nd2 mn)).

End Datatable.

(** ** Reference notions used by the statements *)

(** The last character of a path is ['/']. *)
Definition ends_with_slash (s : string) : bool :=
  match String.get (String.length s - 1) s with
  | Some c => Ascii.eqb c slash
  | None => false
  end.

(** The path of the log-F0 stream of an utterance of a speaker. *)
Definition lf0_path (data_dir speaker basename : string) : string :=
  data_dir +:+ "vocoded_s2s/" +:+ speaker +:+ "/" +:+ basename +:+ "." +:+ "lf0" +:+ ".dat".

(** The frame count of a log-F0 stream; zero when it cannot be parsed. *)
Definition lf0_frames (param_files : string -> option (list Q))
    (data_dir speaker basename : string) : nat :=
  match parse_file param_files 1 (lf0_path data_dir speaker basename) with
  | Ok m => nrows m
  | Raise _ => 0
  end.

Definition lf0_parses (param_files : string -> option (list Q))
    (data_dir speaker basename : string) : Prop :=
  exists m, parse_file param_files 1 (lf0_path data_dir speaker basename) = Ok m.

Section Reference.

Context (param_files : string -> option (list Q)).

(** The body of the scanner's inner loop. *)
Definition scan_step (data_dir speaker : string) (longest_sequence : nat)
    (basename : string) : py nat :=
  params <- lift (parse_file param_files 1 (lf0_path data_dir speaker basename)) ;;
  if longest_sequence <? nrows params then ret (nrows params) else ret longest_sequence.

(** The scanner's two loops, after the path check. *)
Definition scan_loops (data_dir : string) (speakers_list basenames_list : list string)
  : py nat :=
  for_fold speakers_list 0 (fun longest_sequence speaker =>
    for_fold basenames_list longest_sequence (scan_step data_dir speaker)).

(** The frame counts of the streams of one speaker, and of all of them. *)
Definition speaker_counts (data_dir : string) (basenames : list string)
    (speaker : string) : list nat :=
  map (lf0_frames param_files data_dir speaker) basenames.

Definition corpus_counts (data_dir : string) (speakers basenames : list string)
  : list nat :=
  mjoin (map (speaker_counts data_dir basenames) speakers).

End Reference.

(** ** A small corpus

    Two speakers and one utterance: speaker [A] has one frame, speaker [B]
    has two.  Every spectral coefficient of [A] is negative. *)

Fixpoint lookup_file {A} (table : list (string * A)) (path : string) : option A :=
  match table with
  | [] => None
  | (p, x) :: table' => if String.eqb p path then Some x else lookup_file table' path
  end.

Definition demo_params : string -> option (list Q) :=
  lookup_file
    [("d/vocoded_s2s/A/u.mcp.dat", repeat (-1)%Q 40);
     ("d/vocoded_s2s/A/u.lf0.dat", [5%Q]);
     ("d/vocoded_s2s/A/u.lf0.i.dat", [5%Q]);
     ("d/vocoded_s2s/A/u.vf.dat", [0%Q]);
     ("d/vocoded_s2s/A/u.vf.i.dat", [3%Q]);
     ("d/vocoded_s2s/B/u.mcp.dat", repeat 2%Q 80);
     ("d/vocoded_s2s/B/u.lf0.dat", [4%Q; 6%Q]);
     ("d/vocoded_s2s/B/u.lf0.i.dat", [4%Q; 6%Q]);
     ("d/vocoded_s2s/B/u.vf.dat", [7%Q; 0%Q]);
     ("d/vocoded_s2s/B/u.vf.i.dat", [7%Q; 7%Q])].

Definition line (s : string) : string := s +:+ String newline EmptyString.

Definition demo_text : string -> option string :=
  lookup_file
    [("d/speakers.list", line "A" +:+ line "B");
     ("d/seq2seq_basenames.list", line "u")].

(** A directory whose raw log-F0 and voicing streams have two frames while
    the interpolated log-F0 stream and the spectral stream have one. *)
Definition mismatch_params : string -> option (list Q) :=
  lookup_file
    [("m/u.mcp.dat", repeat 1%Q 40);
     ("m/u.lf0.dat", [5%Q; 5%Q]);
     ("m/u.lf0.i.dat", [5%Q]);
     ("m/u.vf.dat", [3%Q; 3%Q]);
     ("m/u.vf.i.dat", [3%Q; 3%Q])].

(** A directory whose raw voicing stream has one frame while its raw log-F0
    stream has two. *)
Definition corrupt_params : string -> option (list Q) :=
  lookup_file
    [("c/u.mcp.dat", repeat 1%Q 40);
     ("c/u.lf0.dat", [5%Q; 5%Q]);
     ("c/u.lf0.i.dat", [5%Q; 5%Q]);
     ("c/u.vf.dat", [3%Q]);
     ("c/u.vf.i.dat", [3%Q])].

(** The world before the program runs: nothing printed, nothing stored. *)
Definition empty_world : world := World [] ∅.

(** [n] rows of [c] zeros. *)
Definition zero_rows (n c : nat) : list (list Q) := repeat (repeat 0%Q c) n.

(** The rows of a stream extended to [longest_seq] rows by zero rows: in
    front on the source side, at the back on the target side. *)
Definition padded_rows (longest_seq : nat) (mode : pad_mode) (params : matrix)
  : list (list Q) :=
  match mode with
  | src => zero_rows (longest_seq - nrows params) (ncols params) ++ rows params
  | trg => rows params ++ zero_rows (longest_seq - nrows params) (ncols params)
  end.

(** Every row of a matrix has as many cells as the matrix has columns. *)
Definition well_shaped (m : matrix) : Prop :=
  Forall (fun r => length r = ncols m) (rows m).

(** The ten parameter streams of a (source, target, utterance) triple. *)
Record pair_streams : Type :=
  PairStreams {
    source_mcp : matrix; source_f0 : matrix; source_f0_i : matrix;
    source_vf : matrix; source_vf_i : matrix;
    target_mcp : matrix; target_f0 : matrix; target_f0_i : matrix;
    target_vf : matrix; target_vf_i : matrix
  }.

(** [dir + basename + '.' + tag + suffix] *)
Definition stream_path (dir basename tag suffix : string) : string :=
  dir +:+ basename +:+ "." +:+ tag +:+ suffix.

(** The streams are what the parser reads from the ten files of the pair. *)
Definition parsed_streams (param_files : string -> option (list Q))
    (source_dir target_dir basename : string) (st : pair_streams) : Prop :=
  parse_file param_files 40 (stream_path source_dir basename "mcp" ".dat") = Ok (source_mcp st) /\
  parse_file param_files 1 (stream_path source_dir basename "lf0" ".dat") = Ok (source_f0 st) /\
  parse_file param_files 1 (stream_path source_dir basename "lf0" ".i.dat") = Ok (source_f0_i st) /\
  parse_file param_files 1 (stream_path source_dir basename "vf" ".dat") = Ok (source_vf st) /\
  parse_file param_files 1 (stream_path source_dir basename "vf" ".i.dat") = Ok (source_vf_i st) /\
  parse_file param_files 40 (stream_path target_dir basename "mcp" ".dat") = Ok (target_mcp st) /\
  parse_file param_files 1 (stream_path target_dir basename "lf0" ".dat") = Ok (target_f0 st) /\
  parse_file param_files 1 (stream_path target_dir basename "lf0" ".i.dat") = Ok (target_f0_i st) /\
  parse_file param_files 1 (stream_path target_dir basename "vf" ".dat") = Ok (target_vf st) /\
  parse_file param_files 1 (stream_path target_dir basename "vf" ".i.dat") = Ok (target_vf_i st).

(** The flag columns the builder derives from the streams. *)
Record pair_flags : Type :=
  PairFlags {
    source_voiced : matrix; target_voiced : matrix;
    src_eos_flag : matrix; trg_eos_flag : matrix;
    src_spk_index : matrix; trg_spk_index : matrix
  }.

Definition derived_flags (src_index trg_index : nat) (st : pair_streams)
    (fl : pair_flags) : Prop :=
  voiced_flags (source_vf st) = Ok (source_voiced fl) /\
  voiced_flags (target_vf st) = Ok (target_voiced fl) /\
  eos_flag (shape (source_vf st)) = Ok (src_eos_flag fl) /\
  eos_flag (shape (target_vf st)) = Ok (trg_eos_flag fl) /\
  to_categorical (repeat src_index (nrows (source_vf st))) 10 = Ok (src_spk_index fl) /\
  to_categorical (repeat trg_index (nrows (target_vf st))) 10 = Ok (trg_spk_index fl).

(** A stream zero-padded to [longest_seq] rows. *)
Definition padded (longest_seq : nat) (mode : pad_mode) (params : matrix) : matrix :=
  Matrix (ncols params) (padded_rows longest_seq mode params).

(** The seven padded blocks of the source side and the five of the target
    side, in the order the builder concatenates them. *)
Definition source_blocks (longest_seq : nat) (st : pair_streams) (fl : pair_flags)
  : list matrix :=
  [padded longest_seq src (source_mcp st);
   padded longest_seq src (source_f0_i st);
   padded longest_seq src (source_vf_i st);
   padded longest_seq src (source_voiced fl);
   padded longest_seq src (src_eos_flag fl);
   padded longest_seq src (src_spk_index fl);
   padded longest_seq src (trg_spk_index fl)].

Definition target_blocks (longest_seq : nat) (st : pair_streams) (fl : pair_flags)
  : list matrix :=
  [padded longest_seq trg (target_mcp st);
   padded longest_seq trg (target_f0_i st);
   padded longest_seq trg (target_vf_i st);
   padded longest_seq trg (target_voiced fl);
   padded longest_seq trg (trg_eos_flag fl)].

(** The entries of a list file: its lines without their terminators. *)
Definition read_list (text_files : string -> option string) (path : string)
  : option (list string) :=
  (fun text => map before_newline (readlines text)) <$> text_files path.

(** The assembler's three nested loops. *)
Definition assemble_loops (param_files : string -> option (list Q))
    (data_dir : string) (longest_seq : nat) (speakers basenames : list string)
    (t0 : tables) : py tables :=
  for_fold (enumerate speakers) t0 (fun t '(src_index, src_spk) =>
    for_fold (enumerate speakers) t (fun t '(trg_index, trg_spk) =>
      for_fold basenames t
        (process_pair param_files data_dir longest_seq
           src_index src_spk trg_index trg_spk))).

(** The rows of a feature matrix that its mask marks as real frames. *)
Definition unpadded_rows (params mask : matrix) : list (list Q) :=
  fst <$> List.filter
            (fun pr => match snd pr with
                       | [x] => Qeq_bool x 1
                       | _ => false
                       end)
            (zip (rows params) (rows mask)).

(** [a <= b], cell by cell. *)
Definition matrix_le (a b : matrix) : Prop :=
  Forall2 (Forall2 Qle) (rows a) (rows b).

(** The number of values that are one. *)
Definition ones (l : list Q) : nat :=
  length (List.filter (fun x => Qeq_bool x 1) l).

(** The number of cells of a mask that hold a one. *)
Definition count_ones (m : matrix) : nat := ones (concat (rows m)).

(** [m[:, c]] *)
Definition column (c : nat) (m : matrix) : list Q :=
  (fun row => nth c row 0%Q) <$> rows m.

(** ** Notions used by the further properties *)




(** A computation with no effect on the world, whatever its outcome. *)
Definition silent {A} (m : py A) : Prop :=
  forall w r w', m w = (r, w') -> w' = w.

(** The world after a path check: the message is printed when the path is
    not empty and its last character is not ['/']. *)
Definition warned (dir msg : string) (w : world) : world :=
  if ends_with_slash dir || String.eqb dir "" then w
  else World (stdout w ++ [msg]) (h5_store w).

(** The small corpus with other values in the raw log-F0 streams. *)
Definition other_f0_params : string -> option (list Q) :=
  fun path =>
    if String.eqb path "d/vocoded_s2s/A/u.lf0.dat" then Some [9%Q]
    else if String.eqb path "d/vocoded_s2s/B/u.lf0.dat" then Some [8%Q; 0%Q]
    else demo_params path.

(** The progress lines of the assembler: one per (source, target, utterance)
    triple, in the order of its three loops. *)
Definition progress_lines (speakers basenames : list string) : list string :=
  src_spk ← speakers;
  trg_spk ← speakers;
  basename ← basenames;
  [src_spk +:+ "->" +:+ trg_spk +:+ " " +:+ basename].

(** A source mask: a column of zeros over the padding, then ones over the
    [n] real frames; a target mask has the ones first. *)
Definition front_padded_mask (longest_seq n : nat) : matrix :=
  Matrix 1 (repeat [0%Q] (longest_seq - n) ++ repeat [1%Q] n).

Definition back_padded_mask (longest_seq n : nat) : matrix :=
  Matrix 1 (repeat [1%Q] n ++ repeat [0%Q] (longest_seq - n)).

(** An array of [r] rows and [c] columns, each row with [c] cells. *)
Definition has_shape (r c : nat) (m : matrix) : Prop :=
  nrows m = r /\ ncols m = c /\ well_shaped m.

(** What the assembler's loops keep true of their six variables. *)
Record tables_shaped (longest_seq : nat) (t : tables) : Prop :=
  TablesShaped {
    shaped_src : Forall (has_shape longest_seq 64) (src_datatable t);
    shaped_trg : Forall (has_shape longest_seq 44) (trg_datatable t);
    shaped_src_masks :
      Forall (fun sm => exists n, n <= longest_seq /\
                                  sm = front_padded_mask longest_seq n) (src_masks t);
    shaped_trg_masks :
      Forall (fun tm => exists n, n <= longest_seq /\
                                  tm = back_padded_mask longest_seq n) (trg_masks t);
    shaped_max : has_shape 10 42 (spk_max t);
    shaped_min : has_shape 10 42 (spk_min t)
  }.

(** [m[i, c]] *)
Definition cell (m : matrix) (i c : nat) : option Q :=
  rows m !! i ≫= (fun row => row !! c).

(** The source speaker a feature matrix is coded for: the indicator columns
    44 to 53 end in a one at [44 + i] and in zeros elsewhere. *)
Definition coded_for (sp : matrix) (i : nat) : Prop :=
  forall k, k < 10 ->
    last (column (44 + k) sp) = Some (if decide (k = i) then 1%Q else 0%Q).

(** Rows [i] of the two accumulators bound the first 42 features of every
    frame of [sp] that the mask column [sm] marks as real. *)
Definition bounds_frames (mx mn : matrix) (i : nat) (sp sm : matrix) : Prop :=
  forall frame col v,
    rows sm !! frame = Some [1%Q] -> col < 42 -> cell sp frame col = Some v ->
    exists lo hi,
      cell mn i col = Some lo /\ cell mx i col = Some hi /\ (lo <= v <= hi)%Q.

Definition pair_covered (mx mn : matrix) (sp sm : matrix) : Prop :=
  exists i, i < 10 /\ coded_for sp i /\ bounds_frames mx mn i sp sm.

(** A computation whose result does not depend on the world it runs in. *)
Definition world_blind {A} (m : py A) : Prop :=
  forall w1 w2, fst (m w1) = fst (m w2).

(** The triples the assembler's loops go through, in order: source speaker
    and target speaker, each with its index, and utterance. *)
Definition triples (speakers basenames : list string)
  : list ((nat * string) * (nat * string) * string) :=
  source ← enumerate speakers;
  target ← enumerate speakers;
  basename ← basenames;
  [(source, target, basename)].

(** What the pair builder returns for a triple of the corpus. *)
Definition build_output (param_files : string -> option (list Q))
    (data_dir : string) (longest_seq : nat)
    (triple : (nat * string) * (nat * string) * string)
  : result (matrix * matrix * matrix * matrix) :=
  let '((src_index, src_spk), (trg_index, trg_spk), basename) := triple in
  fst (seq2seq_build_file_table param_files
         (data_dir +:+ "vocoded_s2s/" +:+ src_spk +:+ "/") src_index
         (data_dir +:+ "vocoded_s2s/" +:+ trg_spk +:+ "/") trg_index
         basename longest_seq empty_world).

(** The four lists of the loop are the four components of a list of
    builder outputs. *)
Definition collected (t : tables) (outs : list (matrix * matrix * matrix * matrix))
  : Prop :=
  src_datatable t = map (fun o => o.1.1.1) outs /\
  src_masks t = map (fun o => o.1.1.2) outs /\
  trg_datatable t = map (fun o => o.1.2) outs /\
  trg_masks t = map (fun o => o.2) outs.

(** ** The monad: inversion of successful runs *)

Lemma bind_ok {A B} (m : py A) (k : A -> py B) w b w' :
  bind m k w = (Ok b, w') ->
  exists a w1, m w = (Ok a, w1) /\ k a w1 = (Ok b, w').
Proof.
  unfold bind. destruct (m w) as [[a|e] w1]; intros H; [eauto | discriminate].
Qed.

Lemma bind_run {A B} (m : py A) (k : A -> py B) w a w1 :
  m w = (Ok a, w1) -> bind m k w = k a w1.
Proof. unfold bind. intros ->. reflexivity. Qed.

Lemma bind_raise {A B} (m : py A) (k : A -> py B) w e w1 :
  m w = (Raise e, w1) -> bind m k w = (Raise e, w1).
Proof. unfold bind. intros ->. reflexivity. Qed.

Lemma lift_ok {A} (r : result A) w a w' :
  lift r w = (Ok a, w') -> r = Ok a /\ w' = w.
Proof. unfold lift. intros H. inversion H. auto. Qed.

Lemma ret_ok {A} (x a : A) w w' : ret x w = (Ok a, w') -> a = x /\ w' = w.
Proof. unfold ret. intros H. inversion H. auto. Qed.

Lemma assert_ok c w u w' : assert_ c w = (Ok u, w') -> c = true /\ w' = w.
Proof.
  unfold assert_. destruct c; intros H; inversion H; auto.
Qed.

Lemma rbind_ok {A B} (r : result A) (k : A -> result B) b :
  rbind r k = Ok b -> exists a, r = Ok a /\ k a = Ok b.
Proof. destruct r; simpl; intros H; [eauto | discriminate]. Qed.

(** Peel the successful run of a sequence of statements, one at a time. *)
Ltac py_step H :=
  lazymatch type of H with
  | bind _ _ _ = (Ok _, _) =>
      let a := fresh "v" in
      let w := fresh "w" in
      let H1 := fresh "Hrun" in
      apply bind_ok in H; destruct H as (a & w & H1 & H)
  end.

Ltac py_lift H :=
  lazymatch type of H with
  | lift _ _ = (Ok _, _) =>
      let E := fresh "E" in
      apply lift_ok in H; destruct H as [H E]; subst
  | assert_ _ _ = (Ok _, _) =>
      let E := fresh "E" in
      apply assert_ok in H; destruct H as [H E]; subst
  | ret _ _ = (Ok _, _) =>
      let E := fresh "E" in
      apply ret_ok in H; destruct H as [H E]; subst
  end.

(** A loop whose body keeps an invariant keeps it. *)
Lemma for_fold_invariant {A S} (P : S -> world -> Prop) (l : list A)
    (body : S -> A -> py S) :
  (forall s x w s' w', x ∈ l -> P s w -> body s x w = (Ok s', w') -> P s' w') ->
  forall s w s' w', P s w -> for_fold l s body w = (Ok s', w') -> P s' w'.
Proof.
  induction l as [|x l IH]; intros Hbody s w s' w' HP Hrun; simpl in Hrun.
  - py_lift Hrun. assumption.
  - py_step Hrun. eapply IH; [ | | exact Hrun].
    + intros. eapply Hbody; eauto. apply elem_of_cons; by right.
    + eapply Hbody; eauto. apply elem_of_cons; by left.
Qed.

(** ** The path checks *)

Lemma string_get_lt (s : string) (n : nat) :
  n < String.length s -> exists c, String.get n s = Some c.
Proof.
  revert n. induction s as [|c s IH]; intros n Hn; simpl in *; [lia|].
  destruct n as [|n]; [eauto | apply IH; lia].
Qed.

Lemma str_index_last (s : string) (i : Z) :
  s <> EmptyString ->
  (i = -1 \/ i = Z.of_nat (String.length s) - 1)%Z ->
  exists c, str_index s i = Ok c /\ String.get (String.length s - 1) s = Some c.
Proof.
  intros Hs Hi.
  assert (Hlen : 0 < String.length s) by (destruct s; simpl; [congruence | lia]).
  destruct (string_get_lt s (String.length s - 1)) as [c Hc]; [lia|].
  exists c. split; [|exact Hc]. unfold str_index.
  assert (Hj : (if (i <? 0)%Z then (i + Z.of_nat (String.length s))%Z else i)
               = Z.of_nat (String.length s - 1)).
  { destruct Hi as [Hi | Hi]; subst i.
    - change (-1 <? 0)%Z with true. lia.
    - destruct (Z.ltb_spec (Z.of_nat (String.length s) - 1) 0); lia. }
  rewrite Hj.
  destruct (Z.leb_spec0 0 (Z.of_nat (String.length s - 1))); [|lia].
  destruct (Z.ltb_spec0 (Z.of_nat (String.length s - 1)) (Z.of_nat (String.length s))); [|lia].
  simpl. rewrite Nat2Z.id, Hc. reflexivity.
Qed.

(** On a path that is not empty the check never raises: it prints its
    message when the last character is not ['/'], and nothing otherwise. *)
Lemma dir_check_nonempty (s : string) (i : Z) (msg : string) (w : world) :
  s <> EmptyString ->
  (i = -1 \/ i = Z.of_nat (String.length s) - 1)%Z ->
  try_except (ok <- char_is_slash s i ;; assert_ ok) AssertionError (print msg) w
  = (Ok tt, if ends_with_slash s then w else World (stdout w ++ [msg]) (h5_store w)).
Proof.
  intros Hs Hi. destruct (str_index_last s i Hs Hi) as (c & Hc & Hget).
  unfold try_except, bind, char_is_slash, bind, lift, ret, ends_with_slash.
  rewrite Hc, Hget. destruct (Ascii.eqb c slash); reflexivity.
Qed.

(** On the empty path the indexing itself raises, and [IndexError] is not
    what the handler catches. *)
Lemma dir_check_empty (i : Z) (msg : string) (w : world) :
  (i = -1 \/ i = Z.of_nat (String.length EmptyString) - 1)%Z ->
  try_except (ok <- char_is_slash EmptyString i ;; assert_ ok)
    AssertionError (print msg) w
  = (Raise IndexError, w).
Proof. intros [-> | ->]; reflexivity. Qed.

(** A check that passes was made on a path that is not empty, and changes
    nothing but standard output. *)
Lemma dir_check_ok (s : string) (i : Z) (msg : string) (w : world) u w' :
  (i = -1 \/ i = Z.of_nat (String.length s) - 1)%Z ->
  try_except (ok <- char_is_slash s i ;; assert_ ok) AssertionError (print msg) w
  = (Ok u, w') ->
  s <> EmptyString /\ h5_store w' = h5_store w /\
  stdout w' = if ends_with_slash s then stdout w else stdout w ++ [msg].
Proof.
  intros Hi Hrun. destruct (decide (s = EmptyString)) as [-> | Hs].
  - rewrite dir_check_empty in Hrun by exact Hi. discriminate.
  - rewrite dir_check_nonempty in Hrun by auto. inversion Hrun.
    split; [exact Hs|]. destruct (ends_with_slash s); auto.
Qed.

(** ** The sequence scanner *)

Lemma max_list_app (l1 l2 : list nat) :
  max_list (l1 ++ l2) = max_list l1 `max` max_list l2.
Proof. induction l1 as [|x l1 IH]; simpl; [reflexivity | rewrite IH; lia]. Qed.

Section Scanner.

Context (param_files : string -> option (list Q)).

Lemma scan_step_run d sp l0 bn w :
  lf0_parses param_files d sp bn ->
  scan_step param_files d sp l0 bn w = (Ok (l0 `max` lf0_frames param_files d sp bn), w).
Proof.
  intros [m Hm]. unfold scan_step, lf0_frames, bind, lift. rewrite Hm.
  destruct (Nat.ltb_spec l0 (nrows m)); unfold ret; do 2 f_equal; lia.
Qed.

Lemma scan_step_parses d sp l0 bn w n w' :
  scan_step param_files d sp l0 bn w = (Ok n, w') -> lf0_parses param_files d sp bn.
Proof.
  unfold scan_step. intros H. py_step H. py_lift Hrun. by eexists.
Qed.

Lemma scan_basenames_run d sp bns l0 w :
  Forall (lf0_parses param_files d sp) bns ->
  for_fold bns l0 (scan_step param_files d sp) w
  = (Ok (l0 `max` max_list (speaker_counts param_files d bns sp)), w).
Proof.
  intros H. revert l0. induction H as [|bn bns Hbn _ IH]; intros l0; simpl.
  - unfold ret. do 2 f_equal. lia.
  - erewrite bind_run by (by apply scan_step_run). rewrite IH.
    do 2 f_equal. lia.
Qed.

Lemma scan_basenames_parses d sp bns l0 w n w' :
  for_fold bns l0 (scan_step param_files d sp) w = (Ok n, w') ->
  Forall (lf0_parses param_files d sp) bns.
Proof.
  revert l0 w. induction bns as [|bn bns IH]; intros l0 w H; simpl in H.
  - constructor.
  - py_step H. constructor; [by eapply scan_step_parses | by eapply IH].
Qed.

Lemma scan_loops_from_run d sps bns l0 w :
  Forall (fun sp => Forall (lf0_parses param_files d sp) bns) sps ->
  for_fold sps l0 (fun l sp => for_fold bns l (scan_step param_files d sp)) w
  = (Ok (l0 `max` max_list (corpus_counts param_files d sps bns)), w).
Proof.
  intros H. revert l0. induction H as [|sp sps Hsp _ IH]; intros l0; simpl.
  - unfold ret. do 2 f_equal. lia.
  - erewrite bind_run by (by apply scan_basenames_run). rewrite IH.
    do 2 f_equal. unfold corpus_counts. simpl.
    rewrite max_list_app. lia.
Qed.

Lemma scan_loops_from_parses d sps bns l0 w n w' :
  for_fold sps l0 (fun l sp => for_fold bns l (scan_step param_files d sp)) w = (Ok n, w') ->
  Forall (fun sp => Forall (lf0_parses param_files d sp) bns) sps.
Proof.
  revert l0 w. induction sps as [|sp sps IH]; intros l0 w H; simpl in H.
  - constructor.
  - py_step H. constructor; [by eapply scan_basenames_parses | by eapply IH].
Qed.

(** The scanner is its path check followed by its loops. *)
Lemma find_longest_sequence_unfold d sps bns w :
  find_longest_sequence param_files d sps bns w =
  bind (try_except
          (ok <- char_is_slash d (Z.of_nat (String.length d) - 1) ;; assert_ ok)
          AssertionError
          (print "Please, make sure the data directory string ends with a '/'"))
       (fun _ => scan_loops param_files d sps bns) w.
Proof. reflexivity. Qed.

(** Whenever the scanner returns, every stream was parsed and the value is
    the greatest frame count. *)
Lemma find_longest_sequence_ok d sps bns w n w' :
  find_longest_sequence param_files d sps bns w = (Ok n, w') ->
  Forall (fun sp => Forall (lf0_parses param_files d sp) bns) sps /\
  n = max_list (corpus_counts param_files d sps bns) /\
  h5_store w' = h5_store w.
Proof.
  rewrite find_longest_sequence_unfold. intros H. py_step H.
  unfold scan_loops in H.
  pose proof (scan_loops_from_parses _ _ _ _ _ _ _ H) as Hall.
  rewrite (scan_loops_from_run _ _ _ _ _ Hall) in H. inversion H; subst.
  split; [exact Hall|]. split; [lia|].
  destruct (decide (d = EmptyString)) as [-> | Hd].
  - rewrite dir_check_empty in Hrun by auto. discriminate.
  - rewrite dir_check_nonempty in Hrun by auto. inversion Hrun.
    destruct (ends_with_slash d); reflexivity.
Qed.

End Scanner.

Lemma elem_of_corpus_counts param_files d sps bns n :
  n ∈ corpus_counts param_files d sps bns <->
  exists sp bn, sp ∈ sps /\ bn ∈ bns /\ n = lf0_frames param_files d sp bn.
Proof.
  unfold corpus_counts, speaker_counts. rewrite list_elem_of_join. split.
  - intros (l & Hn & Hl). apply list_elem_of_fmap in Hl as (sp & -> & Hsp).
    apply list_elem_of_fmap in Hn as (bn & -> & Hbn). eauto.
  - intros (sp & bn & Hsp & Hbn & ->).
    exists (map (lf0_frames param_files d sp) bns). split.
    + by apply list_elem_of_fmap_2.
    + by apply (list_elem_of_fmap_2 (fun sp => map (lf0_frames param_files d sp) bns)).
Qed.

Lemma corpus_counts_nil param_files d sps bns :
  corpus_counts param_files d sps bns = [] -> sps = [] \/ bns = [].
Proof.
  destruct sps as [|sp sps]; [by left|]. destruct bns as [|bn bns]; [by right|].
  discriminate.
Qed.

(** C8: [find_longest_sequence] returns the maximum frame count of the
    log-F0 stream over every (speaker, basename) combination.  Whenever it
    returns [n], every combination has a parsed stream of at most [n] frames
    and some combination has exactly [n] (or there is no combination and
    [n = 0]); and it does return whenever the data root is not empty and
    every stream parses. *)
Theorem find_longest_sequence_max
    (param_files : string -> option (list Q)) (data_dir : string)
    (speakers_list basenames_list : list string) (w : world) :
  (forall n w',
     find_longest_sequence param_files data_dir speakers_list basenames_list w
       = (Ok n, w') ->
     (forall sp bn, sp ∈ speakers_list -> bn ∈ basenames_list ->
        exists m, parse_file param_files 1 (lf0_path data_dir sp bn) = Ok m /\
                  nrows m <= n) /\
     ((exists sp bn m, sp ∈ speakers_list /\ bn ∈ basenames_list /\
          parse_file param_files 1 (lf0_path data_dir sp bn) = Ok m /\
          nrows m = n) \/
      ((speakers_list = [] \/ basenames_list = []) /\ n = 0))) /\
  (data_dir <> EmptyString ->
   (forall sp bn, sp ∈ speakers_list -> bn ∈ basenames_list ->
      lf0_parses param_files data_dir sp bn) ->
   exists n w',
     find_longest_sequence param_files data_dir speakers_list basenames_list w
       = (Ok n, w')).
Proof.
  split.
  - intros n w' Hrun.
    apply find_longest_sequence_ok in Hrun as (Hall & Hn & _).
    rewrite Forall_forall in Hall. split.
    + intros sp bn Hsp Hbn. specialize (Hall sp Hsp).
      rewrite Forall_forall in Hall. destruct (Hall bn Hbn) as [m Hm].
      exists m. split; [exact Hm|]. subst n. apply max_list_elem_of_le.
      apply elem_of_corpus_counts. exists sp, bn. unfold lf0_frames.
      rewrite Hm. auto.
    + destruct (corpus_counts param_files data_dir speakers_list basenames_list)
        as [|c cs] eqn:Hcs.
      * right. split; [by eapply corpus_counts_nil | by subst n].
      * left. assert (Hin : n ∈ corpus_counts param_files data_dir speakers_list basenames_list).
        { rewrite Hcs, Hn. by apply max_list_elem_of. }
        apply elem_of_corpus_counts in Hin as (sp & bn & Hsp & Hbn & Hfr).
        specialize (Hall sp Hsp). rewrite Forall_forall in Hall.
        destruct (Hall bn Hbn) as [m Hm]. exists sp, bn, m.
        unfold lf0_frames in Hfr. rewrite Hm in Hfr. auto.
  - intros Hd Hall. rewrite find_longest_sequence_unfold.
    erewrite bind_run by (by apply dir_check_nonempty; auto).
    unfold scan_loops. rewrite scan_loops_from_run; [eauto|].
    apply Forall_forall. intros sp Hsp. apply Forall_forall. auto.
Qed.

Lemma find_longest_sequence_max_witness :
  (exists m, parse_file demo_params 1 (lf0_path "d/" "B" "u") = Ok m /\ nrows m <= 2) /\
  (exists n w', find_longest_sequence demo_params "d/" ["A"; "B"] ["u"] empty_world
                = (Ok n, w')).
Proof.
  pose proof (find_longest_sequence_max demo_params "d/" ["A"; "B"] ["u"] empty_world)
    as [Hmax Hret].
  split.
  - apply (Hmax 2 empty_world); [vm_compute; reflexivity | | ]; repeat constructor.
  - apply Hret; [discriminate|].
    intros sp bn Hsp Hbn. apply list_elem_of_In in Hsp, Hbn. simpl in Hsp, Hbn.
    destruct Hsp as [<- | [<- | []]]; destruct Hbn as [<- | []];
      eexists; vm_compute; reflexivity.
Defined.

(** C9: on the empty data root, which does not end in ['/'], the scanner's
    check raises [IndexError]: nothing is printed and the scan does not run. *)
Theorem find_longest_sequence_empty_root
    (param_files : string -> option (list Q))
    (speakers_list basenames_list : list string) (w : world) :
  find_longest_sequence param_files EmptyString speakers_list basenames_list w
  = (Raise IndexError, w).
Proof.
  rewrite find_longest_sequence_unfold.
  erewrite bind_raise by (apply dir_check_empty; auto). reflexivity.
Qed.

(** X3: on a data root that is not empty and does not end in ['/'] the
    violation is reported and the scan runs on the path as given. *)
Lemma find_longest_sequence_reports
    (param_files : string -> option (list Q)) (data_dir : string)
    (speakers_list basenames_list : list string) (w : world) :
  data_dir <> EmptyString ->
  ends_with_slash data_dir = false ->
  find_longest_sequence param_files data_dir speakers_list basenames_list w
  = scan_loops param_files data_dir speakers_list basenames_list
      (World (stdout w ++
                ["Please, make sure the data directory string ends with a '/'"])
             (h5_store w)).
Proof.
  intros Hd Hslash. rewrite find_longest_sequence_unfold.
  erewrite bind_run by (apply dir_check_nonempty; auto).
  rewrite Hslash. reflexivity.
Qed.

Lemma find_longest_sequence_reports_witness :
  find_longest_sequence demo_params "d" ["A"] [] empty_world
  = (Ok 0,
     World ["Please, make sure the data directory string ends with a '/'"] ∅).
Proof.
  rewrite (find_longest_sequence_reports demo_params "d" ["A"] [] empty_world);
    [reflexivity | discriminate | reflexivity].
Defined.

(** ** numpy primitives *)

Lemma mod_zero_ge (a w : nat) : 0 < a -> a mod w = 0 -> w <= a.
Proof.
  intros Ha Hmod. destruct w as [|w]; [lia|].
  pose proof (Nat.div_mod_eq a (S w)) as Hdm. rewrite Hmod in Hdm.
  destruct (a / S w) as [|q]; [lia | nia].
Qed.

Lemma mod_zero_sub (a w : nat) : w <= a -> a mod w = 0 -> (a - w) mod w = 0.
Proof.
  intros Hle Hmod. destruct w as [|w]; [simpl in *; lia|].
  pose proof (Nat.div_mod_eq a (S w)) as Hdm. rewrite Hmod in Hdm.
  destruct (a / S w) as [|q] eqn:Hq; [lia|].
  replace (a - S w) with (q * S w) by nia.
  apply Nat.Div0.mod_mul.
Qed.

Lemma chunks_fuel_rows (fuel w : nat) (l : list Q) :
  length l mod w = 0 ->
  Forall (fun r => length r = w) (chunks_fuel fuel w l).
Proof.
  revert l. induction fuel as [|fuel IH]; intros l Hmod; simpl; [constructor|].
  destruct l as [|x l]; [constructor|].
  assert (Hge : w <= length (x :: l)) by (apply mod_zero_ge; simpl in *; lia).
  constructor.
  - rewrite length_take. lia.
  - apply IH. rewrite length_drop. by apply mod_zero_sub.
Qed.

Lemma reshape_rows_ok (data : list Q) (c : nat) (m : matrix) :
  reshape_rows data c = Ok m -> ncols m = c /\ well_shaped m /\ 0 < c.
Proof.
  unfold reshape_rows. destruct (Nat.eqb_spec c 0); [discriminate|].
  destruct (Nat.eqb_spec (length data mod c) 0); [|discriminate].
  intros H. inversion H; subst. unfold well_shaped. simpl.
  split; [reflexivity|]. split; [by apply chunks_fuel_rows | lia].
Qed.

Lemma parse_file_ok param_files (param_len : nat) (path : string) (m : matrix) :
  parse_file param_files param_len path = Ok m ->
  ncols m = param_len /\ well_shaped m.
Proof.
  unfold parse_file. destruct (param_files path); [|discriminate].
  intros H. apply reshape_rows_ok in H. tauto.
Qed.

Lemma np_zeros_ok (n : Z) (c : nat) (m : matrix) :
  np_zeros n c = Ok m -> (0 <= n)%Z /\ m = Matrix c (zero_rows (Z.to_nat n) c).
Proof.
  unfold np_zeros. destruct (Z.ltb_spec n 0) as [Hlt|Hge]; [discriminate|].
  intros E. inversion E. auto.
Qed.

Lemma zero_pad_params_ok (longest_seq : nat) (mode : pad_mode) (params p : matrix) :
  zero_pad_params longest_seq mode params = Ok p ->
  nrows params <= longest_seq /\
  p = Matrix (ncols params) (padded_rows longest_seq mode params).
Proof.
  unfold zero_pad_params. intros H0. apply rbind_ok in H0 as (pad & Hpad & H).
  apply np_zeros_ok in Hpad as [Hle ->].
  replace (Z.to_nat (Z.of_nat longest_seq - Z.of_nat (nrows params)))
    with (longest_seq - nrows params) in H by lia.
  split; [lia|].
  destruct mode; unfold np_concatenate in H; simpl in H;
    rewrite Nat.eqb_refl in H; inversion H; reflexivity.
Qed.

Lemma length_padded_rows (longest_seq : nat) (mode : pad_mode) (params : matrix) :
  nrows params <= longest_seq ->
  length (padded_rows longest_seq mode params) = longest_seq.
Proof.
  intros Hle. unfold padded_rows, zero_rows, nrows in *.
  destruct mode; rewrite length_app, repeat_length; lia.
Qed.

Lemma padded_rows_well_shaped (longest_seq : nat) (mode : pad_mode) (params : matrix) :
  well_shaped params ->
  Forall (fun r => length r = ncols params) (padded_rows longest_seq mode params).
Proof.
  intros Hws. unfold padded_rows, zero_rows.
  assert (Hz : Forall (fun r : list Q => length r = ncols params)
                 (repeat (repeat 0%Q (ncols params)) (longest_seq - nrows params))).
  { apply Forall_forall. intros r Hr. apply list_elem_of_In, repeat_spec in Hr.
    subst r. apply repeat_length. }
  destruct mode; apply Forall_app; auto.
Qed.

(** ** The pair builder: what a successful run has computed *)

Ltac py_peel H :=
  repeat (py_step H;
          try match goal with
              | Hr : lift _ _ = (Ok _, _) |- _ => py_lift Hr
              | Hr : assert_ _ _ = (Ok _, _) |- _ => py_lift Hr
              end).

Lemma shape_eqb_eq (a b : nat * nat) : shape_eqb a b = true <-> a = b.
Proof.
  destruct a as [a1 a2], b as [b1 b2]. unfold shape_eqb. simpl.
  rewrite andb_true_iff, !Nat.eqb_eq. split; [intros []; congruence|].
  intros H. inversion H. auto.
Qed.

Lemma build_file_table_ok param_files source_dir src_index target_dir trg_index
    basename longest_seq w sp sm tp tm w' :
  seq2seq_build_file_table param_files source_dir src_index target_dir trg_index
    basename longest_seq w = (Ok (sp, sm, tp, tm), w') ->
  exists st fl,
    parsed_streams param_files source_dir target_dir basename st /\
    shape (source_vf st) = shape (source_f0 st) /\
    shape (target_vf st) = shape (target_f0 st) /\
    derived_flags src_index trg_index st fl /\
    nrows (source_mcp st) <= longest_seq /\
    nrows (target_mcp st) <= longest_seq /\
    Forall (fun m => nrows m <= longest_seq)
      [source_mcp st; source_f0_i st; source_vf_i st; source_voiced fl;
       src_eos_flag fl; src_spk_index fl; trg_spk_index fl;
       target_mcp st; target_f0_i st; target_vf_i st; target_voiced fl;
       trg_eos_flag fl] /\
    sm = Matrix 1 (repeat [0%Q] (longest_seq - nrows (source_mcp st)) ++
                   repeat [1%Q] (nrows (source_mcp st))) /\
    tm = Matrix 1 (repeat [1%Q] (nrows (target_mcp st)) ++
                   repeat [0%Q] (longest_seq - nrows (target_mcp st))) /\
    np_concatenate1 (source_blocks longest_seq st fl) = Ok sp /\
    np_concatenate1 (target_blocks longest_seq st fl) = Ok tp /\
    h5_store w' = h5_store w.
Proof.
  unfold seq2seq_build_file_table. intros H. py_peel H. py_lift H.
  inversion H; subst; clear H.
  repeat match goal with
         | Hz : zero_pad_params _ _ _ = Ok _ |- _ =>
             apply zero_pad_params_ok in Hz; destruct Hz as [? ?]; subst
         | Hz : np_zeros _ _ = Ok _ |- _ =>
             apply np_zeros_ok in Hz; destruct Hz as [? ?]; subst
         | Hs : shape_eqb _ _ = true |- _ => apply shape_eqb_eq in Hs
         | Hc : np_concatenate _ _ = Ok _ |- _ =>
             unfold np_concatenate in Hc; simpl in Hc; inversion Hc; subst; clear Hc
         | Hd : try_except _ _ _ _ = (Ok _, _) |- _ =>
             apply dir_check_ok in Hd; [destruct Hd as (_ & ? & _) | by left]
         end.
  eexists (PairStreams _ _ _ _ _ _ _ _ _ _), (PairFlags _ _ _ _ _ _).
  unfold parsed_streams, derived_flags, stream_path; simpl.
  repeat match goal with |- _ /\ _ => split end; try eassumption.
  - repeat constructor; assumption.
  - unfold zero_rows. do 3 f_equal. lia.
  - unfold zero_rows. do 3 f_equal. lia.
  - congruence.
Qed.

(** ** The padding masks *)

Lemma concat_repeat_singleton (x : Q) (n : nat) : concat (repeat [x] n) = repeat x n.
Proof. induction n as [|n IH]; simpl; [reflexivity | by rewrite IH]. Qed.

Lemma filter_repeat (f : Q -> bool) (x : Q) (n : nat) :
  List.filter f (repeat x n) = if f x then repeat x n else [].
Proof.
  induction n as [|n IH]; simpl.
  - by destruct (f x).
  - rewrite IH. by destruct (f x).
Qed.

Lemma count_ones_front_padded (pad n : nat) :
  count_ones (Matrix 1 (repeat [0%Q] pad ++ repeat [1%Q] n)) = n.
Proof.
  unfold count_ones, ones. simpl.
  rewrite concat_app, !concat_repeat_singleton, List.filter_app, !filter_repeat.
  simpl. apply repeat_length.
Qed.

Lemma count_ones_back_padded (pad n : nat) :
  count_ones (Matrix 1 (repeat [1%Q] n ++ repeat [0%Q] pad)) = n.
Proof.
  unfold count_ones, ones. simpl.
  rewrite concat_app, !concat_repeat_singleton, List.filter_app, !filter_repeat.
  simpl. rewrite length_app, repeat_length. simpl. lia.
Qed.

(** C2: the source mask is [longest_seq - n] zero rows followed by [n] one
    rows, the target mask is [n] one rows followed by [longest_seq - n] zero
    rows, where [n] is the frame count of the spectral stream of that side;
    each mask holds [n] ones and both have [longest_seq] rows. *)
Theorem build_file_table_masks
    (param_files : string -> option (list Q))
    (source_dir : string) (src_index : nat) (target_dir : string) (trg_index : nat)
    (basename : string) (longest_seq : nat) (w w' : world)
    (sp sm tp tm : matrix) :
  seq2seq_build_file_table param_files source_dir src_index target_dir trg_index
    basename longest_seq w = (Ok (sp, sm, tp, tm), w') ->
  exists smcp tmcp,
    parse_file param_files 40 (stream_path source_dir basename "mcp" ".dat") = Ok smcp /\
    parse_file param_files 40 (stream_path target_dir basename "mcp" ".dat") = Ok tmcp /\
    nrows smcp <= longest_seq /\
    nrows tmcp <= longest_seq /\
    rows sm = repeat [0%Q] (longest_seq - nrows smcp) ++ repeat [1%Q] (nrows smcp) /\
    rows tm = repeat [1%Q] (nrows tmcp) ++ repeat [0%Q] (longest_seq - nrows tmcp) /\
    count_ones sm = nrows smcp /\
    count_ones tm = nrows tmcp /\
    nrows sm = longest_seq /\
    nrows tm = longest_seq /\
    shape sm = shape tm.
Proof.
  intros Hrun.
  apply build_file_table_ok in Hrun
    as (st & fl & Hst & _ & _ & _ & Hs & Ht & _ & -> & -> & _).
  destruct Hst as (Hsmcp & _ & _ & _ & _ & Htmcp & _).
  exists (source_mcp st), (target_mcp st).
  split; [exact Hsmcp|]. split; [exact Htmcp|].
  split; [exact Hs|]. split; [exact Ht|].
  split; [reflexivity|]. split; [reflexivity|].
  split; [apply count_ones_front_padded|].
  split; [apply count_ones_back_padded|].
  assert (Hn1 : nrows (Matrix 1 (repeat [0%Q] (longest_seq - nrows (source_mcp st)) ++
                                 repeat [1%Q] (nrows (source_mcp st)))) = longest_seq).
  { unfold nrows at 1. simpl. rewrite length_app, !repeat_length. lia. }
  assert (Hn2 : nrows (Matrix 1 (repeat [1%Q] (nrows (target_mcp st)) ++
                                 repeat [0%Q] (longest_seq - nrows (target_mcp st)))) = longest_seq).
  { unfold nrows at 1. simpl. rewrite length_app, !repeat_length. lia. }
  split; [exact Hn1|]. split; [exact Hn2|].
  unfold shape. rewrite Hn1, Hn2. reflexivity.
Qed.

Lemma build_file_table_masks_witness :
  exists sp sm tp tm w',
    seq2seq_build_file_table demo_params "d/vocoded_s2s/A/" 0 "d/vocoded_s2s/B/" 1
      "u" 2 empty_world = (Ok (sp, sm, tp, tm), w') /\
    rows sm = [[0%Q]; [1%Q]] /\ rows tm = [[1%Q]; [1%Q]] /\
    count_ones sm = 1 /\ count_ones tm = 2.
Proof.
  pose (r := seq2seq_build_file_table demo_params "d/vocoded_s2s/A/" 0
               "d/vocoded_s2s/B/" 1 "u" 2 empty_world).
  let v := eval vm_compute in r in assert (E : r = v) by (vm_compute; reflexivity).
  unfold r in E. eexists _, _, _, _, _. split; [exact E|].
  destruct (build_file_table_masks _ _ _ _ _ _ _ _ _ _ _ _ _ E)
    as (smcp & tmcp & Hs & Ht & _ & _ & Hsm & Htm & Hcs & Hct & _).
  vm_compute in Hs. vm_compute in Ht. inversion Hs; subst smcp. inversion Ht; subst tmcp.
  split; [exact Hsm|]. split; [exact Htm|]. split; [exact Hcs | exact Hct].
Defined.

(** ** The feature matrices: concatenation along the feature axis *)

Lemma fold_hstack_length (ms : list matrix) (rs : list (list Q)) :
  Forall (fun b => nrows b = length rs) ms ->
  length (fold_left hstack ms rs) = length rs.
Proof.
  revert rs. induction ms as [|b ms IH]; intros rs Hall; simpl; [reflexivity|].
  inversion Hall as [|? ? Hb Hms]; subst.
  assert (Hlen : length (hstack rs b) = length rs).
  { unfold hstack. rewrite length_zip_with. unfold nrows in Hb. lia. }
  rewrite IH; [exact Hlen|].
  eapply Forall_impl; [exact Hms|]. simpl. intros; lia.
Qed.

Lemma fold_hstack_lookup (ms : list matrix) (rs0 : list (list Q)) (r0 : list Q) (k : nat) :
  rs0 !! k = Some r0 ->
  Forall (fun b => k < nrows b) ms ->
  exists rs, Forall2 (fun b r => rows b !! k = Some r) ms rs /\
             fold_left hstack ms rs0 !! k = Some (r0 ++ concat rs).
Proof.
  revert rs0 r0. induction ms as [|b ms IH]; intros rs0 r0 Hr0 Hall; simpl.
  - exists []. split; [constructor|]. simpl. by rewrite app_nil_r.
  - inversion Hall as [|? ? Hb Hms]; subst.
    destruct (lookup_lt_is_Some_2 (rows b) k Hb) as [rb Hrb].
    assert (Hst : hstack rs0 b !! k = Some (r0 ++ rb)).
    { unfold hstack. rewrite lookup_zip_with, Hr0, Hrb. reflexivity. }
    destruct (IH _ _ Hst Hms) as (rs & Hrs & Hlook).
    exists (rb :: rs). split; [by constructor|].
    rewrite Hlook. simpl. by rewrite app_assoc.
Qed.

Lemma np_concatenate1_ok (ms : list matrix) (m : matrix) (n : nat) :
  np_concatenate1 ms = Ok m ->
  Forall (fun b => nrows b = n) ms ->
  ncols m = sum_list (map ncols ms) /\ nrows m = n /\
  forall k, k < n ->
    exists rs, Forall2 (fun b r => rows b !! k = Some r) ms rs /\
               rows m !! k = Some (concat rs).
Proof.
  unfold np_concatenate1. destruct ms as [|m0 ms]; [discriminate|].
  destruct (forallb _ ms); [|discriminate].
  intros H Hall. inversion H; subst; clear H. simpl.
  inversion Hall as [|? ? Hm0 Hms]; subst.
  split; [reflexivity|]. split.
  - unfold nrows at 1. simpl. rewrite fold_hstack_length; [reflexivity|].
    eapply Forall_impl; [exact Hms|]. simpl. unfold nrows. intros; lia.
  - intros k Hk.
    destruct (lookup_lt_is_Some_2 (rows m0) k Hk) as [r0 Hr0].
    destruct (fold_hstack_lookup ms (rows m0) r0 k Hr0) as (rs & Hrs & Hlook).
    { eapply Forall_impl; [exact Hms|]. simpl. intros; lia. }
    exists (r0 :: rs). split; [by constructor | exact Hlook].
Qed.

(** *** The derived flag columns *)

Lemma result_map_ok {A B} (f : A -> result B) (l : list A) (l' : list B) :
  result_map f l = Ok l' -> Forall2 (fun x y => f x = Ok y) l l'.
Proof.
  revert l'. induction l as [|x l IH]; intros l' H; simpl in H.
  - inversion H. constructor.
  - apply rbind_ok in H as (y & Hy & H1). apply rbind_ok in H1 as (ys & Hys & H2).
    inversion H2; subst. constructor; auto.
Qed.

(** The flag of a frame is [1 - kronecker_delta] of the frame's voicing
    value, and the flags have the shape of the voicing stream. *)
Lemma voiced_flags_ok (vf v : matrix) :
  voiced_flags vf = Ok v ->
  ncols v = ncols vf /\ nrows v = nrows vf /\ well_shaped v /\
  forall i r, rows vf !! i = Some r ->
    exists x, r = [x] /\
      rows v !! i = Some (repeat (inject_Z (1 - kronecker_delta x)) (ncols vf)).
Proof.
  unfold voiced_flags. intros H. apply rbind_ok in H as (rs & Hrs & H).
  inversion H; subst; clear H. apply result_map_ok in Hrs. simpl.
  split; [reflexivity|]. split; [unfold nrows; simpl; symmetry; by eapply Forall2_length|].
  split.
  - unfold well_shaped. simpl. apply Forall_forall. intros r Hr.
    apply list_elem_of_lookup in Hr as [i Hi].
    destruct (Forall2_lookup_r _ _ _ _ _ Hrs Hi) as (r0 & _ & Hf).
    apply rbind_ok in Hf as (x & _ & Hx). inversion Hx. apply repeat_length.
  - intros i r Hi.
    destruct (Forall2_lookup_l _ _ _ _ _ Hrs Hi) as (y & Hy & Hf).
    apply rbind_ok in Hf as (x & Hitem & Hx). inversion Hx; subst.
    exists x. split; [|exact Hy].
    destruct r as [|x' [|? ?]]; simpl in Hitem; inversion Hitem; reflexivity.
Qed.

(** The end-of-sequence flag of a stream of [n >= 1] frames: [n - 1] zero
    rows, then one row of ones. *)
Lemma eos_flag_ok (n c : nat) (e : matrix) :
  eos_flag (n, c) = Ok e ->
  1 <= n /\ ncols e = c /\ nrows e = n /\ well_shaped e /\
  rows e = repeat (repeat 0%Q c) (n - 1) ++ [repeat 1%Q c].
Proof.
  unfold eos_flag. destruct (Nat.eqb_spec n 0) as [|Hn]; [discriminate|].
  intros H. inversion H; subst; clear H. simpl.
  assert (Hrows : <[n - 1 := repeat 1%Q c]> (repeat (repeat 0%Q c) n)
                  = repeat (repeat 0%Q c) (n - 1) ++ [repeat 1%Q c]).
  { replace n with (n - 1 + 1) at 2 by lia. rewrite repeat_app. simpl.
    rewrite insert_app_r_alt by (rewrite repeat_length; lia).
    rewrite repeat_length, Nat.sub_diag. reflexivity. }
  split; [lia|]. split; [reflexivity|].
  split; [unfold nrows; simpl; rewrite length_insert, repeat_length; reflexivity|].
  split; [|exact Hrows].
  unfold well_shaped. simpl. rewrite Hrows. apply Forall_app. split.
  - apply Forall_forall. intros r Hr. apply list_elem_of_In, repeat_spec in Hr.
    subst r. apply repeat_length.
  - repeat constructor. apply repeat_length.
Qed.

Lemma to_categorical_ok (y : list nat) (nb_classes : nat) (m : matrix) :
  to_categorical y nb_classes = Ok m ->
  ncols m = nb_classes /\ nrows m = length y /\ well_shaped m.
Proof.
  unfold to_categorical. destruct (forallb _ y); [|discriminate].
  intros H. inversion H; subst; clear H. simpl.
  split; [reflexivity|]. split; [unfold nrows; simpl; apply length_map|].
  unfold well_shaped. simpl. apply Forall_forall. intros r Hr.
  apply list_elem_of_fmap in Hr as (k & -> & _).
  rewrite length_insert. apply repeat_length.
Qed.

Lemma padded_facts (longest_seq : nat) (mode : pad_mode) (params : matrix) :
  nrows params <= longest_seq -> well_shaped params ->
  nrows (padded longest_seq mode params) = longest_seq /\
  well_shaped (padded longest_seq mode params).
Proof.
  intros Hle Hws. split.
  - unfold nrows at 1. simpl. by apply length_padded_rows.
  - unfold well_shaped. simpl. by apply padded_rows_well_shaped.
Qed.

(** The streams and flags of a pair, as the builder holds them: widths,
    frame counts and rows as wide as the stream. *)
Lemma pair_shapes param_files source_dir target_dir basename src_index trg_index st fl :
  parsed_streams param_files source_dir target_dir basename st ->
  derived_flags src_index trg_index st fl ->
  (ncols (source_mcp st) = 40 /\ ncols (source_f0_i st) = 1 /\
   ncols (source_vf st) = 1 /\ ncols (source_vf_i st) = 1 /\
   ncols (source_voiced fl) = 1 /\ ncols (src_eos_flag fl) = 1 /\
   ncols (src_spk_index fl) = 10 /\ ncols (trg_spk_index fl) = 10 /\
   ncols (target_mcp st) = 40 /\ ncols (target_f0_i st) = 1 /\
   ncols (target_vf st) = 1 /\ ncols (target_vf_i st) = 1 /\
   ncols (target_voiced fl) = 1 /\ ncols (trg_eos_flag fl) = 1) /\
  (nrows (source_voiced fl) = nrows (source_vf st) /\
   nrows (src_eos_flag fl) = nrows (source_vf st) /\
   nrows (target_voiced fl) = nrows (target_vf st) /\
   nrows (trg_eos_flag fl) = nrows (target_vf st) /\
   1 <= nrows (source_vf st) /\ 1 <= nrows (target_vf st)) /\
  Forall well_shaped
    [source_mcp st; source_f0_i st; source_vf st; source_vf_i st; source_voiced fl;
     src_eos_flag fl; src_spk_index fl; trg_spk_index fl;
     target_mcp st; target_f0_i st; target_vf st; target_vf_i st; target_voiced fl;
     trg_eos_flag fl].
Proof.
  intros (P1 & P2 & P3 & P4 & P5 & P6 & P7 & P8 & P9 & P10)
         (F1 & F2 & F3 & F4 & F5 & F6).
  apply parse_file_ok in P1 as [? ?], P2 as [? ?], P3 as [? ?], P4 as [? ?],
    P5 as [? ?], P6 as [? ?], P7 as [? ?], P8 as [? ?], P9 as [? ?], P10 as [? ?].
  apply voiced_flags_ok in F1 as (? & ? & ? & _), F2 as (? & ? & ? & _).
  apply eos_flag_ok in F3 as (? & ? & ? & ? & _), F4 as (? & ? & ? & ? & _).
  apply to_categorical_ok in F5 as (? & _ & ?), F6 as (? & _ & ?).
  split; [repeat split; congruence|].
  split; [repeat split; assumption|].
  repeat constructor; assumption.
Qed.

Lemma rows_have_block_width (blocks : list matrix) (rs : list (list Q)) (k : nat) :
  Forall well_shaped blocks ->
  Forall2 (fun b r => rows b !! k = Some r) blocks rs ->
  Forall2 (fun b r => rows b !! k = Some r /\ length r = ncols b) blocks rs.
Proof.
  intros Hws Hrs. induction Hrs as [|b r bs rs' Hbr _ IH]; [constructor|].
  inversion Hws as [|? ? Hwb Hbs]; subst. constructor; [|by apply IH].
  split; [exact Hbr|]. unfold well_shaped in Hwb. rewrite Forall_forall in Hwb.
  apply Hwb. by eapply list_elem_of_lookup_2.
Qed.

(** C4, as the code has it: each feature matrix is, row by row, the
    concatenation of its zero-padded blocks in the builder's order.  The
    source blocks are spectral (40), interpolated F0 (1), interpolated
    voicing (1), voiced flag (1), end-of-sequence flag (1), source one-hot
    (10) and target one-hot (10): 64 columns.  The target blocks are the
    first five: 44 columns. *)
Theorem build_file_table_columns
    (param_files : string -> option (list Q))
    (source_dir : string) (src_index : nat) (target_dir : string) (trg_index : nat)
    (basename : string) (longest_seq : nat) (w w' : world)
    (sp sm tp tm : matrix) :
  seq2seq_build_file_table param_files source_dir src_index target_dir trg_index
    basename longest_seq w = (Ok (sp, sm, tp, tm), w') ->
  exists st fl,
    parsed_streams param_files source_dir target_dir basename st /\
    derived_flags src_index trg_index st fl /\
    map ncols (source_blocks longest_seq st fl) = [40; 1; 1; 1; 1; 10; 10] /\
    ncols sp = 64 /\ nrows sp = longest_seq /\
    (forall k, k < longest_seq ->
       exists rs,
         Forall2 (fun b r => rows b !! k = Some r /\ length r = ncols b)
           (source_blocks longest_seq st fl) rs /\
         rows sp !! k = Some (concat rs)) /\
    map ncols (target_blocks longest_seq st fl) = [40; 1; 1; 1; 1] /\
    ncols tp = 44 /\ nrows tp = longest_seq /\
    (forall k, k < longest_seq ->
       exists rs,
         Forall2 (fun b r => rows b !! k = Some r /\ length r = ncols b)
           (target_blocks longest_seq st fl) rs /\
         rows tp !! k = Some (concat rs)).
Proof.
  intros Hrun.
  apply build_file_table_ok in Hrun
    as (st & fl & Hst & _ & _ & Hfl & _ & _ & Hle & _ & _ & Hsp & Htp & _).
  exists st, fl. split; [exact Hst|]. split; [exact Hfl|].
  destruct (pair_shapes _ _ _ _ _ _ _ _ Hst Hfl) as (Hcols & _ & Hws).
  destruct Hcols as (C1 & C2 & C3 & C4 & C5 & C6 & C7 & C8 & C9 & C10 & C11 & C12 & C13 & C14).
  rewrite !Forall_cons in Hle. rewrite !Forall_cons in Hws.
  destruct Hle as (L1 & L2 & L3 & L4 & L5 & L6 & L7 & L8 & L9 & L10 & L11 & L12 & _).
  destruct Hws as (W1 & W2 & W3 & W4 & W5 & W6 & W7 & W8 & W9 & W10 & W11 & W12 & W13 & W14 & _).
  assert (Hsrc : Forall (fun b => nrows b = longest_seq /\ well_shaped b)
                   (source_blocks longest_seq st fl)).
  { unfold source_blocks. repeat constructor; by apply padded_facts. }
  assert (Htrg : Forall (fun b => nrows b = longest_seq /\ well_shaped b)
                   (target_blocks longest_seq st fl)).
  { unfold target_blocks. repeat constructor; by apply padded_facts. }
  assert (Hrows : forall blocks m,
            Forall (fun b => nrows b = longest_seq /\ well_shaped b) blocks ->
            np_concatenate1 blocks = Ok m ->
            ncols m = sum_list (map ncols blocks) /\ nrows m = longest_seq /\
            forall k, k < longest_seq ->
              exists rs,
                Forall2 (fun b r => rows b !! k = Some r /\ length r = ncols b) blocks rs /\
                rows m !! k = Some (concat rs)).
  { intros blocks m Hb Hm.
    destruct (np_concatenate1_ok blocks m longest_seq Hm) as (Hc & Hn & Hk).
    { eapply Forall_impl; [exact Hb|]. simpl. tauto. }
    split; [exact Hc|]. split; [exact Hn|].
    intros k Hlt. destruct (Hk k Hlt) as (rs & Hrs & Hlook).
    exists rs. split; [|exact Hlook].
    apply rows_have_block_width; [|exact Hrs].
    eapply Forall_impl; [exact Hb|]. simpl. tauto. }
  destruct (Hrows _ _ Hsrc Hsp) as (Hc1 & Hn1 & Hk1).
  destruct (Hrows _ _ Htrg Htp) as (Hc2 & Hn2 & Hk2).
  assert (Hm1 : map ncols (source_blocks longest_seq st fl) = [40; 1; 1; 1; 1; 10; 10]).
  { unfold source_blocks. simpl. congruence. }
  assert (Hm2 : map ncols (target_blocks longest_seq st fl) = [40; 1; 1; 1; 1]).
  { unfold target_blocks. simpl. congruence. }
  rewrite Hm1 in Hc1. rewrite Hm2 in Hc2.
  repeat split; assumption.
Qed.

(** Against C4 as stated: at the pair [A -> B] of the small corpus the source
    feature matrix has 64 columns and rows of 64 cells, not 65. *)
Lemma build_file_table_source_not_65_columns :
  exists sp sm tp tm w',
    seq2seq_build_file_table demo_params "d/vocoded_s2s/A/" 0 "d/vocoded_s2s/B/" 1
      "u" 2 empty_world = (Ok (sp, sm, tp, tm), w') /\
    ncols sp <> 65 /\ Forall (fun r => length r <> 65) (rows sp).
Proof.
  pose (r := seq2seq_build_file_table demo_params "d/vocoded_s2s/A/" 0
               "d/vocoded_s2s/B/" 1 "u" 2 empty_world).
  let v := eval vm_compute in r in assert (E : r = v) by (vm_compute; reflexivity).
  unfold r in E. eexists _, _, _, _, _. split; [exact E|].
  split; [simpl; lia|]. repeat constructor; simpl; lia.
Qed.

Lemma build_file_table_columns_witness :
  exists sp sm tp tm w',
    seq2seq_build_file_table demo_params "d/vocoded_s2s/A/" 0 "d/vocoded_s2s/B/" 1
      "u" 2 empty_world = (Ok (sp, sm, tp, tm), w') /\
    ncols sp = 64 /\ ncols tp = 44 /\ nrows sp = 2 /\ nrows tp = 2.
Proof.
  pose (r := seq2seq_build_file_table demo_params "d/vocoded_s2s/A/" 0
               "d/vocoded_s2s/B/" 1 "u" 2 empty_world).
  let v := eval vm_compute in r in assert (E : r = v) by (vm_compute; reflexivity).
  unfold r in E. eexists _, _, _, _, _. split; [exact E|].
  destruct (build_file_table_columns _ _ _ _ _ _ _ _ _ _ _ _ _ E)
    as (st & fl & _ & _ & _ & Hc1 & Hn1 & _ & _ & Hc2 & Hn2 & _).
  auto.
Defined.

(** ** The shape assertions *)

Lemma bind_lift_ok {A B} (r : result A) (k : A -> py B) (a : A) (w : world) :
  r = Ok a -> bind (lift r) k w = k a w.
Proof. intros ->. reflexivity. Qed.

Lemma bind_assert_true {B} (c : bool) (k : unit -> py B) (w : world) :
  c = true -> bind (assert_ c) k w = k tt w.
Proof. intros ->. reflexivity. Qed.

Lemma bind_assert_false {B} (c : bool) (k : unit -> py B) (w : world) :
  c = false -> bind (assert_ c) k w = (Raise AssertionError, w).
Proof. intros ->. reflexivity. Qed.

Lemma result_map_total {A B} (f : A -> result B) (l : list A) :
  Forall (fun x => exists y, f x = Ok y) l -> exists l', result_map f l = Ok l'.
Proof.
  induction 1 as [|x l [y Hy] _ [l' IH]]; simpl.
  - by eexists.
  - rewrite Hy. simpl. rewrite IH. simpl. by eexists.
Qed.

(** A voicing stream of one column always has its flags. *)
Lemma voiced_flags_total (vf : matrix) :
  ncols vf = 1 -> well_shaped vf -> exists v, voiced_flags vf = Ok v.
Proof.
  intros Hc Hws. unfold voiced_flags.
  destruct (result_map_total
              (fun row => rbind (item row) (fun x =>
                 Ok (repeat (inject_Z (1 - kronecker_delta x)) (ncols vf))))
              (rows vf)) as [rs Hrs].
  - eapply Forall_impl; [exact Hws|]. simpl. intros r Hr. rewrite Hc in Hr.
    destruct r as [|x [|? ?]]; simpl in Hr; try lia. simpl. by eexists.
  - rewrite Hrs. simpl. by eexists.
Qed.

(** C5, as the code has it: with both directory paths not empty and the ten
    streams parsed, the builder stops with [AssertionError] whenever the shape
    of the raw voicing stream differs from the shape of the raw F0 stream, on
    the source side or on the target side. *)
Theorem build_file_table_shape_assertion
    (param_files : string -> option (list Q))
    (source_dir : string) (src_index : nat) (target_dir : string) (trg_index : nat)
    (basename : string) (longest_seq : nat) (w : world) (st : pair_streams) :
  source_dir <> EmptyString ->
  target_dir <> EmptyString ->
  parsed_streams param_files source_dir target_dir basename st ->
  shape (source_vf st) <> shape (source_f0 st) \/
  shape (target_vf st) <> shape (target_f0 st) ->
  fst (seq2seq_build_file_table param_files source_dir src_index target_dir
         trg_index basename longest_seq w) = Raise AssertionError.
Proof.
  intros Hs Ht Hst Hshape.
  pose proof Hst as (P1 & P2 & P3 & P4 & P5 & P6 & P7 & P8 & P9 & P10).
  unfold stream_path in *. unfold seq2seq_build_file_table.
  erewrite bind_run by (apply dir_check_nonempty; auto).
  erewrite bind_run by (apply dir_check_nonempty; auto).
  rewrite (bind_lift_ok _ _ _ _ P1), (bind_lift_ok _ _ _ _ P2),
    (bind_lift_ok _ _ _ _ P3), (bind_lift_ok _ _ _ _ P4),
    (bind_lift_ok _ _ _ _ P5), (bind_lift_ok _ _ _ _ P6),
    (bind_lift_ok _ _ _ _ P7), (bind_lift_ok _ _ _ _ P8),
    (bind_lift_ok _ _ _ _ P9), (bind_lift_ok _ _ _ _ P10).
  destruct (shape_eqb (shape (source_vf st)) (shape (source_f0 st))) eqn:Es.
  - rewrite (bind_assert_true true) by reflexivity.
    apply parse_file_ok in P4 as [Hc Hws].
    destruct (voiced_flags_total _ Hc Hws) as [v Hv].
    rewrite (bind_lift_ok _ _ _ _ Hv).
    apply shape_eqb_eq in Es.
    destruct Hshape as [Hne | Hne]; [congruence|].
    rewrite bind_assert_false; [reflexivity|].
    destruct (shape_eqb _ _) eqn:Et; [|reflexivity].
    apply shape_eqb_eq in Et. congruence.
  - rewrite (bind_assert_false false) by reflexivity. reflexivity.
Qed.

Lemma build_file_table_shape_assertion_witness :
  fst (seq2seq_build_file_table corrupt_params "c/" 0 "c/" 0 "u" 2 empty_world)
  = Raise AssertionError.
Proof.
  pose (mcp := Matrix 40 [repeat 1%Q 40]).
  pose (f0 := Matrix 1 [[5%Q]; [5%Q]]).
  pose (vf := Matrix 1 [[3%Q]]).
  apply (build_file_table_shape_assertion corrupt_params "c/" 0 "c/" 0 "u" 2
           empty_world (PairStreams mcp f0 f0 vf vf mcp f0 f0 vf vf)).
  - discriminate.
  - discriminate.
  - repeat split; vm_compute; reflexivity.
  - left. vm_compute. discriminate.
Defined.

(** Against C5 as stated: a raw F0 stream of two frames beside an
    interpolated one of one frame; the builder raises nothing and returns its
    four arrays. *)
Lemma build_file_table_ignores_interpolated_shape :
  exists f0 f0_i out w',
    parse_file mismatch_params 1 (stream_path "m/" "u" "lf0" ".dat") = Ok f0 /\
    parse_file mismatch_params 1 (stream_path "m/" "u" "lf0" ".i.dat") = Ok f0_i /\
    shape f0 <> shape f0_i /\
    seq2seq_build_file_table mismatch_params "m/" 0 "m/" 0 "u" 2 empty_world
    = (Ok out, w').
Proof.
  eexists _, _, _, _.
  split; [vm_compute; reflexivity|]. split; [vm_compute; reflexivity|].
  split; [vm_compute; discriminate|]. vm_compute. reflexivity.
Qed.

(** ** Cells of the feature matrices *)

Lemma concat_lookup_block (rs : list (list Q)) (j : nat) (r : list Q) (c : nat) :
  rs !! j = Some r -> c < length r ->
  concat rs !! (sum_list (map length (take j rs)) + c) = r !! c.
Proof.
  revert j. induction rs as [|r0 rs IH]; intros j Hj Hc; [by destruct j|].
  destruct j as [|j]; simpl in *.
  - inversion Hj; subst. by rewrite lookup_app_l.
  - rewrite lookup_app_r by lia.
    replace (length r0 + sum_list (map length (take j rs)) + c - length r0)
      with (sum_list (map length (take j rs)) + c) by lia.
    by apply IH.
Qed.

Lemma block_widths (blocks : list matrix) (rs : list (list Q)) (k : nat) :
  Forall2 (fun b r => rows b !! k = Some r /\ length r = ncols b) blocks rs ->
  map length rs = map ncols blocks.
Proof.
  induction 1 as [|b r bs rs' [_ Hlen] _ IH]; simpl; [reflexivity | congruence].
Qed.

(** The cell of row [k] at column [c] of block [j] of a concatenation is the
    cell of row [k] at column [c] of that block. *)
Lemma feature_cell (blocks : list matrix) (m : matrix) (n k j c : nat) (b : matrix) :
  Forall (fun b => nrows b = n /\ well_shaped b) blocks ->
  np_concatenate1 blocks = Ok m ->
  k < n -> blocks !! j = Some b -> c < ncols b ->
  exists row r,
    rows m !! k = Some row /\ rows b !! k = Some r /\
    row !! (sum_list (map ncols (take j blocks)) + c) = r !! c.
Proof.
  intros Hall Hm Hk Hj Hc.
  destruct (np_concatenate1_ok blocks m n Hm) as (_ & _ & Hrow).
  { eapply Forall_impl; [exact Hall|]. simpl. tauto. }
  destruct (Hrow k Hk) as (rs & Hrs & Hlook).
  apply rows_have_block_width in Hrs;
    [| eapply Forall_impl; [exact Hall|]; simpl; tauto].
  destruct (Forall2_lookup_l _ _ _ _ _ Hrs Hj) as (r & Hr & Hbr & Hlen).
  exists (concat rs), r. split; [exact Hlook|]. split; [exact Hbr|].
  rewrite <- (concat_lookup_block rs j r c Hr) by lia.
  assert (E : map ncols (take j blocks) = map length (take j rs)).
  { rewrite <- !firstn_map. f_equal. symmetry. by eapply block_widths. }
  rewrite E. reflexivity.
Qed.

Lemma padded_rows_src_lookup (longest_seq : nat) (params : matrix) (i : nat) :
  nrows params <= longest_seq ->
  padded_rows longest_seq src params !! (longest_seq - nrows params + i)
  = rows params !! i.
Proof.
  intros Hle. unfold padded_rows, zero_rows.
  rewrite lookup_app_r by (rewrite repeat_length; lia).
  rewrite repeat_length. f_equal. lia.
Qed.

Lemma padded_rows_trg_lookup (longest_seq : nat) (params : matrix) (i : nat) :
  i < nrows params ->
  padded_rows longest_seq trg params !! i = rows params !! i.
Proof. intros Hi. unfold padded_rows. by rewrite lookup_app_l. Qed.

(** The flag of a voicing value: zero exactly when the value is zero, one
    otherwise. *)
Lemma voiced_flag_value (x : Q) :
  (inject_Z (1 - kronecker_delta x) = 0%Q <-> (x == 0)%Q) /\
  (~ (x == 0)%Q -> inject_Z (1 - kronecker_delta x) = 1%Q).
Proof.
  unfold kronecker_delta. destruct (Qeq_bool x 0) eqn:E.
  - apply Qeq_bool_iff in E. simpl. split; [tauto|]. intros Hn. by destruct Hn.
  - assert (Hne : ~ (x == 0)%Q).
    { intros Hx. apply Qeq_bool_iff in Hx. congruence. }
    simpl. split; [|reflexivity]. split; [discriminate | tauto].
Qed.

Lemma source_blocks_shapes longest_seq param_files source_dir target_dir basename
    src_index trg_index st fl :
  parsed_streams param_files source_dir target_dir basename st ->
  derived_flags src_index trg_index st fl ->
  Forall (fun m => nrows m <= longest_seq)
    [source_mcp st; source_f0_i st; source_vf_i st; source_voiced fl;
     src_eos_flag fl; src_spk_index fl; trg_spk_index fl;
     target_mcp st; target_f0_i st; target_vf_i st; target_voiced fl;
     trg_eos_flag fl] ->
  Forall (fun b => nrows b = longest_seq /\ well_shaped b)
    (source_blocks longest_seq st fl) /\
  Forall (fun b => nrows b = longest_seq /\ well_shaped b)
    (target_blocks longest_seq st fl).
Proof.
  intros Hst Hfl Hle.
  destruct (pair_shapes _ _ _ _ _ _ _ _ Hst Hfl) as (_ & _ & Hws).
  rewrite !Forall_cons in Hle. rewrite !Forall_cons in Hws.
  destruct Hle as (L1 & L2 & L3 & L4 & L5 & L6 & L7 & L8 & L9 & L10 & L11 & L12 & _).
  destruct Hws as (W1 & W2 & W3 & W4 & W5 & W6 & W7 & W8 & W9 & W10 & W11 & W12 & W13 & W14 & _).
  split; [unfold source_blocks | unfold target_blocks];
    repeat constructor; by apply padded_facts.
Qed.

(** C6: in both feature matrices the voiced flag (column 42) of a true frame
    is 0 if and only if the raw voicing value of that frame is exactly 0, and
    is 1 otherwise.  Frame [i] of the source side is row
    [longest_seq - n + i] of the source matrix; frame [i] of the target side
    is row [i] of the target matrix. *)
Theorem build_file_table_voiced_flag
    (param_files : string -> option (list Q))
    (source_dir : string) (src_index : nat) (target_dir : string) (trg_index : nat)
    (basename : string) (longest_seq : nat) (w w' : world)
    (sp sm tp tm : matrix) :
  seq2seq_build_file_table param_files source_dir src_index target_dir trg_index
    basename longest_seq w = (Ok (sp, sm, tp, tm), w') ->
  exists svf tvf,
    parse_file param_files 1 (stream_path source_dir basename "vf" ".dat") = Ok svf /\
    parse_file param_files 1 (stream_path target_dir basename "vf" ".dat") = Ok tvf /\
    nrows svf <= longest_seq /\ nrows tvf <= longest_seq /\
    (forall i, i < nrows svf ->
       exists x row flag,
         rows svf !! i = Some [x] /\
         rows sp !! (longest_seq - nrows svf + i) = Some row /\
         row !! 42 = Some flag /\
         (flag = 0%Q <-> (x == 0)%Q) /\ (~ (x == 0)%Q -> flag = 1%Q)) /\
    (forall i, i < nrows tvf ->
       exists x row flag,
         rows tvf !! i = Some [x] /\
         rows tp !! i = Some row /\
         row !! 42 = Some flag /\
         (flag = 0%Q <-> (x == 0)%Q) /\ (~ (x == 0)%Q -> flag = 1%Q)).
Proof.
  intros Hrun.
  apply build_file_table_ok in Hrun
    as (st & fl & Hst & _ & _ & Hfl & _ & _ & Hle & _ & _ & Hsp & Htp & _).
  destruct (source_blocks_shapes longest_seq _ _ _ _ _ _ _ _ Hst Hfl Hle) as [Hsrc Htrg].
  destruct (pair_shapes _ _ _ _ _ _ _ _ Hst Hfl) as (Hcols & Hn & _).
  destruct Hcols as (C1 & C2 & C3 & C4 & C5 & C6 & C7 & C8 & C9 & C10 & C11 & C12 & C13 & C14).
  destruct Hn as (N1 & N2 & N3 & N4 & N5 & N6).
  rewrite !Forall_cons in Hle.
  destruct Hle as (L1 & L2 & L3 & L4 & L5 & L6 & L7 & L8 & L9 & L10 & L11 & L12 & _).
  pose proof Hst as (_ & _ & _ & P4 & _ & _ & _ & _ & P9 & _).
  destruct Hfl as (F1 & F2 & _).
  apply voiced_flags_ok in F1 as (_ & _ & _ & F1), F2 as (_ & _ & _ & F2).
  exists (source_vf st), (target_vf st).
  split; [exact P4|]. split; [exact P9|].
  split; [lia|]. split; [lia|]. split.
  - intros i Hi.
    destruct (lookup_lt_is_Some_2 (rows (source_vf st)) i Hi) as [r Hr].
    destruct (F1 i r Hr) as (x & -> & Hflag). rewrite C3 in Hflag. simpl in Hflag.
    destruct (feature_cell (source_blocks longest_seq st fl) sp longest_seq
                (longest_seq - nrows (source_vf st) + i) 3 0
                (padded longest_seq src (source_voiced fl)) Hsrc Hsp)
      as (row & r' & Hrow & Hr' & Hcell); [lia | reflexivity | simpl; lia |].
    cbn [padded rows] in Hr'. simpl in Hcell.
    rewrite C1, C2, C4 in Hcell. simpl in Hcell.
    rewrite <- N1, padded_rows_src_lookup, Hflag in Hr' by lia.
    inversion Hr'; subst r'. simpl in Hcell.
    exists x, row, (inject_Z (1 - kronecker_delta x)).
    split; [exact Hr|]. split; [exact Hrow|]. split; [exact Hcell|].
    apply voiced_flag_value.
  - intros i Hi.
    destruct (lookup_lt_is_Some_2 (rows (target_vf st)) i Hi) as [r Hr].
    destruct (F2 i r Hr) as (x & -> & Hflag). rewrite C11 in Hflag. simpl in Hflag.
    destruct (feature_cell (target_blocks longest_seq st fl) tp longest_seq
                i 3 0 (padded longest_seq trg (target_voiced fl)) Htrg Htp)
      as (row & r' & Hrow & Hr' & Hcell); [lia | reflexivity | simpl; lia |].
    cbn [padded rows] in Hr'. simpl in Hcell.
    rewrite C9, C10, C12 in Hcell. simpl in Hcell.
    rewrite padded_rows_trg_lookup, Hflag in Hr' by lia.
    inversion Hr'; subst r'. simpl in Hcell.
    exists x, row, (inject_Z (1 - kronecker_delta x)).
    split; [exact Hr|]. split; [exact Hrow|]. split; [exact Hcell|].
    apply voiced_flag_value.
Qed.

(** A column of a concatenation is the column of the block it falls in. *)
Lemma feature_column (blocks : list matrix) (m : matrix) (n j c : nat) (b : matrix) :
  Forall (fun b => nrows b = n /\ well_shaped b) blocks ->
  np_concatenate1 blocks = Ok m ->
  blocks !! j = Some b -> c < ncols b ->
  column (sum_list (map ncols (take j blocks)) + c) m = column c b.
Proof.
  intros Hall Hm Hj Hc. apply list_eq. intros k. unfold column.
  rewrite !list_lookup_fmap. destruct (decide (k < n)) as [Hk | Hk].
  - destruct (feature_cell blocks m n k j c b Hall Hm Hk Hj Hc)
      as (row & r & Hrow & Hr & Hcell).
    rewrite Hrow, Hr. simpl. rewrite !nth_lookup, Hcell. reflexivity.
  - destruct (np_concatenate1_ok blocks m n Hm) as (_ & Hn & _).
    { eapply Forall_impl; [exact Hall|]. simpl. tauto. }
    rewrite Forall_forall in Hall.
    destruct (Hall b (list_elem_of_lookup_2 _ _ _ Hj)) as [Hb _].
    unfold nrows in *. rewrite !lookup_ge_None_2 by lia. reflexivity.
Qed.

Lemma map_repeat {A B} (f : A -> B) (x : A) (n : nat) :
  f <$> repeat x n = repeat (f x) n.
Proof. induction n as [|n IH]; simpl; [reflexivity | by rewrite <- IH]. Qed.

(** The end-of-sequence column after padding: on the source side the one is
    in the last row; on the target side it is in the last true row. *)
Lemma column_padded_eos_src (longest_seq n : nat) (e : matrix) :
  eos_flag (n, 1) = Ok e -> n <= longest_seq ->
  column 0 (padded longest_seq src e) = repeat 0%Q (longest_seq - 1) ++ [1%Q].
Proof.
  intros He Hle. apply eos_flag_ok in He as (Hn & Hc & Hr & _ & Hrows).
  unfold column, padded, padded_rows, zero_rows. cbn [rows].
  rewrite Hrows, Hc, Hr. rewrite !fmap_app, !map_repeat. simpl.
  rewrite app_assoc, <- repeat_app. do 2 f_equal. lia.
Qed.

Lemma column_padded_eos_trg (longest_seq n : nat) (e : matrix) :
  eos_flag (n, 1) = Ok e -> n <= longest_seq ->
  column 0 (padded longest_seq trg e)
  = repeat 0%Q (n - 1) ++ [1%Q] ++ repeat 0%Q (longest_seq - n).
Proof.
  intros He Hle. apply eos_flag_ok in He as (Hn & Hc & Hr & _ & Hrows).
  unfold column, padded, padded_rows, zero_rows. cbn [rows].
  rewrite Hrows, Hc, Hr. rewrite !fmap_app, !map_repeat. simpl.
  rewrite <- app_assoc. reflexivity.
Qed.

Lemma ones_zeros_one_zeros (a b : nat) :
  ones (repeat 0%Q a ++ [1%Q] ++ repeat 0%Q b) = 1.
Proof.
  unfold ones. rewrite !List.filter_app, !filter_repeat. reflexivity.
Qed.

(** C7: the end-of-sequence flag (column 43 of either feature matrix) is zero
    in every row but one, where it is exactly 1: the last row on the source
    side, whose true frames are at the end, and row [n - 1] on the target
    side, whose [n >= 1] true frames are at the start.  The column holds
    exactly one 1. *)
Theorem build_file_table_eos_flag
    (param_files : string -> option (list Q))
    (source_dir : string) (src_index : nat) (target_dir : string) (trg_index : nat)
    (basename : string) (longest_seq : nat) (w w' : world)
    (sp sm tp tm : matrix) :
  seq2seq_build_file_table param_files source_dir src_index target_dir trg_index
    basename longest_seq w = (Ok (sp, sm, tp, tm), w') ->
  exists svf tvf,
    parse_file param_files 1 (stream_path source_dir basename "vf" ".dat") = Ok svf /\
    parse_file param_files 1 (stream_path target_dir basename "vf" ".dat") = Ok tvf /\
    1 <= nrows svf <= longest_seq /\
    1 <= nrows tvf <= longest_seq /\
    column 43 sp = repeat 0%Q (longest_seq - 1) ++ [1%Q] /\
    column 43 tp = repeat 0%Q (nrows tvf - 1) ++ [1%Q] ++
                   repeat 0%Q (longest_seq - nrows tvf) /\
    ones (column 43 sp) = 1 /\
    ones (column 43 tp) = 1.
Proof.
  intros Hrun.
  apply build_file_table_ok in Hrun
    as (st & fl & Hst & _ & _ & Hfl & _ & _ & Hle & _ & _ & Hsp & Htp & _).
  destruct (source_blocks_shapes longest_seq _ _ _ _ _ _ _ _ Hst Hfl Hle) as [Hsrc Htrg].
  destruct (pair_shapes _ _ _ _ _ _ _ _ Hst Hfl) as (Hcols & Hn & _).
  destruct Hcols as (C1 & C2 & C3 & C4 & C5 & C6 & C7 & C8 & C9 & C10 & C11 & C12 & C13 & C14).
  destruct Hn as (N1 & N2 & N3 & N4 & N5 & N6).
  rewrite !Forall_cons in Hle.
  destruct Hle as (L1 & L2 & L3 & L4 & L5 & L6 & L7 & L8 & L9 & L10 & L11 & L12 & _).
  pose proof Hst as (_ & _ & _ & P4 & _ & _ & _ & _ & P9 & _).
  destruct Hfl as (_ & _ & F3 & F4 & _).
  unfold shape in F3, F4. rewrite C3 in F3. rewrite C11 in F4.
  assert (Hcs : column 43 sp = repeat 0%Q (longest_seq - 1) ++ [1%Q]).
  { rewrite <- (column_padded_eos_src longest_seq _ _ F3) by lia.
    pose proof (feature_column (source_blocks longest_seq st fl) sp longest_seq 4 0
                  (padded longest_seq src (src_eos_flag fl)) Hsrc Hsp) as Hcol.
    simpl in Hcol. rewrite C1, C2, C4, C5 in Hcol. simpl in Hcol.
    apply Hcol; [reflexivity | lia]. }
  assert (Hct : column 43 tp = repeat 0%Q (nrows (target_vf st) - 1) ++ [1%Q] ++
                               repeat 0%Q (longest_seq - nrows (target_vf st))).
  { rewrite <- (column_padded_eos_trg longest_seq _ _ F4) by lia.
    pose proof (feature_column (target_blocks longest_seq st fl) tp longest_seq 4 0
                  (padded longest_seq trg (trg_eos_flag fl)) Htrg Htp) as Hcol.
    simpl in Hcol. rewrite C9, C10, C12, C13 in Hcol. simpl in Hcol.
    apply Hcol; [reflexivity | lia]. }
  exists (source_vf st), (target_vf st).
  split; [exact P4|]. split; [exact P9|].
  split; [lia|]. split; [lia|].
  split; [exact Hcs|]. split; [exact Hct|]. split.
  - rewrite Hcs. apply (ones_zeros_one_zeros (longest_seq - 1) 0).
  - rewrite Hct. apply ones_zeros_one_zeros.
Qed.

Lemma build_file_table_voiced_flag_witness :
  exists sp sm tp tm w',
    seq2seq_build_file_table demo_params "d/vocoded_s2s/A/" 0 "d/vocoded_s2s/B/" 1
      "u" 2 empty_world = (Ok (sp, sm, tp, tm), w') /\
    exists row, rows sp !! 1 = Some row /\ row !! 42 = Some 0%Q.
Proof.
  pose (r := seq2seq_build_file_table demo_params "d/vocoded_s2s/A/" 0
               "d/vocoded_s2s/B/" 1 "u" 2 empty_world).
  let v := eval vm_compute in r in assert (E : r = v) by (vm_compute; reflexivity).
  unfold r in E. eexists _, _, _, _, _. split; [exact E|].
  destruct (build_file_table_voiced_flag _ _ _ _ _ _ _ _ _ _ _ _ _ E)
    as (svf & tvf & Hs & _ & _ & _ & Hsrc & _).
  vm_compute in Hs. inversion Hs; subst svf.
  destruct (Hsrc 0) as (x & row & flag & Hx & Hrow & Hflag & Hzero & _);
    [unfold nrows; simpl; lia|].
  inversion Hx; subst x. exists row. split; [exact Hrow|].
  rewrite Hflag. f_equal. apply Hzero. reflexivity.
Defined.

Lemma build_file_table_eos_flag_witness :
  exists sp sm tp tm w',
    seq2seq_build_file_table demo_params "d/vocoded_s2s/A/" 0 "d/vocoded_s2s/B/" 1
      "u" 2 empty_world = (Ok (sp, sm, tp, tm), w') /\
    column 43 sp = [0%Q; 1%Q] /\ column 43 tp = [0%Q; 1%Q] /\
    ones (column 43 sp) = 1.
Proof.
  pose (r := seq2seq_build_file_table demo_params "d/vocoded_s2s/A/" 0
               "d/vocoded_s2s/B/" 1 "u" 2 empty_world).
  let v := eval vm_compute in r in assert (E : r = v) by (vm_compute; reflexivity).
  unfold r in E. eexists _, _, _, _, _. split; [exact E|].
  destruct (build_file_table_eos_flag _ _ _ _ _ _ _ _ _ _ _ _ _ E)
    as (svf & tvf & _ & Ht & _ & _ & Hcs & Hct & Hone & _).
  vm_compute in Ht. inversion Ht; subst tvf.
  split; [exact Hcs|]. split; [exact Hct | exact Hone].
Defined.

(** ** The corpus assembler *)

Lemma enumerate_lt {A} (l : list A) (i : nat) (x : A) :
  (i, x) ∈ enumerate l -> i < length l.
Proof.
  unfold enumerate. intros H. apply elem_of_zip_l in H.
  apply elem_of_seq in H. lia.
Qed.

(** An invariant of every pass of the innermost body is an invariant of the
    three loops. *)
Lemma assemble_loops_invariant (P : tables -> Prop)
    param_files data_dir longest_seq speakers basenames :
  (forall src_index src_spk trg_index trg_spk basename t w t' w',
     src_index < length speakers -> trg_index < length speakers ->
     basename ∈ basenames -> P t ->
     process_pair param_files data_dir longest_seq src_index src_spk
       trg_index trg_spk t basename w = (Ok t', w') ->
     P t') ->
  forall t0 w t w',
    P t0 ->
    assemble_loops param_files data_dir longest_seq speakers basenames t0 w
      = (Ok t, w') ->
    P t.
Proof.
  intros Hbody t0 w t w' H0 Hrun. unfold assemble_loops in Hrun.
  eapply (for_fold_invariant (fun t _ => P t)); [| exact H0 | exact Hrun].
  intros s [si ss] w1 s1 w1' Hin Hs Hmid. apply enumerate_lt in Hin.
  eapply (for_fold_invariant (fun t _ => P t)); [| exact Hs | exact Hmid].
  intros s2 [ti ts] w2 s3 w3 Hin2 Hs2 Hinner. apply enumerate_lt in Hin2.
  eapply (for_fold_invariant (fun t _ => P t)); [| exact Hs2 | exact Hinner].
  intros s4 bn w4 s5 w5 Hbn Hs4 Hpair.
  exact (Hbody si ss ti ts bn s4 w4 s5 w5 Hin Hin2 Hbn Hs4 Hpair).
Qed.

Lemma set_row_ok (a : matrix) (i : nat) (r : list Q) (a' : matrix) :
  set_row a i r = Ok a' ->
  i < nrows a /\ length r = ncols a /\
  a' = Matrix (ncols a) (<[i := r]> (rows a)).
Proof.
  unfold set_row. destruct (Nat.ltb_spec i (nrows a)) as [Hi|Hi]; [|discriminate].
  destruct (Nat.eqb_spec (length r) (ncols a)) as [Hr|Hr]; [|discriminate].
  intros E. inversion E. auto.
Qed.

(** What one pass of the body does to the two accumulators: the row of the
    source speaker becomes the elementwise maximum (minimum) of itself and a
    row computed from the pair; the other rows stay. *)
Lemma process_pair_ok param_files data_dir longest_seq src_index src_spk
    trg_index trg_spk t basename w t' w' :
  process_pair param_files data_dir longest_seq src_index src_spk trg_index
    trg_spk t basename w = (Ok t', w') ->
  exists sp sm tp tm old_max old_min pair_max pair_min,
    src_datatable t' = src_datatable t ++ [sp] /\
    src_masks t' = src_masks t ++ [sm] /\
    trg_datatable t' = trg_datatable t ++ [tp] /\
    trg_masks t' = trg_masks t ++ [tm] /\
    rows (spk_max t) !! src_index = Some old_max /\
    rows (spk_min t) !! src_index = Some old_min /\
    length old_max = length pair_max /\
    length old_min = length pair_min /\
    spk_max t' = Matrix (ncols (spk_max t))
                   (<[src_index := zip_with Qmax old_max pair_max]> (rows (spk_max t))) /\
    spk_min t' = Matrix (ncols (spk_min t))
                   (<[src_index := zip_with Qmin old_min pair_min]> (rows (spk_min t))) /\
    h5_store w' = h5_store w.
Proof.
  unfold process_pair. intros H. py_step H. py_step H.
  destruct v0 as [[[sp sm] tp] tm]. py_peel H. py_lift H.
  cbn [src_datatable src_masks trg_datatable trg_masks spk_max spk_min].
  apply build_file_table_ok in Hrun0
    as (? & ? & _ & _ & _ & _ & _ & _ & _ & _ & _ & _ & _ & Hst).
  match goal with
  | Hp : print _ _ = (Ok _, ?w0) |- _ =>
      unfold print in Hp; injection Hp as _ Hw; subst w0
  end.
  cbn [h5_store] in Hst.
  repeat match goal with
         | Hs : set_row _ _ _ = Ok _ |- _ =>
             apply set_row_ok in Hs; destruct Hs as (? & ? & ?); subst
         | Hg : get_row _ _ = Ok _ |- _ =>
             unfold get_row in Hg;
             match type of Hg with
             | match ?o with _ => _ end = _ =>
                 destruct o eqn:?; [inversion Hg; subst; clear Hg | discriminate]
             end
         | Hm : np_maximum _ _ = Ok _ |- _ =>
             unfold np_maximum, np_elementwise in Hm;
             match type of Hm with
             | (if ?c then _ else _) = _ =>
                 destruct c eqn:?; [inversion Hm; subst; clear Hm | discriminate]
             end
         | Hm : np_minimum _ _ = Ok _ |- _ =>
             unfold np_minimum, np_elementwise in Hm;
             match type of Hm with
             | (if ?c then _ else _) = _ =>
                 destruct c eqn:?; [inversion Hm; subst; clear Hm | discriminate]
             end
         end.
  eexists sp, sm, tp, tm, _, _, _, _.
  repeat match goal with |- _ /\ _ => split end;
    first [eassumption | by apply Nat.eqb_eq | reflexivity].
Qed.

Lemma open_readlines_ok text_files path w ls w' :
  open_readlines text_files path w = (Ok ls, w') ->
  exists text, text_files path = Some text /\ ls = readlines text /\ w' = w.
Proof.
  unfold open_readlines. destruct (text_files path) as [text|]; [|discriminate].
  intros H. py_lift H. eauto.
Qed.

(** What a successful run of the assembler has done. *)
Lemma construct_datatable_ok param_files text_files data_dir speakers_file
    basenames_file w x w' :
  seq2seq_construct_datatable param_files text_files data_dir speakers_file
    basenames_file w = (Ok x, w') ->
  exists speakers basenames longest_seq t w1 w2 w3,
    data_dir <> EmptyString /\
    read_list text_files (data_dir +:+ speakers_file) = Some speakers /\
    read_list text_files (data_dir +:+ basenames_file) = Some basenames /\
    find_longest_sequence param_files data_dir speakers basenames w1
      = (Ok longest_seq, w2) /\
    assemble_loops param_files data_dir longest_seq speakers basenames
      initial_tables w2 = (Ok t, w3) /\
    (exists a_src a_sm m_src a_trg a_tm m_trg,
       np_array (src_datatable t) = Ok a_src /\
       np_array (src_masks t) = Ok a_sm /\
       reshape_rows (ravel a_sm) longest_seq = Ok m_src /\
       np_array (trg_datatable t) = Ok a_trg /\
       np_array (trg_masks t) = Ok a_tm /\
       reshape_rows (ravel a_tm) longest_seq = Ok m_trg /\
       x = (a_src, Nd2 m_src, a_trg, Nd2 m_trg, longest_seq, spk_max t, spk_min t)) /\
    h5_store w1 = h5_store w /\ w' = w3.
Proof.
  unfold seq2seq_construct_datatable. intros H.
  py_step H. apply dir_check_ok in Hrun as (Hd & Hst & _); [|by left].
  py_step H. apply open_readlines_ok in Hrun as (text1 & Ht1 & -> & ->).
  py_step H. apply open_readlines_ok in Hrun as (text2 & Ht2 & -> & ->).
  py_step H. py_step H. py_peel H. py_lift H.
  eexists _, _, _, _, _, _, _.
  split; [exact Hd|].
  split; [unfold read_list; rewrite Ht1; reflexivity|].
  split; [unfold read_list; rewrite Ht2; reflexivity|].
  split; [eassumption|]. split; [eassumption|].
  split; [| split; [exact Hst | reflexivity]].
  eexists _, _, _, _, _, _. repeat split; eassumption.
Qed.

Lemma lookup_repeat {A} (x : A) (n i : nat) : i < n -> repeat x n !! i = Some x.
Proof.
  revert i. induction n as [|n IH]; intros i Hi; [lia|].
  destruct i as [|i]; simpl; [reflexivity | apply IH; lia].
Qed.

(** C10: the rows of the two statistics matrices whose index is not the
    index of a speaker (from the number of speakers up to 9) still hold
    their seeds, all zeros and all [1e+50], when the assembler returns. *)
Theorem construct_datatable_untouched_rows
    (param_files : string -> option (list Q)) (text_files : string -> option string)
    (data_dir speakers_file basenames_file : string) (w w' : world)
    (a b c d : ndarray) (longest_seq : nat) (speakers_max speakers_min : matrix) :
  seq2seq_construct_datatable param_files text_files data_dir speakers_file
    basenames_file w
  = (Ok (a, b, c, d, longest_seq, speakers_max, speakers_min), w') ->
  exists speakers,
    read_list text_files (data_dir +:+ speakers_file) = Some speakers /\
    forall i, length speakers <= i -> i < 10 ->
      rows speakers_max !! i = Some (repeat 0%Q 42) /\
      rows speakers_min !! i = Some (repeat min_seed 42).
Proof.
  intros Hrun.
  apply construct_datatable_ok in Hrun
    as (speakers & basenames & L & t & w1 & w2 & w3 & _ & Hsp & _ & _ & Hloops & Hx & _).
  destruct Hx as (? & ? & ? & ? & ? & ? & _ & _ & _ & _ & _ & _ & Hx).
  inversion Hx; subst; clear Hx.
  exists speakers. split; [exact Hsp|].
  assert (Hinv : forall i, length speakers <= i ->
            rows (spk_max t) !! i = rows (spk_max initial_tables) !! i /\
            rows (spk_min t) !! i = rows (spk_min initial_tables) !! i).
  { eapply (assemble_loops_invariant
              (fun t => forall i, length speakers <= i ->
                 rows (spk_max t) !! i = rows (spk_max initial_tables) !! i /\
                 rows (spk_min t) !! i = rows (spk_min initial_tables) !! i));
      [| | exact Hloops].
    - intros si ss ti ts bn t0 wa t1 wb Hsi _ _ IH Hpair i Hi.
      apply process_pair_ok in Hpair
        as (? & ? & ? & ? & ? & ? & ? & ? & _ & _ & _ & _ & _ & _ & _ & _ & Hmax & Hmin & _).
      rewrite Hmax, Hmin. cbn [rows].
      rewrite !list_lookup_insert_ne by lia. by apply IH.
    - intros i _. split; reflexivity. }
  intros i Hi H10. destruct (Hinv i Hi) as [-> ->].
  unfold initial_tables. cbn [spk_max spk_min rows].
  split; by apply lookup_repeat.
Qed.

Lemma construct_datatable_untouched_rows_witness :
  exists a b c d longest_seq speakers_max speakers_min w',
    seq2seq_construct_datatable demo_params demo_text "d/" "speakers.list"
      "seq2seq_basenames.list" empty_world
    = (Ok (a, b, c, d, longest_seq, speakers_max, speakers_min), w') /\
    rows speakers_max !! 2 = Some (repeat 0%Q 42) /\
    rows speakers_min !! 9 = Some (repeat min_seed 42).
Proof.
  pose (r := seq2seq_construct_datatable demo_params demo_text "d/" "speakers.list"
               "seq2seq_basenames.list" empty_world).
  let v := eval vm_compute in r in assert (E : r = v) by (vm_compute; reflexivity).
  unfold r in E. eexists _, _, _, _, _, _, _, _. split; [exact E|].
  destruct (construct_datatable_untouched_rows _ _ _ _ _ _ _ _ _ _ _ _ _ _ E)
    as (speakers & Hsp & Hrows).
  vm_compute in Hsp. inversion Hsp; subst speakers.
  split.
  - apply (Hrows 2); simpl; lia.
  - apply (Hrows 9); simpl; lia.
Defined.

(** C3: on the small corpus speaker [A] is the source of two pairs; in both,
    the only real frame has -1 in spectral column 0, so the true maximum of
    that column is -1, and the maximum the assembler returns for it is the
    seed 0.  The minimum it returns is -1. *)
Theorem construct_datatable_max_keeps_seed :
  exists a b c d longest_seq speakers_max speakers_min w',
    seq2seq_construct_datatable demo_params demo_text "d/" "speakers.list"
      "seq2seq_basenames.list" empty_world
    = (Ok (a, b, c, d, longest_seq, speakers_max, speakers_min), w') /\
    (exists sp sm tp tm w1,
       seq2seq_build_file_table demo_params "d/vocoded_s2s/A/" 0
         "d/vocoded_s2s/A/" 0 "u" longest_seq empty_world
       = (Ok (sp, sm, tp, tm), w1) /\
       (fun row => nth 0 row 0%Q) <$> unpadded_rows sp sm = [(-1)%Q]) /\
    (exists sp sm tp tm w1,
       seq2seq_build_file_table demo_params "d/vocoded_s2s/A/" 0
         "d/vocoded_s2s/B/" 1 "u" longest_seq empty_world
       = (Ok (sp, sm, tp, tm), w1) /\
       (fun row => nth 0 row 0%Q) <$> unpadded_rows sp sm = [(-1)%Q]) /\
    rows speakers_max !! 0 ≫= (fun row => row !! 0) = Some 0%Q /\
    rows speakers_min !! 0 ≫= (fun row => row !! 0) = Some (-1)%Q.
Proof.
  eexists _, _, _, _, _, _, _, _.
  split; [vm_compute; reflexivity|].
  split; [eexists _, _, _, _, _; split; vm_compute; reflexivity|].
  split; [eexists _, _, _, _, _; split; vm_compute; reflexivity|].
  split; vm_compute; reflexivity.
Qed.

(** ** The number of pairs *)

Lemma for_fold_count {A S} (f : S -> nat) (k : nat) (l : list A)
    (body : S -> A -> py S) :
  (forall s x w s' w', x ∈ l -> body s x w = (Ok s', w') -> f s' = f s + k) ->
  forall s w s' w',
    for_fold l s body w = (Ok s', w') -> f s' = f s + k * length l.
Proof.
  induction l as [|x l IH]; intros Hbody s w s' w' Hrun; simpl in Hrun.
  - py_lift Hrun. simpl. lia.
  - py_step Hrun.
    assert (Hx : f v = f s + k).
    { eapply Hbody; [|exact Hrun0]. apply elem_of_cons. by left. }
    assert (Hl : f s' = f v + k * length l).
    { eapply IH; [|exact Hrun]. intros. eapply Hbody; [|eassumption].
      apply elem_of_cons. by right. }
    simpl. lia.
Qed.

Lemma length_enumerate {A} (l : list A) : length (enumerate l) = length l.
Proof.
  unfold enumerate. rewrite length_zip_with, length_seq. lia.
Qed.

(** The loops append one entry to each of the four lists per (source,
    target, basename) triple. *)
Lemma assemble_loops_count param_files data_dir longest_seq speakers basenames
    (f : tables -> nat) :
  (forall src_index src_spk trg_index trg_spk basename t w t' w',
     process_pair param_files data_dir longest_seq src_index src_spk
       trg_index trg_spk t basename w = (Ok t', w') ->
     f t' = f t + 1) ->
  forall t0 w t w',
    assemble_loops param_files data_dir longest_seq speakers basenames t0 w
      = (Ok t, w') ->
    f t = f t0 + length speakers * length speakers * length basenames.
Proof.
  intros Hbody t0 w t w' Hrun. unfold assemble_loops in Hrun.
  apply (for_fold_count f (length speakers * length basenames)) in Hrun.
  - rewrite length_enumerate in Hrun. lia.
  - intros s [si ss] w1 s1 w1' _ Hmid.
    apply (for_fold_count f (length basenames)) in Hmid.
    + rewrite length_enumerate in Hmid. lia.
    + intros s2 [ti ts] w2 s3 w3 _ Hinner.
      apply (for_fold_count f 1) in Hinner; [lia|].
      intros s4 bn w4 s5 w5 _ Hpair. eapply Hbody. exact Hpair.
Qed.

Lemma corpus_counts_empty param_files data_dir speakers basenames :
  speakers = [] \/ basenames = [] ->
  corpus_counts param_files data_dir speakers basenames = [].
Proof.
  intros [-> | ->]; [reflexivity|].
  unfold corpus_counts, speaker_counts. simpl.
  induction speakers as [|sp sps IH]; simpl; [reflexivity | exact IH].
Qed.

(** The arrays the assembler returns have three dimensions (the tables) and
    two (the masks): it returns only when there was at least one pair. *)
Lemma construct_datatable_ndim param_files text_files data_dir speakers_file
    basenames_file w a b c d longest_seq speakers_max speakers_min w' :
  seq2seq_construct_datatable param_files text_files data_dir speakers_file
    basenames_file w
  = (Ok (a, b, c, d, longest_seq, speakers_max, speakers_min), w') ->
  ndim a = 3 /\ ndim b = 2 /\ ndim c = 3 /\ ndim d = 2 /\ 1 <= longest_seq.
Proof.
  intros Hrun.
  apply construct_datatable_ok in Hrun
    as (speakers & basenames & L & t & w1 & w2 & w3 & _ & _ & _ & Hscan & Hloops & Hx & _).
  destruct Hx as (a_src & a_sm & m_src & a_trg & a_tm & m_trg &
                  Ha & _ & Hm & Hc & _ & _ & Hx).
  inversion Hx; subst; clear Hx.
  apply reshape_rows_ok in Hm as (_ & _ & HL).
  apply find_longest_sequence_ok in Hscan as (_ & Hmax & _).
  assert (Hne : speakers <> [] /\ basenames <> []).
  { split; intros ->; rewrite corpus_counts_empty in Hmax by auto;
      simpl in Hmax; lia. }
  destruct Hne as [Hs Hb].
  assert (Hpairs : 1 <= length speakers * length speakers * length basenames).
  { destruct speakers; [congruence|]. destruct basenames; [congruence|].
    simpl. lia. }
  assert (Hsrc : length (src_datatable t)
                 = length (src_datatable initial_tables)
                   + length speakers * length speakers * length basenames).
  { eapply (assemble_loops_count _ _ _ _ _ (fun t => length (src_datatable t)));
      [|exact Hloops].
    intros ? ? ? ? ? ? ? ? ? Hp. apply process_pair_ok in Hp
      as (? & ? & ? & ? & ? & ? & ? & ? & -> & _). rewrite length_app. simpl. lia. }
  assert (Htrg : length (trg_datatable t)
                 = length (trg_datatable initial_tables)
                   + length speakers * length speakers * length basenames).
  { eapply (assemble_loops_count _ _ _ _ _ (fun t => length (trg_datatable t)));
      [|exact Hloops].
    intros ? ? ? ? ? ? ? ? ? Hp. apply process_pair_ok in Hp
      as (? & ? & ? & ? & ? & ? & ? & ? & _ & _ & -> & _). rewrite length_app. simpl. lia. }
  unfold np_array in Ha, Hc.
  destruct (src_datatable t) as [|m0 ms]; [simpl in Hsrc; lia|].
  destruct (trg_datatable t) as [|m1 ms']; [simpl in Htrg; lia|].
  destruct (forallb _ ms); [|discriminate]. destruct (forallb _ ms'); [|discriminate].
  inversion Ha; inversion Hc; subst. auto.
Qed.

(** ** The datatable store *)

Lemma bind_h5_update {B} (path : string) (g : h5file -> result h5file)
    (k : unit -> py B) (o : list string) (m : gmap string h5file) (file : h5file) :
  bind (h5_update path g) k (World o (<[path := file]> m)) =
  match g file with
  | Ok file' => k tt (World o (<[path := file']> m))
  | Raise e => (Raise e, World o (<[path := file]> m))
  end.
Proof.
  unfold bind, h5_update. cbn [h5_store stdout]. rewrite lookup_insert_eq.
  destruct (g file); [rewrite insert_insert_eq|]; reflexivity.
Qed.

(** The container a successful save leaves behind, and the tuple it
    returns. *)
Lemma save_datatable_ok param_files text_files data_dir out w x w' :
  seq2seq_save_datatable param_files text_files data_dir out w = (Ok x, w') ->
  exists a b c d n mx mn w1 w2,
    seq2seq_construct_datatable param_files text_files data_dir
      "speakers.list" "seq2seq_basenames.list" w1
    = (Ok (a, b, c, d, n, mx, mn), w2) /\
    x = (a, b, c, d, n, mx, mn) /\
    w' = World (stdout w2)
           (<[out +:+ ".h5" :=
                H5File
                  (<["speakers_min" := PyArray (Nd2 mn)]>
                     (<["speakers_max" := PyArray (Nd2 mx)]>
                        (<["max_seq_length" := PyInt (Z.of_nat n)]> ∅)))
                  (<["trg_mask" := d]>
                     (<["src_mask" := b]>
                        (<["trg_datatable" := c]>
                           (<["src_datatable" := a]> ∅))))]>
              (h5_store w2)).
Proof.
  unfold seq2seq_save_datatable. intros H.
  py_step H. py_step H. py_step H.
  destruct v1 as [[[[[[a b] c] d] n] mx] mn].
  exists a, b, c, d, n, mx, mn, w1, w2. split; [exact Hrun1|].
  unfold attrs_create, create_dataset in H. cbn [for_fold] in H.
  unfold bind at 1 in H. unfold h5_create in H. cbn [stdout h5_store] in H.
  rewrite !bind_h5_update in H. cbn [h5_attrs h5_datasets] in H.
  py_step H. py_lift H.
  rewrite !bind_h5_update in Hrun2. cbn [h5_attrs h5_datasets] in Hrun2.
  rewrite lookup_empty in Hrun2.
  rewrite !bind_h5_update in Hrun2. cbn [h5_attrs h5_datasets] in Hrun2.
  rewrite lookup_insert_ne, lookup_empty in Hrun2 by done.
  rewrite !bind_h5_update in Hrun2. cbn [h5_attrs h5_datasets] in Hrun2.
  rewrite !lookup_insert_ne, lookup_empty in Hrun2 by done.
  rewrite !bind_h5_update in Hrun2. cbn [h5_attrs h5_datasets] in Hrun2.
  rewrite !lookup_insert_ne, lookup_empty in Hrun2 by done.
  py_lift Hrun2. split; reflexivity.
Qed.

(** C1: the tuple a save returns is the tuple the assembler produced, and
    loading the container the save has written gives that tuple back: the
    four arrays, the longest-sequence length and the two statistics
    matrices, each exactly as it was; the load changes nothing. *)
Theorem save_load_round_trip
    (param_files : string -> option (list Q)) (text_files : string -> option string)
    (data_dir datatable_out_file : string) (w w' : world) (x : datatable) :
  seq2seq_save_datatable param_files text_files data_dir datatable_out_file w
  = (Ok x, w') ->
  (exists w1 w2,
     seq2seq_construct_datatable param_files text_files data_dir
       "speakers.list" "seq2seq_basenames.list" w1 = (Ok x, w2)) /\
  seq2seq2_load_datatable (datatable_out_file +:+ ".h5") w'
  = (Ok (as_loaded x), w').
Proof.
  intros Hsave.
  apply save_datatable_ok in Hsave
    as (a & b & c & d & n & mx & mn & w1 & w2 & Hrun & -> & ->).
  split; [by exists w1, w2|].
  apply construct_datatable_ndim in Hrun as (Ha & Hb & Hc & Hd & _).
  unfold seq2seq2_load_datatable, as_loaded.
  unfold bind at 1. unfold h5_open. cbn [h5_store].
  rewrite lookup_insert_eq.
  assert (Hread : forall (ds : gmap string ndarray) name arr,
            ds !! name = Some arr -> 2 <= ndim arr ->
            read_dataset (H5File
                            (<["speakers_min" := PyArray (Nd2 mn)]>
                               (<["speakers_max" := PyArray (Nd2 mx)]>
                                  (<["max_seq_length" := PyInt (Z.of_nat n)]> ∅))) ds)
              name = Ok arr).
  { intros ds name arr Hl Hdim. unfold read_dataset. cbn [h5_datasets].
    rewrite Hl. destruct (Nat.leb_spec 2 (ndim arr)); [reflexivity | lia]. }
  rewrite (bind_lift_ok _ _ a);
    [| apply Hread; [by simplify_map_eq | lia]].
  rewrite (bind_lift_ok _ _ c);
    [| apply Hread; [by simplify_map_eq | lia]].
  rewrite (bind_lift_ok _ _ b);
    [| apply Hread; [by simplify_map_eq | lia]].
  rewrite (bind_lift_ok _ _ d);
    [| apply Hread; [by simplify_map_eq | lia]].
  unfold ret, attrs_get. cbn [h5_attrs].
  by simplify_map_eq.
Qed.

Lemma save_load_round_trip_witness :
  exists x w',
    seq2seq_save_datatable demo_params demo_text "d/" "out" empty_world = (Ok x, w') /\
    seq2seq2_load_datatable "out.h5" w' = (Ok (as_loaded x), w').
Proof.
  pose (r := seq2seq_save_datatable demo_params demo_text "d/" "out" empty_world).
  let v := eval vm_compute in r in assert (E : r = v) by (vm_compute; reflexivity).
  unfold r in E. eexists _, _. split; [exact E|].
  exact (proj2 (save_load_round_trip _ _ _ _ _ _ _ E)).
Defined.

(** ** Monotonicity of the statistics *)

Lemma row_le_refl (r : list Q) : Forall2 Qle r r.
Proof. induction r; constructor; [apply Qle_refl | assumption]. Qed.

Lemma row_le_trans (r1 r2 r3 : list Q) :
  Forall2 Qle r1 r2 -> Forall2 Qle r2 r3 -> Forall2 Qle r1 r3.
Proof.
  intros H12. revert r3. induction H12 as [|x y l1 l2 Hxy _ IH]; intros r3 H23.
  - inversion H23. constructor.
  - inversion H23 as [|? z ? l3 Hyz Hl]; subst. constructor; [|by apply IH].
    by eapply Qle_trans.
Qed.

Lemma rows_le_refl (rs : list (list Q)) : Forall2 (Forall2 Qle) rs rs.
Proof.
  induction rs as [|r rs IH]; [constructor|].
  constructor; [apply row_le_refl | exact IH].
Qed.

Lemma matrix_le_refl (a : matrix) : matrix_le a a.
Proof. apply rows_le_refl. Qed.

Lemma matrix_le_trans (a b c : matrix) :
  matrix_le a b -> matrix_le b c -> matrix_le a c.
Proof.
  unfold matrix_le. intros H12. generalize (rows c).
  induction H12 as [|x y l1 l2 Hxy _ IH]; intros r3 H23.
  - inversion H23. constructor.
  - inversion H23 as [|? z ? l3 Hyz Hl]; subst. constructor; [|by apply IH].
    by eapply row_le_trans.
Qed.

Lemma row_le_max (r p : list Q) :
  length r = length p -> Forall2 Qle r (zip_with Qmax r p).
Proof.
  revert p. induction r as [|x r IH]; intros [|y p] Hlen; simpl in *;
    try lia; constructor; [apply Q.le_max_l | apply IH; lia].
Qed.

Lemma row_min_le (r p : list Q) :
  length r = length p -> Forall2 Qle (zip_with Qmin r p) r.
Proof.
  revert p. induction r as [|x r IH]; intros [|y p] Hlen; simpl in *;
    try lia; constructor; [apply Q.le_min_l | apply IH; lia].
Qed.

Lemma rows_le_insert_r (rs : list (list Q)) (i : nat) (old new : list Q) :
  rs !! i = Some old -> Forall2 Qle old new ->
  Forall2 (Forall2 Qle) rs (<[i := new]> rs).
Proof.
  intros Hi Hle. rewrite <- (list_insert_id rs i old Hi) at 1.
  apply Forall2_insert; [apply rows_le_refl | exact Hle].
Qed.

Lemma rows_le_insert_l (rs : list (list Q)) (i : nat) (old new : list Q) :
  rs !! i = Some old -> Forall2 Qle new old ->
  Forall2 (Forall2 Qle) (<[i := new]> rs) rs.
Proof.
  intros Hi Hle. rewrite <- (list_insert_id rs i old Hi) at 2.
  apply Forall2_insert; [apply rows_le_refl | exact Hle].
Qed.

Lemma process_pair_le param_files data_dir longest_seq src_index src_spk trg_index
    trg_spk t basename w t' w' :
  process_pair param_files data_dir longest_seq src_index src_spk trg_index
    trg_spk t basename w = (Ok t', w') ->
  matrix_le (spk_max t) (spk_max t') /\ matrix_le (spk_min t') (spk_min t).
Proof.
  intros Hpair. apply process_pair_ok in Hpair
    as (? & ? & ? & ? & old_max & old_min & pair_max & pair_min &
        _ & _ & _ & _ & Hmax & Hmin & Hl1 & Hl2 & -> & -> & _).
  unfold matrix_le. cbn [rows]. split.
  - eapply rows_le_insert_r; [exact Hmax | by apply row_le_max].
  - eapply rows_le_insert_l; [exact Hmin | by apply row_min_le].
Qed.

(** X1: one pass of the assembler's body never lowers a cell of the maximum
    accumulator and never raises a cell of the minimum accumulator: the row
    of the source speaker becomes its elementwise maximum (minimum) with the
    row computed from the pair, and no other row changes. *)
Theorem process_pair_monotone
    (param_files : string -> option (list Q)) (data_dir : string)
    (longest_seq src_index : nat) (src_spk : string) (trg_index : nat)
    (trg_spk : string) (t : tables) (basename : string) (w : world)
    (t' : tables) (w' : world) :
  process_pair param_files data_dir longest_seq src_index src_spk trg_index
    trg_spk t basename w = (Ok t', w') ->
  matrix_le (spk_max t) (spk_max t') /\ matrix_le (spk_min t') (spk_min t) /\
  (forall i, i <> src_index ->
     rows (spk_max t') !! i = rows (spk_max t) !! i /\
     rows (spk_min t') !! i = rows (spk_min t) !! i).
Proof.
  intros Hpair. apply process_pair_ok in Hpair
    as (? & ? & ? & ? & old_max & old_min & pair_max & pair_min &
        _ & _ & _ & _ & Hmax & Hmin & Hl1 & Hl2 & -> & -> & _).
  unfold matrix_le. cbn [rows]. split; [|split].
  - eapply rows_le_insert_r; [exact Hmax | by apply row_le_max].
  - eapply rows_le_insert_l; [exact Hmin | by apply row_min_le].
  - intros i Hi. rewrite !list_lookup_insert_ne by congruence. auto.
Qed.

(** X2: over the whole run, the statistics the assembler returns are, cell by
    cell, at least the seed 0 (maximum) and at most the seed [1e+50]
    (minimum). *)
Theorem construct_datatable_statistics_bounds
    (param_files : string -> option (list Q)) (text_files : string -> option string)
    (data_dir speakers_file basenames_file : string) (w w' : world)
    (a b c d : ndarray) (longest_seq : nat) (speakers_max speakers_min : matrix) :
  seq2seq_construct_datatable param_files text_files data_dir speakers_file
    basenames_file w
  = (Ok (a, b, c, d, longest_seq, speakers_max, speakers_min), w') ->
  matrix_le (spk_max initial_tables) speakers_max /\
  matrix_le speakers_min (spk_min initial_tables).
Proof.
  intros Hrun.
  apply construct_datatable_ok in Hrun
    as (speakers & basenames & L & t & w1 & w2 & w3 & _ & _ & _ & _ & Hloops & Hx & _).
  destruct Hx as (? & ? & ? & ? & ? & ? & _ & _ & _ & _ & _ & _ & Hx).
  inversion Hx; subst; clear Hx.
  eapply (assemble_loops_invariant
            (fun t => matrix_le (spk_max initial_tables) (spk_max t) /\
                      matrix_le (spk_min t) (spk_min initial_tables)));
    [| | exact Hloops].
  - intros si ss ti ts bn t0 wa t1 wb _ _ _ [IH1 IH2] Hpair.
    apply process_pair_le in Hpair as [H1 H2].
    split; [by eapply matrix_le_trans | by eapply matrix_le_trans].
  - split; apply matrix_le_refl.
Qed.

Lemma process_pair_monotone_witness :
  exists t' w',
    process_pair demo_params "d/" 2 0 "A" 1 "B" initial_tables "u" empty_world
    = (Ok t', w') /\
    matrix_le (spk_max initial_tables) (spk_max t') /\
    matrix_le (spk_min t') (spk_min initial_tables) /\
    rows (spk_max t') !! 1 = rows (spk_max initial_tables) !! 1.
Proof.
  pose (r := process_pair demo_params "d/" 2 0 "A" 1 "B" initial_tables "u"
               empty_world).
  let v := eval vm_compute in r in assert (E : r = v) by (vm_compute; reflexivity).
  unfold r in E. eexists _, _. split; [exact E|].
  destruct (process_pair_monotone _ _ _ _ _ _ _ _ _ _ _ _ E) as (Hmax & Hmin & Hrest).
  split; [exact Hmax|]. split; [exact Hmin|].
  apply (Hrest 1). discriminate.
Defined.

Lemma construct_datatable_statistics_bounds_witness :
  exists a b c d longest_seq speakers_max speakers_min w',
    seq2seq_construct_datatable demo_params demo_text "d/" "speakers.list"
      "seq2seq_basenames.list" empty_world
    = (Ok (a, b, c, d, longest_seq, speakers_max, speakers_min), w') /\
    matrix_le (spk_max initial_tables) speakers_max /\
    matrix_le speakers_min (spk_min initial_tables).
Proof.
  pose (r := seq2seq_construct_datatable demo_params demo_text "d/" "speakers.list"
               "seq2seq_basenames.list" empty_world).
  let v := eval vm_compute in r in assert (E : r = v) by (vm_compute; reflexivity).
  unfold r in E. eexists _, _, _, _, _, _, _, _. split; [exact E|].
  exact (construct_datatable_statistics_bounds _ _ _ _ _ _ _ _ _ _ _ _ _ _ E).
Defined.

(** X4: the assembler stacks one block per ordered pair of speakers and
    utterance: with [S] speakers and [U] basenames, each of the two tables
    holds [S * S * U] blocks. *)
Theorem construct_datatable_pair_count
    (param_files : string -> option (list Q)) (text_files : string -> option string)
    (data_dir speakers_file basenames_file : string) (w w' : world)
    (a b c d : ndarray) (longest_seq : nat) (speakers_max speakers_min : matrix) :
  seq2seq_construct_datatable param_files text_files data_dir speakers_file
    basenames_file w
  = (Ok (a, b, c, d, longest_seq, speakers_max, speakers_min), w') ->
  exists speakers basenames src_blocks trg_blocks,
    read_list text_files (data_dir +:+ speakers_file) = Some speakers /\
    read_list text_files (data_dir +:+ basenames_file) = Some basenames /\
    a = Nd3 src_blocks /\ c = Nd3 trg_blocks /\
    length src_blocks = length speakers * length speakers * length basenames /\
    length trg_blocks = length speakers * length speakers * length basenames.
Proof.
  intros Hrun. pose proof (construct_datatable_ndim _ _ _ _ _ _ _ _ _ _ _ _ _ _ Hrun)
    as (Ha3 & _ & Hc3 & _).
  apply construct_datatable_ok in Hrun
    as (speakers & basenames & L & t & w1 & w2 & w3 & _ & Hsp & Hbn & _ & Hloops & Hx & _).
  destruct Hx as (a_src & a_sm & m_src & a_trg & a_tm & m_trg &
                  Ha & _ & _ & Hc & _ & _ & Hx).
  inversion Hx; subst; clear Hx.
  assert (Hsrc : length (src_datatable t)
                 = length (src_datatable initial_tables)
                   + length speakers * length speakers * length basenames).
  { eapply (assemble_loops_count _ _ _ _ _ (fun t => length (src_datatable t)));
      [|exact Hloops].
    intros ? ? ? ? ? ? ? ? ? Hp. apply process_pair_ok in Hp
      as (? & ? & ? & ? & ? & ? & ? & ? & -> & _). rewrite length_app. simpl. lia. }
  assert (Htrg : length (trg_datatable t)
                 = length (trg_datatable initial_tables)
                   + length speakers * length speakers * length basenames).
  { eapply (assemble_loops_count _ _ _ _ _ (fun t => length (trg_datatable t)));
      [|exact Hloops].
    intros ? ? ? ? ? ? ? ? ? Hp. apply process_pair_ok in Hp
      as (? & ? & ? & ? & ? & ? & ? & ? & _ & _ & -> & _). rewrite length_app. simpl. lia. }
  simpl in Hsrc, Htrg.
  exists speakers, basenames, (src_datatable t), (trg_datatable t).
  split; [exact Hsp|]. split; [exact Hbn|].
  unfold np_array in Ha, Hc.
  destruct (src_datatable t) as [|m0 ms] eqn:Es; [inversion Ha; subst; discriminate|].
  destruct (trg_datatable t) as [|m1 ms'] eqn:Et; [inversion Hc; subst; discriminate|].
  destruct (forallb _ ms); [|discriminate]. destruct (forallb _ ms'); [|discriminate].
  inversion Ha; inversion Hc; subst. auto.
Qed.

Lemma construct_datatable_pair_count_witness :
  exists src_blocks trg_blocks b d longest_seq speakers_max speakers_min w',
    seq2seq_construct_datatable demo_params demo_text "d/" "speakers.list"
      "seq2seq_basenames.list" empty_world
    = (Ok (Nd3 src_blocks, b, Nd3 trg_blocks, d, longest_seq, speakers_max,
           speakers_min), w') /\
    length src_blocks = 4 /\ length trg_blocks = 4.
Proof.
  pose (r := seq2seq_construct_datatable demo_params demo_text "d/" "speakers.list"
               "seq2seq_basenames.list" empty_world).
  let v := eval vm_compute in r in assert (E : r = v) by (vm_compute; reflexivity).
  unfold r in E. eexists _, _, _, _, _, _, _, _. split; [exact E|].
  destruct (construct_datatable_pair_count _ _ _ _ _ _ _ _ _ _ _ _ _ _ E)
    as (sps & bns & sb & tb & Hs & Hb & Ea & Ec & Hl1 & Hl2).
  vm_compute in Hs. vm_compute in Hb.
  inversion Hs; subst sps. inversion Hb; subst bns.
  inversion Ea; subst sb. inversion Ec; subst tb.
  split; [exact Hl1 | exact Hl2].
Defined.

(** ** When the pair builder returns *)

Lemma np_zeros_run (n : Z) (c : nat) :
  (0 <= n)%Z -> np_zeros n c = Ok (Matrix c (zero_rows (Z.to_nat n) c)).
Proof.
  intros Hn. unfold np_zeros. destruct (Z.ltb_spec n 0); [lia | reflexivity].
Qed.

Lemma np_concatenate_run (a b : matrix) :
  ncols a = ncols b -> np_concatenate a b = Ok (Matrix (ncols a) (rows a ++ rows b)).
Proof. intros E. unfold np_concatenate. rewrite E, Nat.eqb_refl. by rewrite <- E. Qed.

Lemma zero_pad_params_run (longest_seq : nat) (mode : pad_mode) (params : matrix) :
  nrows params <= longest_seq ->
  zero_pad_params longest_seq mode params = Ok (padded longest_seq mode params).
Proof.
  intros Hle. unfold zero_pad_params. rewrite np_zeros_run by lia.
  replace (Z.to_nat (Z.of_nat longest_seq - Z.of_nat (nrows params)))
    with (longest_seq - nrows params) by lia.
  destruct mode; unfold rbind, np_concatenate; simpl;
    rewrite Nat.eqb_refl; reflexivity.
Qed.

Lemma eos_flag_run (n c : nat) : 1 <= n -> exists e, eos_flag (n, c) = Ok e.
Proof.
  intros Hn. unfold eos_flag. destruct (Nat.eqb_spec n 0); [lia | by eexists].
Qed.

Lemma to_categorical_run (i n k : nat) :
  i < k -> exists m, to_categorical (repeat i n) k = Ok m.
Proof.
  intros Hi. unfold to_categorical.
  assert (Hall : forallb (fun j => j <? k) (repeat i n) = true).
  { apply forallb_forall. intros j Hj. apply repeat_spec in Hj. subst j.
    by apply Nat.ltb_lt. }
  rewrite Hall. by eexists.
Qed.

Lemma np_concatenate1_run (m0 : matrix) (ms : list matrix) (n : nat) :
  Forall (fun b => nrows b = n) (m0 :: ms) ->
  exists m, np_concatenate1 (m0 :: ms) = Ok m.
Proof.
  intros Hall. inversion Hall as [|? ? Hm0 Hms]; subst. unfold np_concatenate1.
  assert (Hb : forallb (fun x => nrows x =? nrows m0) ms = true).
  { apply forallb_forall. intros x Hx. apply Nat.eqb_eq.
    rewrite Forall_forall in Hms. apply Hms. by apply list_elem_of_In. }
  rewrite Hb. by eexists.
Qed.

(** X5: the pair builder returns its four arrays whenever both directory
    paths are not empty, the ten streams parse, each raw voicing stream has
    the shape of the raw F0 stream of its side and at least one frame, both
    speaker indices are below 10, and no stream has more than [longest_seq]
    frames. *)
Theorem build_file_table_returns
    (param_files : string -> option (list Q))
    (source_dir : string) (src_index : nat) (target_dir : string) (trg_index : nat)
    (basename : string) (longest_seq : nat) (w : world) (st : pair_streams) :
  source_dir <> EmptyString ->
  target_dir <> EmptyString ->
  parsed_streams param_files source_dir target_dir basename st ->
  shape (source_vf st) = shape (source_f0 st) ->
  shape (target_vf st) = shape (target_f0 st) ->
  1 <= nrows (source_vf st) ->
  1 <= nrows (target_vf st) ->
  src_index < 10 ->
  trg_index < 10 ->
  Forall (fun m => nrows m <= longest_seq)
    [source_mcp st; source_f0_i st; source_vf_i st; source_vf st;
     target_mcp st; target_f0_i st; target_vf_i st; target_vf st] ->
  exists out w',
    seq2seq_build_file_table param_files source_dir src_index target_dir
      trg_index basename longest_seq w = (Ok out, w').
Proof.
  intros Hs Ht Hst Hss Hts Hns Hnt Hsi Hti Hle.
  pose proof Hst as (P1 & P2 & P3 & P4 & P5 & P6 & P7 & P8 & P9 & P10).
  rewrite !Forall_cons in Hle.
  destruct Hle as (L1 & L2 & L3 & L4 & L5 & L6 & L7 & L8 & _).
  destruct (parse_file_ok _ _ _ _ P4) as [Hc4 Hw4].
  destruct (parse_file_ok _ _ _ _ P9) as [Hc9 Hw9].
  destruct (voiced_flags_total _ Hc4 Hw4) as [sv Hsv].
  destruct (voiced_flags_total _ Hc9 Hw9) as [tv Htv].
  destruct (eos_flag_run (nrows (source_vf st)) (ncols (source_vf st)) Hns) as [se Hse].
  destruct (eos_flag_run (nrows (target_vf st)) (ncols (target_vf st)) Hnt) as [te Hte].
  destruct (to_categorical_run src_index (nrows (source_vf st)) 10 Hsi) as [sc Hsc].
  destruct (to_categorical_run trg_index (nrows (target_vf st)) 10 Hti) as [tc Htc].
  destruct (voiced_flags_ok _ _ Hsv) as (_ & Nsv & _).
  destruct (voiced_flags_ok _ _ Htv) as (_ & Ntv & _).
  destruct (eos_flag_ok _ _ _ Hse) as (_ & _ & Nse & _).
  destruct (eos_flag_ok _ _ _ Hte) as (_ & _ & Nte & _).
  destruct (to_categorical_ok _ _ _ Hsc) as (_ & Nsc & _).
  destruct (to_categorical_ok _ _ _ Htc) as (_ & Ntc & _).
  rewrite repeat_length in Nsc, Ntc.
  unfold stream_path in *. unfold seq2seq_build_file_table.
  erewrite bind_run by (apply dir_check_nonempty; auto).
  erewrite bind_run by (apply dir_check_nonempty; auto).
  rewrite (bind_lift_ok _ _ _ _ P1), (bind_lift_ok _ _ _ _ P2),
    (bind_lift_ok _ _ _ _ P3), (bind_lift_ok _ _ _ _ P4),
    (bind_lift_ok _ _ _ _ P5), (bind_lift_ok _ _ _ _ P6),
    (bind_lift_ok _ _ _ _ P7), (bind_lift_ok _ _ _ _ P8),
    (bind_lift_ok _ _ _ _ P9), (bind_lift_ok _ _ _ _ P10).
  rewrite bind_assert_true by (by apply shape_eqb_eq).
  rewrite (bind_lift_ok _ _ _ _ Hsv).
  rewrite bind_assert_true by (by apply shape_eqb_eq).
  rewrite (bind_lift_ok _ _ _ _ Htv).
  rewrite (bind_lift_ok _ _ _ _ Hse), (bind_lift_ok _ _ _ _ Hte).
  rewrite (bind_lift_ok _ _ _ _ Hsc), (bind_lift_ok _ _ _ _ Htc).
  assert (Z1 : (0 <= Z.of_nat longest_seq - Z.of_nat (nrows (source_mcp st)))%Z) by lia.
  assert (Z2 : (0 <= Z.of_nat longest_seq - Z.of_nat (nrows (target_mcp st)))%Z) by lia.
  rewrite (bind_lift_ok _ _ _ _ (np_zeros_run _ 1 Z1)).
  erewrite bind_lift_ok by (apply np_concatenate_run; reflexivity).
  rewrite (bind_lift_ok _ _ _ _ (np_zeros_run _ 1 Z2)).
  erewrite bind_lift_ok by (apply np_concatenate_run; reflexivity).
  rewrite bind_assert_true.
  2:{ apply shape_eqb_eq. unfold shape, nrows, zero_rows. simpl.
      rewrite !length_app, !repeat_length. f_equal. unfold nrows in *. lia. }
  assert (L9 : nrows sv <= longest_seq) by lia.
  assert (L10 : nrows se <= longest_seq) by lia.
  assert (L11 : nrows sc <= longest_seq) by lia.
  assert (L12 : nrows tc <= longest_seq) by lia.
  assert (L13 : nrows tv <= longest_seq) by lia.
  assert (L14 : nrows te <= longest_seq) by lia.
  rewrite (bind_lift_ok _ _ _ _ (zero_pad_params_run _ src _ L1)),
    (bind_lift_ok _ _ _ _ (zero_pad_params_run _ src _ L2)),
    (bind_lift_ok _ _ _ _ (zero_pad_params_run _ src _ L3)),
    (bind_lift_ok _ _ _ _ (zero_pad_params_run _ src _ L9)),
    (bind_lift_ok _ _ _ _ (zero_pad_params_run _ src _ L10)),
    (bind_lift_ok _ _ _ _ (zero_pad_params_run _ src _ L11)),
    (bind_lift_ok _ _ _ _ (zero_pad_params_run _ src _ L12)).
  destruct (np_concatenate1_run
              (padded longest_seq src (source_mcp st))
              [padded longest_seq src (source_f0_i st);
               padded longest_seq src (source_vf_i st);
               padded longest_seq src sv; padded longest_seq src se;
               padded longest_seq src sc; padded longest_seq src tc]
              longest_seq) as [sp Hsp].
  { repeat constructor; unfold nrows at 1; cbn [padded rows];
      apply length_padded_rows; lia. }
  destruct (np_concatenate1_run
              (padded longest_seq trg (target_mcp st))
              [padded longest_seq trg (target_f0_i st);
               padded longest_seq trg (target_vf_i st);
               padded longest_seq trg tv; padded longest_seq trg te]
              longest_seq) as [tp Htp].
  { repeat constructor; unfold nrows at 1; cbn [padded rows];
      apply length_padded_rows; lia. }
  rewrite (bind_lift_ok _ _ _ _ Hsp).
  rewrite (bind_lift_ok _ _ _ _ (zero_pad_params_run _ trg _ L5)),
    (bind_lift_ok _ _ _ _ (zero_pad_params_run _ trg _ L6)),
    (bind_lift_ok _ _ _ _ (zero_pad_params_run _ trg _ L7)),
    (bind_lift_ok _ _ _ _ (zero_pad_params_run _ trg _ L13)),
    (bind_lift_ok _ _ _ _ (zero_pad_params_run _ trg _ L14)).
  rewrite (bind_lift_ok _ _ _ _ Htp).
  unfold ret. by eexists _, _.
Qed.

Lemma build_file_table_returns_witness :
  exists out w',
    seq2seq_build_file_table demo_params "d/vocoded_s2s/A/" 0 "d/vocoded_s2s/B/" 1
      "u" 2 empty_world = (Ok out, w').
Proof.
  apply (build_file_table_returns demo_params "d/vocoded_s2s/A/" 0
           "d/vocoded_s2s/B/" 1 "u" 2 empty_world
           (PairStreams
              (Matrix 40 [repeat (-1)%Q 40]) (Matrix 1 [[5%Q]]) (Matrix 1 [[5%Q]])
              (Matrix 1 [[0%Q]]) (Matrix 1 [[3%Q]])
              (Matrix 40 [repeat 2%Q 40; repeat 2%Q 40])
              (Matrix 1 [[4%Q]; [6%Q]]) (Matrix 1 [[4%Q]; [6%Q]])
              (Matrix 1 [[7%Q]; [0%Q]]) (Matrix 1 [[7%Q]; [7%Q]]))).
  - discriminate.
  - discriminate.
  - repeat split; vm_compute; reflexivity.
  - reflexivity.
  - reflexivity.
  - unfold nrows; simpl; lia.
  - unfold nrows; simpl; lia.
  - lia.
  - lia.
  - repeat constructor; unfold nrows; simpl; lia.
Defined.

(** ** List files *)



Lemma append_cons (c : Ascii.ascii) (a b : string) :
  String c a +:+ b = String c (a +:+ b).
Proof. reflexivity. Qed.











(** ** Effects *)

Lemma silent_ret {A} (a : A) : silent (ret a).
Proof. intros w r w' H. by inversion H. Qed.

Lemma silent_raise {A} (e : exn) : silent (@raise A e).
Proof. intros w r w' H. by inversion H. Qed.

Lemma silent_lift {A} (r : result A) : silent (lift r).
Proof. intros w r' w' H. by inversion H. Qed.

Lemma silent_assert (c : bool) : silent (assert_ c).
Proof. intros w r w' H. destruct c; by inversion H. Qed.

Lemma silent_bind {A B} (m : py A) (k : A -> py B) :
  silent m -> (forall a, silent (k a)) -> silent (bind m k).
Proof.
  intros Hm Hk w r w' H. unfold bind in H.
  destruct (m w) as [[a|e] w1] eqn:E; apply Hm in E; subst w1.
  - by eapply Hk.
  - by inversion H.
Qed.

Lemma silent_for_fold {A S} (l : list A) (body : S -> A -> py S) :
  (forall s x, silent (body s x)) -> forall s, silent (for_fold l s body).
Proof.
  intros Hbody. induction l as [|x l IH]; intros s; simpl.
  - apply silent_ret.
  - apply silent_bind; [apply Hbody | exact IH].
Qed.







Lemma silent_scan_loops param_files data_dir speakers basenames :
  silent (scan_loops param_files data_dir speakers basenames).
Proof.
  unfold scan_loops. apply silent_for_fold. intros l sp.
  apply silent_for_fold. intros l' bn. unfold scan_step.
  apply silent_bind; [apply silent_lift|]. intros m.
  destruct (l' <? nrows m); apply silent_ret.
Qed.

(** The world the scanner leaves, whatever its outcome. *)
Lemma find_longest_sequence_world param_files data_dir speakers_list basenames_list
    w r w' :
  find_longest_sequence param_files data_dir speakers_list basenames_list w
  = (r, w') ->
  w' = warned data_dir
         "Please, make sure the data directory string ends with a '/'" w.
Proof.
  rewrite find_longest_sequence_unfold. unfold bind at 1, warned.
  destruct (decide (data_dir = EmptyString)) as [-> | Hd].
  - rewrite dir_check_empty by auto. intros H. by inversion H.
  - rewrite dir_check_nonempty by auto. intros H.
    apply silent_scan_loops in H. subst w'.
    apply String.eqb_neq in Hd. rewrite Hd, orb_false_r. reflexivity.
Qed.

(** X7: whatever its outcome, the scanner's only effect on the world is its
    warning: one line on standard output when the data root is not empty and
    does not end in ['/'], and nothing otherwise; no container is touched and
    nothing is printed per file. *)
Theorem find_longest_sequence_effects
    (param_files : string -> option (list Q)) (data_dir : string)
    (speakers_list basenames_list : list string) (w w' : world) (r : result nat) :
  find_longest_sequence param_files data_dir speakers_list basenames_list w
  = (r, w') ->
  w' = warned data_dir
         "Please, make sure the data directory string ends with a '/'" w /\
  h5_store w' = h5_store w.
Proof.
  intros H. apply find_longest_sequence_world in H. subst w'.
  split; [reflexivity|]. unfold warned. by destruct (_ || _).
Qed.

Lemma find_longest_sequence_effects_witness :
  snd (find_longest_sequence demo_params "d" ["A"] ["u"] empty_world)
  = World ["Please, make sure the data directory string ends with a '/'"] ∅.
Proof.
  apply (find_longest_sequence_effects demo_params "d" ["A"] ["u"] empty_world _
           (fst (find_longest_sequence demo_params "d" ["A"] ["u"] empty_world))).
  by destruct (find_longest_sequence demo_params "d" ["A"] ["u"] empty_world).
Defined.

(** ** The pair builder: effects and failures *)

Lemma warned_nonempty (dir msg : string) (w : world) :
  dir <> EmptyString ->
  warned dir msg w
  = if ends_with_slash dir then w else World (stdout w ++ [msg]) (h5_store w).
Proof.
  intros Hd. unfold warned. apply String.eqb_neq in Hd.
  by rewrite Hd, orb_false_r.
Qed.

Lemma warned_store (dir msg : string) (w : world) :
  h5_store (warned dir msg w) = h5_store w.
Proof. unfold warned. by destruct (_ || _). Qed.

Ltac silent_tac :=
  repeat first
    [ apply silent_ret | apply silent_raise | apply silent_lift
    | apply silent_assert | apply silent_bind; [|intros ?] ].

(** Everything the pair builder does after its two path checks. *)
Lemma build_file_table_world param_files source_dir src_index target_dir trg_index
    basename longest_seq w r w' :
  seq2seq_build_file_table param_files source_dir src_index target_dir trg_index
    basename longest_seq w = (r, w') ->
  w' = if String.eqb source_dir ""
       then w
       else warned target_dir
              "Please make sure the target data directory string ends with a '/'"
              (warned source_dir
                 "Please make sure the source data directory string ends with a '/'"
                 w).
Proof.
  unfold seq2seq_build_file_table.
  destruct (decide (source_dir = EmptyString)) as [-> | Hs].
  { erewrite bind_raise by (apply dir_check_empty; auto).
    intros H. by inversion H. }
  erewrite bind_run by (apply dir_check_nonempty; auto).
  rewrite <- (warned_nonempty source_dir _ w Hs).
  pose proof Hs as Hs'. apply String.eqb_neq in Hs'. rewrite Hs'.
  set (w1 := warned source_dir _ w).
  destruct (decide (target_dir = EmptyString)) as [-> | Ht].
  { erewrite bind_raise by (apply dir_check_empty; auto).
    intros H. by inversion H. }
  erewrite bind_run by (apply dir_check_nonempty; auto).
  rewrite <- (warned_nonempty target_dir _ w1 Ht).
  set (w2 := warned target_dir _ w1). intros H.
  match type of H with
  | ?m ?w0 = _ => assert (Hm : silent m) by silent_tac; by apply Hm in H
  end.
Qed.

(** X8: whatever its outcome, the pair builder's only effect on the world is
    the warnings of its two path checks, source first: nothing at all when
    the source path is empty, and otherwise one line for each path that is
    not empty and does not end in ['/'].  No container is touched. *)
Theorem build_file_table_effects
    (param_files : string -> option (list Q))
    (source_dir : string) (src_index : nat) (target_dir : string) (trg_index : nat)
    (basename : string) (longest_seq : nat) (w w' : world)
    (r : result (matrix * matrix * matrix * matrix)) :
  seq2seq_build_file_table param_files source_dir src_index target_dir trg_index
    basename longest_seq w = (r, w') ->
  w' = (if String.eqb source_dir ""
        then w
        else warned target_dir
               "Please make sure the target data directory string ends with a '/'"
               (warned source_dir
                  "Please make sure the source data directory string ends with a '/'"
                  w)) /\
  h5_store w' = h5_store w.
Proof.
  intros H. apply build_file_table_world in H. split; [exact H|].
  subst w'. destruct (String.eqb source_dir ""); [reflexivity|].
  by rewrite !warned_store.
Qed.

Lemma build_file_table_effects_witness :
  snd (seq2seq_build_file_table demo_params "d/vocoded_s2s/A" 0 "d/vocoded_s2s/B/" 1
         "u" 2 empty_world)
  = World ["Please make sure the source data directory string ends with a '/'"] ∅.
Proof.
  pose (run := seq2seq_build_file_table demo_params "d/vocoded_s2s/A" 0
                 "d/vocoded_s2s/B/" 1 "u" 2 empty_world).
  destruct (build_file_table_effects demo_params "d/vocoded_s2s/A" 0
              "d/vocoded_s2s/B/" 1 "u" 2 empty_world (snd run) (fst run)) as [E _].
  - unfold run. by destruct (seq2seq_build_file_table _ _ _ _ _ _ _ _).
  - exact E.
Defined.

Lemma bind_lift_raise {A B} (r : result A) (k : A -> py B) (e : exn) (w : world) :
  r = Raise e -> bind (lift r) k w = (Raise e, w).
Proof. intros ->. reflexivity. Qed.

Lemma to_categorical_raise (i n k : nat) :
  k <= i -> 1 <= n -> to_categorical (repeat i n) k = Raise IndexError.
Proof.
  intros Hk Hn. unfold to_categorical. destruct n as [|n]; [lia|]. simpl.
  destruct (i <? k) eqn:E; [apply Nat.ltb_lt in E; lia | reflexivity].
Qed.

Lemma np_zeros_raise (n : Z) (c : nat) : (n < 0)%Z -> np_zeros n c = Raise ValueError.
Proof. intros Hn. unfold np_zeros. apply Z.ltb_lt in Hn. by rewrite Hn. Qed.

(** X9: with both paths not empty, the ten streams parsed and the shape
    assertions passing, the pair builder raises [IndexError] when a raw
    voicing stream has no frame (there is no last row to flag) or, failing
    that, when a speaker index is 10 or more (the one-hot code has ten
    places). *)
Theorem build_file_table_index_error
    (param_files : string -> option (list Q))
    (source_dir : string) (src_index : nat) (target_dir : string) (trg_index : nat)
    (basename : string) (longest_seq : nat) (w : world) (st : pair_streams) :
  source_dir <> EmptyString ->
  target_dir <> EmptyString ->
  parsed_streams param_files source_dir target_dir basename st ->
  shape (source_vf st) = shape (source_f0 st) ->
  shape (target_vf st) = shape (target_f0 st) ->
  nrows (source_vf st) = 0 \/ nrows (target_vf st) = 0 \/
  10 <= src_index \/ 10 <= trg_index ->
  fst (seq2seq_build_file_table param_files source_dir src_index target_dir
         trg_index basename longest_seq w) = Raise IndexError.
Proof.
  intros Hs Ht Hst Hss Hts Hcase.
  pose proof Hst as (P1 & P2 & P3 & P4 & P5 & P6 & P7 & P8 & P9 & P10).
  destruct (parse_file_ok _ _ _ _ P4) as [Hc4 Hw4].
  destruct (parse_file_ok _ _ _ _ P9) as [Hc9 Hw9].
  destruct (voiced_flags_total _ Hc4 Hw4) as [sv Hsv].
  destruct (voiced_flags_total _ Hc9 Hw9) as [tv Htv].
  unfold stream_path in *. unfold seq2seq_build_file_table.
  erewrite bind_run by (apply dir_check_nonempty; auto).
  erewrite bind_run by (apply dir_check_nonempty; auto).
  rewrite (bind_lift_ok _ _ _ _ P1), (bind_lift_ok _ _ _ _ P2),
    (bind_lift_ok _ _ _ _ P3), (bind_lift_ok _ _ _ _ P4),
    (bind_lift_ok _ _ _ _ P5), (bind_lift_ok _ _ _ _ P6),
    (bind_lift_ok _ _ _ _ P7), (bind_lift_ok _ _ _ _ P8),
    (bind_lift_ok _ _ _ _ P9), (bind_lift_ok _ _ _ _ P10).
  rewrite bind_assert_true by (by apply shape_eqb_eq).
  rewrite (bind_lift_ok _ _ _ _ Hsv).
  rewrite bind_assert_true by (by apply shape_eqb_eq).
  rewrite (bind_lift_ok _ _ _ _ Htv).
  destruct (decide (nrows (source_vf st) = 0)) as [S0 | S1].
  { rewrite (bind_lift_raise _ _ IndexError); [reflexivity|].
    unfold shape. by rewrite S0. }
  destruct (eos_flag_run (nrows (source_vf st)) (ncols (source_vf st))) as [se Hse];
    [lia|].
  rewrite (bind_lift_ok _ _ _ _ Hse).
  destruct (decide (nrows (target_vf st) = 0)) as [T0 | T1].
  { rewrite (bind_lift_raise _ _ IndexError); [reflexivity|].
    unfold shape. by rewrite T0. }
  destruct (eos_flag_run (nrows (target_vf st)) (ncols (target_vf st))) as [te Hte];
    [lia|].
  rewrite (bind_lift_ok _ _ _ _ Hte).
  destruct (le_lt_dec 10 src_index) as [S10 | S10].
  { rewrite (bind_lift_raise _ _ IndexError); [reflexivity|].
    apply to_categorical_raise; lia. }
  destruct (to_categorical_run src_index (nrows (source_vf st)) 10 S10) as [sc Hsc].
  rewrite (bind_lift_ok _ _ _ _ Hsc).
  rewrite (bind_lift_raise _ _ IndexError); [reflexivity|].
  apply to_categorical_raise; lia.
Qed.

Lemma build_file_table_index_error_witness :
  fst (seq2seq_build_file_table demo_params "d/vocoded_s2s/A/" 0 "d/vocoded_s2s/B/" 10
         "u" 2 empty_world) = Raise IndexError.
Proof.
  apply (build_file_table_index_error demo_params "d/vocoded_s2s/A/" 0
           "d/vocoded_s2s/B/" 10 "u" 2 empty_world
           (PairStreams
              (Matrix 40 [repeat (-1)%Q 40]) (Matrix 1 [[5%Q]]) (Matrix 1 [[5%Q]])
              (Matrix 1 [[0%Q]]) (Matrix 1 [[3%Q]])
              (Matrix 40 [repeat 2%Q 40; repeat 2%Q 40])
              (Matrix 1 [[4%Q]; [6%Q]]) (Matrix 1 [[4%Q]; [6%Q]])
              (Matrix 1 [[7%Q]; [0%Q]]) (Matrix 1 [[7%Q]; [7%Q]]))).
  - discriminate.
  - discriminate.
  - repeat split; vm_compute; reflexivity.
  - reflexivity.
  - reflexivity.
  - right. right. right. lia.
Defined.

(** X10: nothing is ever truncated.  With both paths not empty, the ten
    streams parsed, the shape assertions passing, no raw voicing stream
    empty and both speaker indices below 10, the pair builder raises
    [ValueError] when the spectral stream of either side has more than
    [longest_seq] frames: its mask would need a negative number of zero
    rows. *)
Theorem build_file_table_too_long
    (param_files : string -> option (list Q))
    (source_dir : string) (src_index : nat) (target_dir : string) (trg_index : nat)
    (basename : string) (longest_seq : nat) (w : world) (st : pair_streams) :
  source_dir <> EmptyString ->
  target_dir <> EmptyString ->
  parsed_streams param_files source_dir target_dir basename st ->
  shape (source_vf st) = shape (source_f0 st) ->
  shape (target_vf st) = shape (target_f0 st) ->
  1 <= nrows (source_vf st) ->
  1 <= nrows (target_vf st) ->
  src_index < 10 ->
  trg_index < 10 ->
  longest_seq < nrows (source_mcp st) \/ longest_seq < nrows (target_mcp st) ->
  fst (seq2seq_build_file_table param_files source_dir src_index target_dir
         trg_index basename longest_seq w) = Raise ValueError.
Proof.
  intros Hs Ht Hst Hss Hts Hns Hnt Hsi Hti Hlong.
  pose proof Hst as (P1 & P2 & P3 & P4 & P5 & P6 & P7 & P8 & P9 & P10).
  destruct (parse_file_ok _ _ _ _ P4) as [Hc4 Hw4].
  destruct (parse_file_ok _ _ _ _ P9) as [Hc9 Hw9].
  destruct (voiced_flags_total _ Hc4 Hw4) as [sv Hsv].
  destruct (voiced_flags_total _ Hc9 Hw9) as [tv Htv].
  destruct (eos_flag_run (nrows (source_vf st)) (ncols (source_vf st)) Hns) as [se Hse].
  destruct (eos_flag_run (nrows (target_vf st)) (ncols (target_vf st)) Hnt) as [te Hte].
  destruct (to_categorical_run src_index (nrows (source_vf st)) 10 Hsi) as [sc Hsc].
  destruct (to_categorical_run trg_index (nrows (target_vf st)) 10 Hti) as [tc Htc].
  unfold stream_path in *. unfold seq2seq_build_file_table.
  erewrite bind_run by (apply dir_check_nonempty; auto).
  erewrite bind_run by (apply dir_check_nonempty; auto).
  rewrite (bind_lift_ok _ _ _ _ P1), (bind_lift_ok _ _ _ _ P2),
    (bind_lift_ok _ _ _ _ P3), (bind_lift_ok _ _ _ _ P4),
    (bind_lift_ok _ _ _ _ P5), (bind_lift_ok _ _ _ _ P6),
    (bind_lift_ok _ _ _ _ P7), (bind_lift_ok _ _ _ _ P8),
    (bind_lift_ok _ _ _ _ P9), (bind_lift_ok _ _ _ _ P10).
  rewrite bind_assert_true by (by apply shape_eqb_eq).
  rewrite (bind_lift_ok _ _ _ _ Hsv).
  rewrite bind_assert_true by (by apply shape_eqb_eq).
  rewrite (bind_lift_ok _ _ _ _ Htv).
  rewrite (bind_lift_ok _ _ _ _ Hse), (bind_lift_ok _ _ _ _ Hte).
  rewrite (bind_lift_ok _ _ _ _ Hsc), (bind_lift_ok _ _ _ _ Htc).
  destruct (le_lt_dec (nrows (source_mcp st)) longest_seq) as [L1 | G1].
  2:{ rewrite (bind_lift_raise _ _ ValueError); [reflexivity|].
      apply np_zeros_raise. lia. }
  assert (Z1 : (0 <= Z.of_nat longest_seq - Z.of_nat (nrows (source_mcp st)))%Z) by lia.
  rewrite (bind_lift_ok _ _ _ _ (np_zeros_run _ 1 Z1)).
  erewrite bind_lift_ok by (apply np_concatenate_run; reflexivity).
  rewrite (bind_lift_raise _ _ ValueError); [reflexivity|].
  apply np_zeros_raise. lia.
Qed.

Lemma build_file_table_too_long_witness :
  fst (seq2seq_build_file_table demo_params "d/vocoded_s2s/A/" 0 "d/vocoded_s2s/B/" 1
         "u" 1 empty_world) = Raise ValueError.
Proof.
  apply (build_file_table_too_long demo_params "d/vocoded_s2s/A/" 0
           "d/vocoded_s2s/B/" 1 "u" 1 empty_world
           (PairStreams
              (Matrix 40 [repeat (-1)%Q 40]) (Matrix 1 [[5%Q]]) (Matrix 1 [[5%Q]])
              (Matrix 1 [[0%Q]]) (Matrix 1 [[3%Q]])
              (Matrix 40 [repeat 2%Q 40; repeat 2%Q 40])
              (Matrix 1 [[4%Q]; [6%Q]]) (Matrix 1 [[4%Q]; [6%Q]])
              (Matrix 1 [[7%Q]; [0%Q]]) (Matrix 1 [[7%Q]; [7%Q]]))).
  - discriminate.
  - discriminate.
  - repeat split; vm_compute; reflexivity.
  - reflexivity.
  - reflexivity.
  - unfold nrows; simpl; lia.
  - unfold nrows; simpl; lia.
  - lia.
  - lia.
  - right. unfold nrows; simpl; lia.
Defined.

(** ** The pair builder: what each column holds *)

Ltac eval_lhs_opt H :=
  match type of H with
  | ?lhs = Some _ =>
      let v := eval vm_compute in lhs in
      replace lhs with v in H by (vm_compute; reflexivity);
      injection H as H
  end.

(** Evaluate the left-hand side of an equation between results. *)
Ltac eval_lhs H :=
  match type of H with
  | ?lhs = Ok _ =>
      let v := eval vm_compute in lhs in
      replace lhs with v in H by (vm_compute; reflexivity);
      injection H as H
  end.

Lemma column_padded_src (longest_seq c : nat) (params : matrix) :
  column c (padded longest_seq src params)
  = repeat 0%Q (longest_seq - nrows params) ++ column c params.
Proof.
  unfold column, padded, padded_rows, zero_rows. cbn [rows].
  rewrite fmap_app, map_repeat. f_equal. f_equal. apply nth_repeat.
Qed.

Lemma column_padded_trg (longest_seq c : nat) (params : matrix) :
  column c (padded longest_seq trg params)
  = column c params ++ repeat 0%Q (longest_seq - nrows params).
Proof.
  unfold column, padded, padded_rows, zero_rows. cbn [rows].
  rewrite fmap_app, map_repeat. f_equal. f_equal. apply nth_repeat.
Qed.

Lemma to_categorical_repeat_ok (i n k : nat) (m : matrix) :
  to_categorical (repeat i n) k = Ok m -> 1 <= n ->
  i < k /\ rows m = repeat (<[i := 1%Q]> (repeat 0%Q k)) n.
Proof.
  unfold to_categorical. intros H Hn.
  destruct (forallb _ _) eqn:E; [|discriminate]. inversion H; subst m; clear H.
  split.
  - destruct n as [|n]; [lia|]. simpl in E. apply andb_true_iff in E as [E _].
    by apply Nat.ltb_lt in E.
  - cbn [rows]. apply (map_repeat (fun k0 => <[k0 := 1%Q]> (repeat 0%Q k))).
Qed.

Lemma nth_one_hot (i c k : nat) :
  i < k ->
  nth c (<[i := 1%Q]> (repeat 0%Q k)) 0%Q = if decide (c = i) then 1%Q else 0%Q.
Proof.
  intros Hi. rewrite nth_lookup. destruct (decide (c = i)) as [-> | Hne].
  - rewrite list_lookup_insert_eq by (rewrite repeat_length; lia). reflexivity.
  - rewrite list_lookup_insert_ne by congruence.
    destruct (decide (c < k)) as [Hc | Hc].
    + rewrite lookup_repeat by exact Hc. reflexivity.
    + rewrite lookup_ge_None_2 by (rewrite repeat_length; lia). reflexivity.
Qed.

Lemma column_one_hot (i n k c : nat) (m : matrix) :
  to_categorical (repeat i n) k = Ok m -> 1 <= n ->
  column c m = repeat (if decide (c = i) then 1%Q else 0%Q) n.
Proof.
  intros H Hn. apply to_categorical_repeat_ok in H as [Hi Hrows]; [|exact Hn].
  unfold column. rewrite Hrows, map_repeat. f_equal. by apply nth_one_hot.
Qed.

(** X11: the parameter streams pass into the feature matrices unchanged.
    Columns 0 to 39 of the source matrix are the columns of the source
    spectral stream, column 40 the interpolated log-F0 stream and column 41
    the interpolated voicing stream, each below as many zeros as the stream
    is short of [longest_seq] frames; on the target side the same streams of
    the target speaker come first and the zeros after them. *)
Theorem build_file_table_data_columns
    (param_files : string -> option (list Q))
    (source_dir : string) (src_index : nat) (target_dir : string) (trg_index : nat)
    (basename : string) (longest_seq : nat) (w w' : world)
    (sp sm tp tm : matrix) :
  seq2seq_build_file_table param_files source_dir src_index target_dir trg_index
    basename longest_seq w = (Ok (sp, sm, tp, tm), w') ->
  exists st,
    parsed_streams param_files source_dir target_dir basename st /\
    (forall c, c < 40 ->
       column c sp = repeat 0%Q (longest_seq - nrows (source_mcp st)) ++
                     column c (source_mcp st)) /\
    column 40 sp = repeat 0%Q (longest_seq - nrows (source_f0_i st)) ++
                   column 0 (source_f0_i st) /\
    column 41 sp = repeat 0%Q (longest_seq - nrows (source_vf_i st)) ++
                   column 0 (source_vf_i st) /\
    (forall c, c < 40 ->
       column c tp = column c (target_mcp st) ++
                     repeat 0%Q (longest_seq - nrows (target_mcp st))) /\
    column 40 tp = column 0 (target_f0_i st) ++
                   repeat 0%Q (longest_seq - nrows (target_f0_i st)) /\
    column 41 tp = column 0 (target_vf_i st) ++
                   repeat 0%Q (longest_seq - nrows (target_vf_i st)).
Proof.
  intros Hrun.
  apply build_file_table_ok in Hrun
    as (st & fl & Hst & _ & _ & Hfl & _ & _ & Hle & _ & _ & Hsp & Htp & _).
  destruct (source_blocks_shapes longest_seq _ _ _ _ _ _ _ _ Hst Hfl Hle) as [Hsrc Htrg].
  destruct (pair_shapes _ _ _ _ _ _ _ _ Hst Hfl) as (Hcols & _ & _).
  destruct Hcols as (C1 & C2 & C3 & C4 & C5 & C6 & C7 & C8 & C9 & C10 & C11 & C12 & C13 & C14).
  exists st. split; [exact Hst|].
  split; [|split; [|split; [|split; [|split]]]].
  - intros c Hc. rewrite <- column_padded_src.
    apply (feature_column (source_blocks longest_seq st fl) sp longest_seq 0 c
             (padded longest_seq src (source_mcp st)) Hsrc Hsp); [reflexivity|].
    cbn [padded ncols]. lia.
  - rewrite <- column_padded_src.
    pose proof (feature_column (source_blocks longest_seq st fl) sp longest_seq 1 0
                  (padded longest_seq src (source_f0_i st)) Hsrc Hsp) as Hcol.
    simpl in Hcol. rewrite C1 in Hcol. simpl in Hcol.
    apply Hcol; [reflexivity | lia].
  - rewrite <- column_padded_src.
    pose proof (feature_column (source_blocks longest_seq st fl) sp longest_seq 2 0
                  (padded longest_seq src (source_vf_i st)) Hsrc Hsp) as Hcol.
    simpl in Hcol. rewrite C1, C2 in Hcol. simpl in Hcol.
    apply Hcol; [reflexivity | lia].
  - intros c Hc. rewrite <- column_padded_trg.
    apply (feature_column (target_blocks longest_seq st fl) tp longest_seq 0 c
             (padded longest_seq trg (target_mcp st)) Htrg Htp); [reflexivity|].
    cbn [padded ncols]. lia.
  - rewrite <- column_padded_trg.
    pose proof (feature_column (target_blocks longest_seq st fl) tp longest_seq 1 0
                  (padded longest_seq trg (target_f0_i st)) Htrg Htp) as Hcol.
    simpl in Hcol. rewrite C9 in Hcol. simpl in Hcol.
    apply Hcol; [reflexivity | lia].
  - rewrite <- column_padded_trg.
    pose proof (feature_column (target_blocks longest_seq st fl) tp longest_seq 2 0
                  (padded longest_seq trg (target_vf_i st)) Htrg Htp) as Hcol.
    simpl in Hcol. rewrite C9, C10 in Hcol. simpl in Hcol.
    apply Hcol; [reflexivity | lia].
Qed.

Lemma build_file_table_data_columns_witness :
  exists sp sm tp tm w',
    seq2seq_build_file_table demo_params "d/vocoded_s2s/A/" 0 "d/vocoded_s2s/B/" 1
      "u" 2 empty_world = (Ok (sp, sm, tp, tm), w') /\
    column 0 sp = [0%Q; (-1)%Q] /\ column 40 sp = [0%Q; 5%Q] /\
    column 41 tp = [7%Q; 7%Q].
Proof.
  pose (r := seq2seq_build_file_table demo_params "d/vocoded_s2s/A/" 0
               "d/vocoded_s2s/B/" 1 "u" 2 empty_world).
  let v := eval vm_compute in r in assert (E : r = v) by (vm_compute; reflexivity).
  unfold r in E.
  match type of E with
  | _ = (Ok (?sp, ?sm, ?tp, ?tm), ?w') => exists sp, sm, tp, tm, w'
  end.
  split; [exact E|].
  destruct (build_file_table_data_columns _ _ _ _ _ _ _ _ _ _ _ _ _ E)
    as (st & Hst & Hmcp & Hf0 & _ & _ & _ & Hvf).
  destruct Hst as (P1 & _ & P3 & _ & _ & _ & _ & _ & _ & P10).
  eval_lhs P1. eval_lhs P3. eval_lhs P10.
  split; [|split].
  - rewrite (Hmcp 0) by lia. rewrite <- P1. reflexivity.
  - rewrite Hf0, <- P3. reflexivity.
  - rewrite Hvf, <- P10. reflexivity.
Defined.

(** The speaker codes of the source matrix. *)
Lemma build_file_table_code
    (param_files : string -> option (list Q))
    (source_dir : string) (src_index : nat) (target_dir : string) (trg_index : nat)
    (basename : string) (longest_seq : nat) (w w' : world)
    (sp sm tp tm : matrix) :
  seq2seq_build_file_table param_files source_dir src_index target_dir trg_index
    basename longest_seq w = (Ok (sp, sm, tp, tm), w') ->
  exists svf tvf,
    parse_file param_files 1 (stream_path source_dir basename "vf" ".dat") = Ok svf /\
    parse_file param_files 1 (stream_path target_dir basename "vf" ".dat") = Ok tvf /\
    1 <= nrows svf <= longest_seq /\
    1 <= nrows tvf <= longest_seq /\
    src_index < 10 /\ trg_index < 10 /\
    forall c, c < 10 ->
      column (44 + c) sp
      = repeat 0%Q (longest_seq - nrows svf) ++
        repeat (if decide (c = src_index) then 1%Q else 0%Q) (nrows svf) /\
      column (54 + c) sp
      = repeat 0%Q (longest_seq - nrows tvf) ++
        repeat (if decide (c = trg_index) then 1%Q else 0%Q) (nrows tvf).
Proof.
  intros Hrun.
  apply build_file_table_ok in Hrun
    as (st & fl & Hst & _ & _ & Hfl & _ & _ & Hle & _ & _ & Hsp & Htp & _).
  destruct (source_blocks_shapes longest_seq _ _ _ _ _ _ _ _ Hst Hfl Hle) as [Hsrc Htrg].
  destruct (pair_shapes _ _ _ _ _ _ _ _ Hst Hfl) as (Hcols & Hn & _).
  destruct Hcols as (C1 & C2 & C3 & C4 & C5 & C6 & C7 & C8 & C9 & C10 & C11 & C12 & C13 & C14).
  destruct Hn as (N1 & N2 & N3 & N4 & N5 & N6).
  rewrite !Forall_cons in Hle.
  destruct Hle as (L1 & L2 & L3 & L4 & L5 & L6 & L7 & L8 & L9 & L10 & L11 & L12 & _).
  pose proof Hst as (_ & _ & _ & P4 & _ & _ & _ & _ & P9 & _).
  destruct Hfl as (_ & _ & _ & _ & F5 & F6).
  destruct (to_categorical_ok _ _ _ F5) as (_ & R5 & _).
  destruct (to_categorical_ok _ _ _ F6) as (_ & R6 & _).
  rewrite repeat_length in R5, R6.
  destruct (to_categorical_repeat_ok _ _ _ _ F5 N5) as [I5 _].
  destruct (to_categorical_repeat_ok _ _ _ _ F6 N6) as [I6 _].
  exists (source_vf st), (target_vf st).
  split; [exact P4|]. split; [exact P9|].
  split; [lia|]. split; [lia|]. split; [exact I5|]. split; [exact I6|].
  intros c Hc. split.
  - rewrite <- (column_one_hot _ _ _ c _ F5 N5), <- R5, <- column_padded_src.
    pose proof (feature_column (source_blocks longest_seq st fl) sp longest_seq 5 c
                  (padded longest_seq src (src_spk_index fl)) Hsrc Hsp) as Hcol.
    simpl in Hcol. rewrite C1, C2, C4, C5, C6 in Hcol. simpl in Hcol.
    apply Hcol; [reflexivity | cbn [padded ncols]; lia].
  - rewrite <- (column_one_hot _ _ _ c _ F6 N6), <- R6, <- column_padded_src.
    pose proof (feature_column (source_blocks longest_seq st fl) sp longest_seq 6 c
                  (padded longest_seq src (trg_spk_index fl)) Hsrc Hsp) as Hcol.
    simpl in Hcol. rewrite C1, C2, C4, C5, C6, C7 in Hcol. simpl in Hcol.
    apply Hcol; [reflexivity | cbn [padded ncols]; lia].
Qed.

(** X12: the speaker codes.  Both indices are below 10, and for [c < 10]
    column [44 + c] of the source matrix is the indicator of
    [c = src_index] and column [54 + c] that of [c = trg_index], each
    repeated over as many rows as the raw voicing stream of its own speaker
    has frames, below the zero rows of the padding. *)
Theorem build_file_table_speaker_code
    (param_files : string -> option (list Q))
    (source_dir : string) (src_index : nat) (target_dir : string) (trg_index : nat)
    (basename : string) (longest_seq : nat) (w w' : world)
    (sp sm tp tm : matrix) :
  seq2seq_build_file_table param_files source_dir src_index target_dir trg_index
    basename longest_seq w = (Ok (sp, sm, tp, tm), w') ->
  exists svf tvf,
    parse_file param_files 1 (stream_path source_dir basename "vf" ".dat") = Ok svf /\
    parse_file param_files 1 (stream_path target_dir basename "vf" ".dat") = Ok tvf /\
    1 <= nrows svf <= longest_seq /\
    1 <= nrows tvf <= longest_seq /\
    src_index < 10 /\ trg_index < 10 /\
    forall c, c < 10 ->
      column (44 + c) sp
      = repeat 0%Q (longest_seq - nrows svf) ++
        repeat (if decide (c = src_index) then 1%Q else 0%Q) (nrows svf) /\
      column (54 + c) sp
      = repeat 0%Q (longest_seq - nrows tvf) ++
        repeat (if decide (c = trg_index) then 1%Q else 0%Q) (nrows tvf).
Proof. apply build_file_table_code. Qed.

Lemma build_file_table_speaker_code_witness :
  exists sp sm tp tm w',
    seq2seq_build_file_table demo_params "d/vocoded_s2s/A/" 0 "d/vocoded_s2s/B/" 1
      "u" 2 empty_world = (Ok (sp, sm, tp, tm), w') /\
    column 44 sp = [0%Q; 1%Q] /\ column 55 sp = [1%Q; 1%Q].
Proof.
  pose (r := seq2seq_build_file_table demo_params "d/vocoded_s2s/A/" 0
               "d/vocoded_s2s/B/" 1 "u" 2 empty_world).
  let v := eval vm_compute in r in assert (E : r = v) by (vm_compute; reflexivity).
  unfold r in E.
  match type of E with
  | _ = (Ok (?sp, ?sm, ?tp, ?tm), ?w') => exists sp, sm, tp, tm, w'
  end.
  split; [exact E|].
  destruct (build_file_table_speaker_code _ _ _ _ _ _ _ _ _ _ _ _ _ E)
    as (svf & tvf & P4 & P9 & _ & _ & _ & _ & Hcode).
  eval_lhs P4. eval_lhs P9.
  destruct (Hcode 0) as [H0 _]; [lia|]. destruct (Hcode 1) as [_ H1]; [lia|].
  split.
  - rewrite (H0 : column 44 _ = _), <- P4. reflexivity.
  - rewrite (H1 : column 55 _ = _), <- P9. reflexivity.
Defined.

(** ** The pair builder: what the raw log-F0 streams are used for *)

Lemma parse_file_agree (pf1 pf2 : string -> option (list Q)) (param_len : nat)
    (path : string) (m1 m2 : matrix) :
  pf1 path = pf2 path ->
  parse_file pf1 param_len path = Ok m1 ->
  parse_file pf2 param_len path = Ok m2 ->
  m1 = m2.
Proof. unfold parse_file. intros ->. congruence. Qed.

(** X13: the values of the raw log-F0 streams never reach the output.  Two
    runs of the pair builder over file systems that agree on the other eight
    streams of the pair return the same four arrays, if both return: the raw
    log-F0 streams only take part in the shape assertions. *)
Theorem build_file_table_ignores_raw_f0
    (pf1 pf2 : string -> option (list Q))
    (source_dir : string) (src_index : nat) (target_dir : string) (trg_index : nat)
    (basename : string) (longest_seq : nat) (w1 w2 w1' w2' : world)
    (out1 out2 : matrix * matrix * matrix * matrix) :
  Forall (fun path => pf1 path = pf2 path)
    [stream_path source_dir basename "mcp" ".dat";
     stream_path source_dir basename "lf0" ".i.dat";
     stream_path source_dir basename "vf" ".dat";
     stream_path source_dir basename "vf" ".i.dat";
     stream_path target_dir basename "mcp" ".dat";
     stream_path target_dir basename "lf0" ".i.dat";
     stream_path target_dir basename "vf" ".dat";
     stream_path target_dir basename "vf" ".i.dat"] ->
  seq2seq_build_file_table pf1 source_dir src_index target_dir trg_index
    basename longest_seq w1 = (Ok out1, w1') ->
  seq2seq_build_file_table pf2 source_dir src_index target_dir trg_index
    basename longest_seq w2 = (Ok out2, w2') ->
  out1 = out2.
Proof.
  intros Hagree H1 H2.
  destruct out1 as [[[sp1 sm1] tp1] tm1]. destruct out2 as [[[sp2 sm2] tp2] tm2].
  apply build_file_table_ok in H1
    as (st1 & fl1 & Hst1 & _ & _ & Hfl1 & _ & _ & _ & Hsm1 & Htm1 & Hsp1 & Htp1 & _).
  apply build_file_table_ok in H2
    as (st2 & fl2 & Hst2 & _ & _ & Hfl2 & _ & _ & _ & Hsm2 & Htm2 & Hsp2 & Htp2 & _).
  rewrite !Forall_cons in Hagree.
  destruct Hagree as (A1 & A3 & A4 & A5 & A6 & A8 & A9 & A10 & _).
  destruct Hst1 as (P1 & _ & P3 & P4 & P5 & P6 & _ & P8 & P9 & P10).
  destruct Hst2 as (Q1 & _ & Q3 & Q4 & Q5 & Q6 & _ & Q8 & Q9 & Q10).
  pose proof (parse_file_agree _ _ _ _ _ _ A1 P1 Q1) as E1.
  pose proof (parse_file_agree _ _ _ _ _ _ A3 P3 Q3) as E3.
  pose proof (parse_file_agree _ _ _ _ _ _ A4 P4 Q4) as E4.
  pose proof (parse_file_agree _ _ _ _ _ _ A5 P5 Q5) as E5.
  pose proof (parse_file_agree _ _ _ _ _ _ A6 P6 Q6) as E6.
  pose proof (parse_file_agree _ _ _ _ _ _ A8 P8 Q8) as E8.
  pose proof (parse_file_agree _ _ _ _ _ _ A9 P9 Q9) as E9.
  pose proof (parse_file_agree _ _ _ _ _ _ A10 P10 Q10) as E10.
  destruct Hfl1 as (F1 & F2 & F3 & F4 & F5 & F6).
  destruct Hfl2 as (G1 & G2 & G3 & G4 & G5 & G6).
  rewrite E4 in F1, F3, F5. rewrite E9 in F2, F4, F6.
  assert (V1 : source_voiced fl1 = source_voiced fl2) by congruence.
  assert (V2 : target_voiced fl1 = target_voiced fl2) by congruence.
  assert (V3 : src_eos_flag fl1 = src_eos_flag fl2) by congruence.
  assert (V4 : trg_eos_flag fl1 = trg_eos_flag fl2) by congruence.
  assert (V5 : src_spk_index fl1 = src_spk_index fl2) by congruence.
  assert (V6 : trg_spk_index fl1 = trg_spk_index fl2) by congruence.
  assert (source_blocks longest_seq st1 fl1 = source_blocks longest_seq st2 fl2) as Es.
  { unfold source_blocks. by rewrite E1, E3, E5, V1, V3, V5, V6. }
  assert (target_blocks longest_seq st1 fl1 = target_blocks longest_seq st2 fl2) as Et.
  { unfold target_blocks. by rewrite E6, E8, E10, V2, V4. }
  rewrite Es in Hsp1. rewrite Et in Htp1. rewrite E1 in Hsm1. rewrite E6 in Htm1.
  congruence.
Qed.

Lemma build_file_table_ignores_raw_f0_witness :
  fst (seq2seq_build_file_table demo_params "d/vocoded_s2s/A/" 0 "d/vocoded_s2s/B/" 1
         "u" 2 empty_world)
  = fst (seq2seq_build_file_table other_f0_params "d/vocoded_s2s/A/" 0
           "d/vocoded_s2s/B/" 1 "u" 2 empty_world) /\
  demo_params "d/vocoded_s2s/B/u.lf0.dat" <> other_f0_params "d/vocoded_s2s/B/u.lf0.dat".
Proof.
  split; [|discriminate].
  pose (r1 := seq2seq_build_file_table demo_params "d/vocoded_s2s/A/" 0
                "d/vocoded_s2s/B/" 1 "u" 2 empty_world).
  pose (r2 := seq2seq_build_file_table other_f0_params "d/vocoded_s2s/A/" 0
                "d/vocoded_s2s/B/" 1 "u" 2 empty_world).
  let v := eval vm_compute in r1 in assert (E1 : r1 = v) by (vm_compute; reflexivity).
  let v := eval vm_compute in r2 in assert (E2 : r2 = v) by (vm_compute; reflexivity).
  unfold r1 in E1. unfold r2 in E2.
  rewrite E1, E2. cbn [fst]. apply (f_equal Ok).
  refine (build_file_table_ignores_raw_f0 demo_params other_f0_params
            "d/vocoded_s2s/A/" 0 "d/vocoded_s2s/B/" 1 "u" 2
            empty_world empty_world _ _ _ _ _ E1 E2).
  repeat constructor.
Defined.

(** ** The assembler and the store: effects *)

Lemma string_get_app_last (a b : string) :
  b <> EmptyString ->
  String.get (String.length (a +:+ b) - 1) (a +:+ b)
  = String.get (String.length b - 1) b.
Proof.
  intros Hb. induction a as [|c a IH]; [reflexivity|].
  rewrite append_cons. cbn [String.length].
  assert (Hlen : 1 <= String.length (a +:+ b)).
  { destruct b as [|c' b]; [congruence|]. clear.
    induction a as [|c a IH]; simpl; lia. }
  replace (S (String.length (a +:+ b)) - 1) with (S (String.length (a +:+ b) - 1)) by lia.
  exact IH.
Qed.

Lemma ends_with_slash_app (a b : string) :
  b <> EmptyString -> ends_with_slash (a +:+ b) = ends_with_slash b.
Proof. intros Hb. unfold ends_with_slash. by rewrite string_get_app_last. Qed.

Lemma append_not_empty (a b : string) : b <> EmptyString -> a +:+ b <> EmptyString.
Proof. intros Hb. destruct a; [exact Hb | discriminate]. Qed.

(** The directory of a speaker is not empty and ends in ['/']. *)
Lemma speaker_dir_checked (data_dir spk : string) (msg : string) (w : world) :
  data_dir +:+ "vocoded_s2s/" +:+ spk +:+ "/" <> EmptyString /\
  warned (data_dir +:+ "vocoded_s2s/" +:+ spk +:+ "/") msg w = w.
Proof.
  assert (Hne : spk +:+ "/" <> EmptyString) by (by apply append_not_empty).
  split.
  - by do 2 apply append_not_empty.
  - unfold warned. rewrite !ends_with_slash_app; [reflexivity | done | exact Hne |].
    by apply append_not_empty.
Qed.

(** The world one pass of the body leaves, whatever its outcome: only the
    progress line is printed. *)
Lemma process_pair_world param_files data_dir longest_seq src_index src_spk
    trg_index trg_spk t basename w r w' :
  process_pair param_files data_dir longest_seq src_index src_spk trg_index
    trg_spk t basename w = (r, w') ->
  w' = World (stdout w ++ [src_spk +:+ "->" +:+ trg_spk +:+ " " +:+ basename])
         (h5_store w).
Proof.
  unfold process_pair. unfold bind at 1. unfold print at 1.
  set (w0 := World _ _). unfold bind at 1.
  destruct (seq2seq_build_file_table _ _ _ _ _ _ _ w0) as [[aux|e] w1] eqn:E;
    apply build_file_table_world in E.
  all: destruct (speaker_dir_checked data_dir src_spk
         "Please make sure the source data directory string ends with a '/'" w0)
         as [Hs Hws].
  all: destruct (speaker_dir_checked data_dir trg_spk
         "Please make sure the target data directory string ends with a '/'" w0)
         as [_ Hwt].
  all: apply String.eqb_neq in Hs; rewrite Hs, Hws, Hwt in E; subst w1.
  - destruct aux as [[[sp sm] tp] tm]. intros H.
    match type of H with
    | ?m ?w2 = _ => assert (Hm : silent m) by silent_tac; by apply Hm in H
    end.
  - intros H. by inversion H.
Qed.

(** A loop whose body only prints, prints the lines of its passes in order. *)
Lemma for_fold_prints {A S} (out : A -> list string) (l : list A)
    (body : S -> A -> py S) :
  (forall s x w s' w', body s x w = (Ok s', w') ->
     w' = World (stdout w ++ out x) (h5_store w)) ->
  forall s w s' w',
    for_fold l s body w = (Ok s', w') ->
    w' = World (stdout w ++ (x ← l; out x)) (h5_store w).
Proof.
  intros Hbody. induction l as [|x l IH]; intros s w s' w' Hrun; simpl in Hrun.
  - py_lift Hrun. destruct w. cbn. by rewrite app_nil_r.
  - py_step Hrun. apply Hbody in Hrun0. apply IH in Hrun. subst.
    cbn [stdout h5_store]. by rewrite <- app_assoc.
Qed.

Lemma enumerate_bind {A B} (f : A -> list B) (l : list A) :
  ('(_, x) ← enumerate l; f x) = (x ← l; f x).
Proof.
  unfold enumerate. generalize 0. induction l as [|x l IH]; intros n; [reflexivity|].
  cbn. by rewrite IH.
Qed.

Lemma assemble_loops_prints param_files data_dir longest_seq speakers basenames
    t0 w t w' :
  assemble_loops param_files data_dir longest_seq speakers basenames t0 w
    = (Ok t, w') ->
  w' = World (stdout w ++ progress_lines speakers basenames) (h5_store w).
Proof.
  intros Hrun. unfold assemble_loops in Hrun. unfold progress_lines.
  rewrite <- (enumerate_bind
                (fun src_spk => trg_spk ← speakers; basename ← basenames;
                   [src_spk +:+ "->" +:+ trg_spk +:+ " " +:+ basename]) speakers).
  eapply (for_fold_prints
            (fun '(_, src_spk) => trg_spk ← speakers; basename ← basenames;
               [src_spk +:+ "->" +:+ trg_spk +:+ " " +:+ basename]));
    [|exact Hrun].
  intros s [si ss] w1 s1 w1' Hmid.
  rewrite <- (enumerate_bind
                (fun trg_spk => basename ← basenames;
                   [ss +:+ "->" +:+ trg_spk +:+ " " +:+ basename]) speakers).
  eapply (for_fold_prints
            (fun '(_, trg_spk) => basename ← basenames;
               [ss +:+ "->" +:+ trg_spk +:+ " " +:+ basename]));
    [|exact Hmid].
  intros s2 [ti ts] w2 s3 w3 Hinner.
  eapply (for_fold_prints (fun basename => [ss +:+ "->" +:+ ts +:+ " " +:+ basename]));
    [|exact Hinner].
  intros s4 bn w4 s5 w5 Hpair. by apply process_pair_world in Hpair.
Qed.

(** X14: what a successful run of the assembler prints, and nothing else
    that it does to the world: the warning twice when the data root does not
    end in ['/'] (once by the assembler, once by the scanner it calls), then
    one progress line [src->trg basename] per triple in loop order.  The
    pair builder's own warnings never appear, and no container is
    touched. *)
Theorem construct_datatable_output
    (param_files : string -> option (list Q)) (text_files : string -> option string)
    (data_dir speakers_file basenames_file : string) (w w' : world) (x : datatable) :
  seq2seq_construct_datatable param_files text_files data_dir speakers_file
    basenames_file w = (Ok x, w') ->
  exists speakers basenames,
    read_list text_files (data_dir +:+ speakers_file) = Some speakers /\
    read_list text_files (data_dir +:+ basenames_file) = Some basenames /\
    w' = World
           (stdout w ++
            (if ends_with_slash data_dir then []
             else ["Please, make sure the data directory string ends with a '/'";
                   "Please, make sure the data directory string ends with a '/'"]) ++
            progress_lines speakers basenames)
           (h5_store w).
Proof.
  intros Hrun. unfold seq2seq_construct_datatable in Hrun.
  py_step Hrun. apply dir_check_ok in Hrun0 as (Hd & Hst & Hout); [|by left].
  py_step Hrun. apply open_readlines_ok in Hrun0 as (text1 & Ht1 & -> & ->).
  py_step Hrun. apply open_readlines_ok in Hrun0 as (text2 & Ht2 & -> & ->).
  py_step Hrun. py_step Hrun. py_peel Hrun. py_lift Hrun.
  apply find_longest_sequence_world in Hrun0. rewrite warned_nonempty in Hrun0 by exact Hd.
  apply assemble_loops_prints in Hrun1.
  eexists _, _.
  split; [unfold read_list; rewrite Ht1; reflexivity|].
  split; [unfold read_list; rewrite Ht2; reflexivity|].
  subst. destruct (ends_with_slash data_dir); cbn [stdout h5_store].
  - by rewrite Hout, Hst.
  - rewrite Hout, Hst, <- !app_assoc. reflexivity.
Qed.

Lemma construct_datatable_output_witness :
  exists x,
    seq2seq_construct_datatable demo_params demo_text "d/" "speakers.list"
      "seq2seq_basenames.list" empty_world
    = (Ok x, World ["A->A u"; "A->B u"; "B->A u"; "B->B u"] ∅).
Proof.
  pose (r := seq2seq_construct_datatable demo_params demo_text "d/" "speakers.list"
               "seq2seq_basenames.list" empty_world).
  let v := eval vm_compute in r in assert (E : r = v) by (vm_compute; reflexivity).
  unfold r in E.
  match type of E with _ = (Ok ?x, _) => exists x end.
  destruct (construct_datatable_output _ _ _ _ _ _ _ _ E)
    as (speakers & basenames & Hs & Hb & Hw).
  eval_lhs_opt Hs. eval_lhs_opt Hb. subst speakers basenames.
  rewrite E. apply (f_equal (pair _)).
  etransitivity; [exact Hw | reflexivity].
Defined.

(** ** The store: what a save writes, and when *)


Lemma bind_ret {A B} (a : A) (k : A -> py B) (w : world) : bind (ret a) k w = k a w.
Proof. reflexivity. Qed.












(** ** The assembler: the shapes of what it returns *)

Lemma length_concat_sum (rs : list (list Q)) :
  length (concat rs) = sum_list (map length rs).
Proof.
  induction rs as [|r rs IH]; [reflexivity|]. simpl. rewrite length_app, IH. reflexivity.
Qed.

Lemma concatenated_shape (blocks : list matrix) (m : matrix) (n : nat) :
  Forall (fun b => nrows b = n /\ well_shaped b) blocks ->
  np_concatenate1 blocks = Ok m ->
  has_shape n (sum_list (map ncols blocks)) m.
Proof.
  intros Hb Hm.
  destruct (np_concatenate1_ok blocks m n Hm) as (Hc & Hn & Hk).
  { eapply Forall_impl; [exact Hb|]. simpl. tauto. }
  split; [exact Hn|]. split; [exact Hc|].
  unfold well_shaped. apply Forall_lookup. intros k row Hrow.
  assert (Hlt : k < n).
  { apply lookup_lt_Some in Hrow. unfold nrows in Hn. lia. }
  destruct (Hk k Hlt) as (rs & Hrs & Hlook).
  rewrite Hlook in Hrow. injection Hrow as <-.
  assert (Hw : Forall2 (fun b r => rows b !! k = Some r /\ length r = ncols b) blocks rs).
  { apply rows_have_block_width; [|exact Hrs].
    eapply Forall_impl; [exact Hb|]. simpl. tauto. }
  rewrite length_concat_sum, (block_widths _ _ _ Hw). by rewrite Hc.
Qed.

Lemma build_file_table_shapes param_files source_dir src_index target_dir trg_index
    basename longest_seq w sp sm tp tm w' :
  seq2seq_build_file_table param_files source_dir src_index target_dir trg_index
    basename longest_seq w = (Ok (sp, sm, tp, tm), w') ->
  has_shape longest_seq 64 sp /\ has_shape longest_seq 44 tp /\
  (exists n, n <= longest_seq /\ sm = front_padded_mask longest_seq n) /\
  (exists n, n <= longest_seq /\ tm = back_padded_mask longest_seq n).
Proof.
  intros Hrun.
  apply build_file_table_ok in Hrun
    as (st & fl & Hst & _ & _ & Hfl & Hn1 & Hn2 & Hle & Hsm & Htm & Hsp & Htp & _).
  destruct (source_blocks_shapes longest_seq _ _ _ _ _ _ _ _ Hst Hfl Hle) as [Hsrc Htrg].
  destruct (pair_shapes _ _ _ _ _ _ _ _ Hst Hfl) as (Hcols & _ & _).
  destruct Hcols as (C1 & C2 & C3 & C4 & C5 & C6 & C7 & C8 & C9 & C10 & C11 & C12 & C13 & C14).
  pose proof (concatenated_shape _ _ _ Hsrc Hsp) as Hs.
  pose proof (concatenated_shape _ _ _ Htrg Htp) as Ht.
  unfold source_blocks in Hs. unfold target_blocks in Ht.
  cbn [map padded ncols] in Hs, Ht.
  rewrite C1, C2, C4, C5, C6, C7, C8 in Hs. rewrite C9, C10, C12, C13, C14 in Ht.
  split; [exact Hs|]. split; [exact Ht|]. split.
  - exists (nrows (source_mcp st)). split; [exact Hn1 | exact Hsm].
  - exists (nrows (target_mcp st)). split; [exact Hn2 | exact Htm].
Qed.

(** One pass of the body, with the call it makes and the masked array it
    reduces. *)
Lemma process_pair_build param_files data_dir longest_seq src_index src_spk
    trg_index trg_spk t basename w t' w' :
  process_pair param_files data_dir longest_seq src_index src_spk trg_index
    trg_spk t basename w = (Ok t', w') ->
  exists sp sm tp tm w0 w1 ma old_max old_min,
    seq2seq_build_file_table param_files
      (data_dir +:+ "vocoded_s2s/" +:+ src_spk +:+ "/") src_index
      (data_dir +:+ "vocoded_s2s/" +:+ trg_spk +:+ "/") trg_index
      basename longest_seq w0 = (Ok (sp, sm, tp, tm), w1) /\
    ma_array (first_columns 42 sp) (one_minus (np_repeat sm 42)) = Ok ma /\
    rows (spk_max t) !! src_index = Some old_max /\
    rows (spk_min t) !! src_index = Some old_min /\
    length old_max = length (ma_max ma) /\
    length old_min = length (ma_min ma) /\
    length old_max = ncols (spk_max t) /\
    length old_min = ncols (spk_min t) /\
    t' = Tables (src_datatable t ++ [sp]) (trg_datatable t ++ [tp])
           (src_masks t ++ [sm]) (trg_masks t ++ [tm])
           (Matrix (ncols (spk_max t))
              (<[src_index := zip_with Qmax old_max (ma_max ma)]> (rows (spk_max t))))
           (Matrix (ncols (spk_min t))
              (<[src_index := zip_with Qmin old_min (ma_min ma)]> (rows (spk_min t)))).
Proof.
  unfold process_pair. intros H. py_step H. py_step H.
  destruct v0 as [[[sp sm] tp] tm]. py_peel H. py_lift H.
  repeat match goal with
         | Hs : set_row _ _ _ = Ok _ |- _ =>
             apply set_row_ok in Hs; destruct Hs as (? & ? & ?); subst
         | Hg : get_row _ _ = Ok _ |- _ =>
             unfold get_row in Hg;
             match type of Hg with
             | match ?o with _ => _ end = _ =>
                 destruct o eqn:?; [inversion Hg; subst; clear Hg | discriminate]
             end
         | Hm : np_maximum _ _ = Ok _ |- _ =>
             unfold np_maximum, np_elementwise in Hm;
             match type of Hm with
             | (if ?c then _ else _) = _ =>
                 destruct c eqn:?; [inversion Hm; subst; clear Hm | discriminate]
             end
         | Hm : np_minimum _ _ = Ok _ |- _ =>
             unfold np_minimum, np_elementwise in Hm;
             match type of Hm with
             | (if ?c then _ else _) = _ =>
                 destruct c eqn:?; [inversion Hm; subst; clear Hm | discriminate]
             end
         end.
  repeat match goal with
         | Hl : (_ =? _) = true |- _ => apply Nat.eqb_eq in Hl
         end.
  eexists sp, sm, tp, tm, _, _, _, _, _.
  split; [eassumption|]. split; [eassumption|].
  split; [reflexivity|]. split; [reflexivity|].
  split; [eassumption|]. split; [eassumption|].
  split.
  { match goal with
    | Hz : length (zip_with Qmax ?a ?b) = ncols (spk_max t), Hab : length ?a = length ?b |- _ =>
        rewrite length_zip_with in Hz; lia
    end. }
  split.
  { match goal with
    | Hz : length (zip_with Qmin ?a ?b) = ncols (spk_min t), Hab : length ?a = length ?b |- _ =>
        rewrite length_zip_with in Hz; lia
    end. }
  reflexivity.
Qed.

Lemma has_shape_insert (r c i : nat) (m : matrix) (row : list Q) :
  has_shape r c m -> length row = c ->
  has_shape r c (Matrix (ncols m) (<[i := row]> (rows m))).
Proof.
  intros (Hr & Hc & Hw) Hrow. unfold has_shape, nrows, well_shaped in *. cbn [rows ncols].
  rewrite length_insert. split; [exact Hr|]. split; [exact Hc|].
  apply Forall_insert; [exact Hw | congruence].
Qed.

Lemma process_pair_shaped param_files data_dir longest_seq src_index src_spk
    trg_index trg_spk t basename w t' w' :
  tables_shaped longest_seq t ->
  process_pair param_files data_dir longest_seq src_index src_spk trg_index
    trg_spk t basename w = (Ok t', w') ->
  tables_shaped longest_seq t'.
Proof.
  intros [H1 H2 H3 H4 H5 H6] Hrun.
  apply process_pair_build in Hrun
    as (sp & sm & tp & tm & w0 & w1 & ma & old_max & old_min &
        Hb & _ & _ & _ & Hlx & Hln & Hcx & Hcn & ->).
  apply build_file_table_shapes in Hb as (Hsp & Htp & Hsm & Htm).
  constructor; cbn [src_datatable trg_datatable src_masks trg_masks spk_max spk_min].
  - apply Forall_app. split; [exact H1 | by constructor].
  - apply Forall_app. split; [exact H2 | by constructor].
  - apply Forall_app. split; [exact H3 | by constructor].
  - apply Forall_app. split; [exact H4 | by constructor].
  - apply has_shape_insert; [exact H5|].
    destruct H5 as (_ & Hc & _). rewrite length_zip_with. lia.
  - apply has_shape_insert; [exact H6|].
    destruct H6 as (_ & Hc & _). rewrite length_zip_with. lia.
Qed.

Lemma initial_tables_shaped (longest_seq : nat) : tables_shaped longest_seq initial_tables.
Proof.
  constructor; cbn; try apply Forall_nil_2.
  - repeat split. unfold well_shaped. cbn. repeat constructor.
  - repeat split. unfold well_shaped. cbn. repeat constructor.
Qed.

Lemma chunks_fuel_concat (w : nat) (ls : list (list Q)) (fuel : nat) :
  0 < w -> Forall (fun l => length l = w) ls -> length ls <= fuel ->
  chunks_fuel fuel w (concat ls) = ls.
Proof.
  intros Hw. revert fuel. induction ls as [|l ls IH]; intros fuel Hall Hfuel.
  - destruct fuel; reflexivity.
  - apply Forall_cons in Hall as [Hl Hall].
    destruct fuel as [|fuel]; [simpl in Hfuel; lia|].
    cbn [concat chunks_fuel]. destruct (l ++ concat ls) as [|x rest] eqn:E.
    { apply (f_equal length) in E. rewrite length_app in E. simpl in E. lia. }
    rewrite <- E. rewrite take_app_length' by (by symmetry).
    rewrite drop_app_length' by (by symmetry).
    rewrite IH; [reflexivity | exact Hall | simpl in Hfuel; lia].
Qed.

Lemma chunks_concat (w : nat) (ls : list (list Q)) :
  0 < w -> Forall (fun l => length l = w) ls -> chunks w (concat ls) = ls.
Proof.
  intros Hw Hall. unfold chunks. apply chunks_fuel_concat; [exact Hw | exact Hall |].
  rewrite length_concat_sum. clear -Hw Hall.
  induction Hall as [|l ls Hl Hall IH]; simpl; lia.
Qed.

Lemma np_array_ravel (ms : list matrix) (a : ndarray) :
  np_array ms = Ok a -> ravel a = concat (map (fun m => concat (rows m)) ms).
Proof.
  unfold np_array. destruct ms as [|m ms]; [intros H; by inversion H|].
  destruct (forallb _ ms); [|discriminate]. intros H. by inversion H.
Qed.

(** The two-dimensional mask the assembler returns has one row per pair:
    the mask column of the pair, laid flat. *)
Lemma mask_matrix_rows (masks : list matrix) (a : ndarray) (longest_seq : nat)
    (m : matrix) :
  np_array masks = Ok a ->
  reshape_rows (ravel a) longest_seq = Ok m ->
  Forall (fun sm => length (concat (rows sm)) = longest_seq) masks ->
  ncols m = longest_seq /\ rows m = map (fun sm => concat (rows sm)) masks.
Proof.
  intros Ha Hm Hall. apply np_array_ravel in Ha. rewrite Ha in Hm.
  pose proof (reshape_rows_ok _ _ _ Hm) as (Hc & _ & HL).
  split; [exact Hc|].
  unfold reshape_rows in Hm. destruct (longest_seq =? 0); [discriminate|].
  destruct (_ =? 0); [|discriminate]. inversion Hm; subst m; clear Hm. cbn [rows].
  apply chunks_concat; [exact HL|]. by apply Forall_map.
Qed.

Lemma front_padded_flat (longest_seq n : nat) :
  concat (rows (front_padded_mask longest_seq n))
  = repeat 0%Q (longest_seq - n) ++ repeat 1%Q n.
Proof.
  unfold front_padded_mask. cbn [rows].
  by rewrite concat_app, !concat_repeat_singleton.
Qed.

Lemma back_padded_flat (longest_seq n : nat) :
  concat (rows (back_padded_mask longest_seq n))
  = repeat 1%Q n ++ repeat 0%Q (longest_seq - n).
Proof.
  unfold back_padded_mask. cbn [rows].
  by rewrite concat_app, !concat_repeat_singleton.
Qed.

(** What a successful run of the assembler leaves in its six variables. *)
Lemma construct_datatable_tables param_files text_files data_dir speakers_file
    basenames_file w a b c d longest_seq speakers_max speakers_min w' :
  seq2seq_construct_datatable param_files text_files data_dir speakers_file
    basenames_file w
  = (Ok (a, b, c, d, longest_seq, speakers_max, speakers_min), w') ->
  exists speakers basenames t w2 w3 src_mask trg_mask,
    read_list text_files (data_dir +:+ speakers_file) = Some speakers /\
    read_list text_files (data_dir +:+ basenames_file) = Some basenames /\
    assemble_loops param_files data_dir longest_seq speakers basenames
      initial_tables w2 = (Ok t, w3) /\
    tables_shaped longest_seq t /\
    a = Nd3 (src_datatable t) /\ c = Nd3 (trg_datatable t) /\
    b = Nd2 src_mask /\ d = Nd2 trg_mask /\
    speakers_max = spk_max t /\ speakers_min = spk_min t /\
    ncols src_mask = longest_seq /\
    rows src_mask = map (fun sm => concat (rows sm)) (src_masks t) /\
    ncols trg_mask = longest_seq /\
    rows trg_mask = map (fun tm => concat (rows tm)) (trg_masks t) /\
    length (src_masks t) = length (src_datatable t) /\
    length (trg_masks t) = length (trg_datatable t).
Proof.
  intros Hrun. pose proof Hrun as Hdim. apply construct_datatable_ndim in Hdim.
  apply construct_datatable_ok in Hrun
    as (speakers & basenames & L & t & w1 & w2 & w3 & _ & Hs & Hb & _ & Hloops & Hx & _).
  destruct Hx as (a_src & a_sm & m_src & a_trg & a_tm & m_trg &
                  Ha & Hsm & Hm & Hc & Htm & Hm' & Hx).
  injection Hx as -> -> -> -> <- -> ->.
  assert (Hinv : tables_shaped longest_seq t).
  { eapply (assemble_loops_invariant (tables_shaped longest_seq));
      [| apply initial_tables_shaped | exact Hloops].
    intros si ss ti ts bn t0 w0 t1 w4 _ _ _ Ht0 Hp.
    eapply process_pair_shaped; eassumption. }
  assert (Hlen : length (src_masks t) = length (src_datatable t) /\
                 length (trg_masks t) = length (trg_datatable t)).
  { refine (assemble_loops_invariant
              (fun t => length (src_masks t) = length (src_datatable t) /\
                        length (trg_masks t) = length (trg_datatable t))
              param_files data_dir longest_seq speakers basenames _
              initial_tables w2 t w3 _ Hloops); [| split; reflexivity].
    intros si ss ti ts bn t0 w0 t1 w4 _ _ _ [E1 E2] Hp.
    apply process_pair_ok in Hp as (? & ? & ? & ? & ? & ? & ? & ? & -> & -> & -> & -> & _).
    rewrite !length_app. simpl. lia. }
  destruct Hinv as [H1 H2 H3 H4 H5 H6].
  destruct (mask_matrix_rows _ _ _ _ Hsm Hm) as [Hc1 Hr1].
  { eapply Forall_impl; [exact H3|]. intros sm (n & Hn & ->).
    rewrite front_padded_flat, length_app, !repeat_length. lia. }
  destruct (mask_matrix_rows _ _ _ _ Htm Hm') as [Hc2 Hr2].
  { eapply Forall_impl; [exact H4|]. intros tm (n & Hn & ->).
    rewrite back_padded_flat, length_app, !repeat_length. lia. }
  destruct Hdim as (Da & _ & Dc & _ & _).
  assert (Ea : a_src = Nd3 (src_datatable t)).
  { unfold np_array in Ha. destruct (src_datatable t) as [|m0 ms].
    - inversion Ha; subst. discriminate.
    - destruct (forallb _ ms); [by inversion Ha | discriminate]. }
  assert (Ec : a_trg = Nd3 (trg_datatable t)).
  { unfold np_array in Hc. destruct (trg_datatable t) as [|m0 ms].
    - inversion Hc; subst. discriminate.
    - destruct (forallb _ ms); [by inversion Hc | discriminate]. }
  exists speakers, basenames, t, w2, w3, m_src, m_trg.
  split; [exact Hs|]. split; [exact Hb|]. split; [exact Hloops|].
  split; [by constructor|]. split; [exact Ea|]. split; [exact Ec|].
  do 4 (split; [reflexivity|]).
  split; [exact Hc1|]. split; [exact Hr1|]. split; [exact Hc2|]. split; [exact Hr2|].
  exact Hlen.
Qed.

(** X17: the shapes of what the assembler returns.  The source table is a
    stack of [longest_seq x 64] arrays and the target table one of
    [longest_seq x 44] arrays; each mask matrix has [longest_seq] columns
    and one row per pair, zeros then ones on the source side and ones then
    zeros on the target side; the two statistics matrices are [10 x 42]. *)
Theorem construct_datatable_shapes
    (param_files : string -> option (list Q)) (text_files : string -> option string)
    (data_dir speakers_file basenames_file : string) (w w' : world)
    (a b c d : ndarray) (longest_seq : nat) (speakers_max speakers_min : matrix) :
  seq2seq_construct_datatable param_files text_files data_dir speakers_file
    basenames_file w
  = (Ok (a, b, c, d, longest_seq, speakers_max, speakers_min), w') ->
  exists src_blocks trg_blocks src_mask trg_mask,
    a = Nd3 src_blocks /\ c = Nd3 trg_blocks /\
    b = Nd2 src_mask /\ d = Nd2 trg_mask /\
    Forall (has_shape longest_seq 64) src_blocks /\
    Forall (has_shape longest_seq 44) trg_blocks /\
    has_shape (length src_blocks) longest_seq src_mask /\
    has_shape (length trg_blocks) longest_seq trg_mask /\
    Forall (fun row => exists n, n <= longest_seq /\
              row = repeat 0%Q (longest_seq - n) ++ repeat 1%Q n) (rows src_mask) /\
    Forall (fun row => exists n, n <= longest_seq /\
              row = repeat 1%Q n ++ repeat 0%Q (longest_seq - n)) (rows trg_mask) /\
    has_shape 10 42 speakers_max /\ has_shape 10 42 speakers_min.
Proof.
  intros Hrun.
  apply construct_datatable_tables in Hrun
    as (speakers & basenames & t & w2 & w3 & src_mask & trg_mask & _ & _ & _ &
        [H1 H2 H3 H4 H5 H6] & -> & -> & -> & -> & -> & -> & Hc1 & Hr1 & Hc2 & Hr2 &
        Hl1 & Hl2).
  assert (Hsrc : Forall (fun row => exists n, n <= longest_seq /\
                   row = repeat 0%Q (longest_seq - n) ++ repeat 1%Q n) (rows src_mask)).
  { rewrite Hr1. apply Forall_map. eapply Forall_impl; [exact H3|].
    intros sm (n & Hn & ->). exists n. split; [exact Hn | apply front_padded_flat]. }
  assert (Htrg : Forall (fun row => exists n, n <= longest_seq /\
                   row = repeat 1%Q n ++ repeat 0%Q (longest_seq - n)) (rows trg_mask)).
  { rewrite Hr2. apply Forall_map. eapply Forall_impl; [exact H4|].
    intros tm (n & Hn & ->). exists n. split; [exact Hn | apply back_padded_flat]. }
  exists (src_datatable t), (trg_datatable t), src_mask, trg_mask.
  do 4 (split; [reflexivity|]). split; [exact H1|]. split; [exact H2|].
  split; [|split; [|split; [exact Hsrc | split; [exact Htrg | by split]]]].
  - split; [|split; [exact Hc1|]].
    + unfold nrows. rewrite Hr1, length_map. exact Hl1.
    + unfold well_shaped. eapply Forall_impl; [exact Hsrc|].
      intros row (n & Hn & ->). rewrite length_app, !repeat_length. lia.
  - split; [|split; [exact Hc2|]].
    + unfold nrows. rewrite Hr2, length_map. exact Hl2.
    + unfold well_shaped. eapply Forall_impl; [exact Htrg|].
      intros row (n & Hn & ->). rewrite length_app, !repeat_length. lia.
Qed.

Lemma construct_datatable_shapes_witness :
  exists src_blocks b c d speakers_max speakers_min w',
    seq2seq_construct_datatable demo_params demo_text "d/" "speakers.list"
      "seq2seq_basenames.list" empty_world
    = (Ok (Nd3 src_blocks, b, c, d, 2, speakers_max, speakers_min), w') /\
    Forall (has_shape 2 64) src_blocks /\ has_shape 10 42 speakers_max.
Proof.
  pose (r := seq2seq_construct_datatable demo_params demo_text "d/" "speakers.list"
               "seq2seq_basenames.list" empty_world).
  let v := eval vm_compute in r in assert (E : r = v) by (vm_compute; reflexivity).
  unfold r in E.
  match type of E with
  | _ = (Ok (Nd3 ?a, ?b, ?c, ?d, _, ?mx, ?mn), ?w') => exists a, b, c, d, mx, mn, w'
  end.
  split; [exact E|].
  destruct (construct_datatable_shapes _ _ _ _ _ _ _ _ _ _ _ _ _ _ E)
    as (sb & tb & smk & tmk & Ea & _ & _ & _ & Hs & _ & _ & _ & _ & _ & Hmx & _).
  injection Ea as <-. split; [exact Hs | exact Hmx].
Defined.

(** ** The assembler: the statistics bound the data *)

Section Reduction.

(** A reduction [f] that stays on one side of both its arguments, as the
    maximum stays above and the minimum below. *)
Context (f : Q -> Q -> Q) (R : Q -> Q -> Prop).
Context (R_refl : forall x, R x x).
Context (R_trans : forall x y z, R x y -> R y z -> R x z).
Context (R_left : forall x y, R x (f x y)).
Context (R_right : forall x y, R y (f x y)).

Lemma merge_row_left (acc r : list (option Q)) (c : nat) (a : Q) :
  length r = length acc -> acc !! c = Some (Some a) ->
  exists u, zip_with (merge_cell f) acc r !! c = Some (Some u) /\ R a u.
Proof using R_refl R_left.
  intros Hlen Ha.
  destruct (lookup_lt_is_Some_2 r c) as [y Hy].
  { apply lookup_lt_Some in Ha. lia. }
  destruct y as [y|].
  - exists (f a y). split; [|apply R_left].
    apply lookup_zip_with_Some. by exists (Some a), (Some y).
  - exists a. split; [|apply R_refl].
    apply lookup_zip_with_Some. by exists (Some a), None.
Qed.

Lemma merge_row_right (acc r : list (option Q)) (c : nat) (v : Q) :
  length r = length acc -> r !! c = Some (Some v) ->
  exists u, zip_with (merge_cell f) acc r !! c = Some (Some u) /\ R v u.
Proof using R_refl R_right.
  intros Hlen Hv.
  destruct (lookup_lt_is_Some_2 acc c) as [x Hx].
  { apply lookup_lt_Some in Hv. lia. }
  destruct x as [x|].
  - exists (f x v). split; [|apply R_right].
    apply lookup_zip_with_Some. by exists (Some x), (Some v).
  - exists v. split; [|apply R_refl].
    apply lookup_zip_with_Some. by exists None, (Some v).
Qed.

Lemma fold_merge_acc (rs : list (list (option Q))) (acc : list (option Q))
    (c : nat) (a : Q) :
  Forall (fun r => length r = length acc) rs ->
  acc !! c = Some (Some a) ->
  exists u,
    fold_left (zip_with (merge_cell f)) rs acc !! c = Some (Some u) /\ R a u.
Proof using R_refl R_trans R_left.
  revert acc a. induction rs as [|r rs IH]; intros acc a Hall Ha.
  - exists a. split; [exact Ha | apply R_refl].
  - apply Forall_cons in Hall as [Hr Hall]. cbn [fold_left].
    destruct (merge_row_left acc r c a Hr Ha) as (u & Hu & Hau).
    destruct (IH (zip_with (merge_cell f) acc r) u) as (u' & Hu' & Huu'); [|exact Hu|].
    { eapply Forall_impl; [exact Hall|]. intros r' Hr'. cbn beta in *.
      rewrite length_zip_with. lia. }
    exists u'. split; [exact Hu' | by eapply R_trans].
Qed.

Lemma fold_merge_row (rs : list (list (option Q))) (acc : list (option Q))
    (k c : nat) (r : list (option Q)) (v : Q) :
  Forall (fun r => length r = length acc) rs ->
  rs !! k = Some r -> r !! c = Some (Some v) ->
  exists u,
    fold_left (zip_with (merge_cell f)) rs acc !! c = Some (Some u) /\ R v u.
Proof using R_refl R_trans R_left R_right.
  revert acc k. induction rs as [|r0 rs IH]; intros acc k Hall Hk Hv; [done|].
  apply Forall_cons in Hall as [Hr Hall]. cbn [fold_left].
  assert (Hall' : Forall (fun r' => length r' = length (zip_with (merge_cell f) acc r0)) rs).
  { eapply Forall_impl; [exact Hall|]. intros r' Hr'. cbn beta in *.
    rewrite length_zip_with. lia. }
  destruct k as [|k].
  - injection Hk as ->.
    destruct (merge_row_right acc r c v Hr Hv) as (u & Hu & Hvu).
    destruct (fold_merge_acc rs _ c u Hall' Hu) as (u' & Hu' & Huu').
    exists u'. split; [exact Hu' | by eapply R_trans].
  - exact (IH _ k Hall' Hk Hv).
Qed.

(** The reduction of a masked array bounds every cell that is not masked. *)
Lemma ma_reduce_cover (a : masked_array) (k c : nat) (r : list (option Q)) (v : Q) :
  Forall (fun r => length r = ma_ncols a) (ma_rows a) ->
  ma_rows a !! k = Some r -> r !! c = Some (Some v) ->
  exists u, ma_reduce f a !! c = Some u /\ R v u.
Proof using R_refl R_trans R_left R_right.
  intros Hall Hk Hv. unfold ma_reduce.
  destruct (fold_merge_row (ma_rows a) (repeat None (ma_ncols a)) k c r v)
    as (u & Hu & Hvu); [|exact Hk|exact Hv|].
  { by rewrite repeat_length. }
  exists u. split; [|exact Hvu].
  rewrite list_lookup_fmap, Hu. reflexivity.
Qed.

End Reduction.

Lemma Qge_trans (x y z : Q) : (y <= x)%Q -> (z <= y)%Q -> (z <= x)%Q.
Proof. intros H1 H2. by eapply Qle_trans. Qed.

Lemma ma_max_cover (a : masked_array) (k c : nat) (r : list (option Q)) (v : Q) :
  Forall (fun r => length r = ma_ncols a) (ma_rows a) ->
  ma_rows a !! k = Some r -> r !! c = Some (Some v) ->
  exists u, ma_max a !! c = Some u /\ (v <= u)%Q.
Proof.
  apply (ma_reduce_cover Qmax Qle Qle_refl Qle_trans Q.le_max_l Q.le_max_r).
Qed.

Lemma ma_min_cover (a : masked_array) (k c : nat) (r : list (option Q)) (v : Q) :
  Forall (fun r => length r = ma_ncols a) (ma_rows a) ->
  ma_rows a !! k = Some r -> r !! c = Some (Some v) ->
  exists u, ma_min a !! c = Some u /\ (u <= v)%Q.
Proof.
  apply (ma_reduce_cover Qmin (fun x y => (y <= x)%Q) Qle_refl Qge_trans
           Q.le_min_l Q.le_min_r).
Qed.

Lemma mask_row_real (longest_seq n frame : nat) :
  rows (front_padded_mask longest_seq n) !! frame = Some [1%Q] ->
  rows (one_minus (np_repeat (front_padded_mask longest_seq n) 42)) !! frame
  = Some (repeat 0%Q 42).
Proof.
  intros H. unfold one_minus, np_repeat. cbn [rows ncols].
  rewrite !list_lookup_fmap, H. reflexivity.
Qed.

Lemma masked_rows_width (sp : matrix) (longest_seq n : nat) (ma : masked_array) :
  has_shape longest_seq 64 sp ->
  ma_array (first_columns 42 sp)
    (one_minus (np_repeat (front_padded_mask longest_seq n) 42)) = Ok ma ->
  ma_ncols ma = 42 /\ Forall (fun r => length r = 42) (ma_rows ma).
Proof.
  intros (Hn & Hc & Hw) Hma. unfold ma_array in Hma.
  destruct (shape_eqb _ _); [|discriminate]. inversion Hma; subst ma; clear Hma.
  cbn [ma_ncols ma_rows first_columns ncols rows]. split; [rewrite Hc; reflexivity|].
  apply Forall_forall. intros r Hr.
  apply elem_of_lookup_zip_with_1 in Hr as (i & x & y & -> & Hx & Hy).
  rewrite list_lookup_fmap in Hx.
  destruct (rows sp !! i) as [row|] eqn:Hrow; [|discriminate]. injection Hx as <-.
  assert (Hlen : length row = 64).
  { unfold well_shaped in Hw. rewrite Forall_lookup in Hw.
    rewrite (Hw _ _ Hrow). exact Hc. }
  unfold one_minus, np_repeat, front_padded_mask in Hy. cbn [rows ncols] in Hy.
  rewrite !list_lookup_fmap in Hy.
  destruct ((repeat [0%Q] (longest_seq - n) ++ repeat [1%Q] n) !! i) as [mr|] eqn:Hmr;
    [|discriminate].
  injection Hy as <-.
  assert (Hone : exists x0, mr = [x0]).
  { apply list_elem_of_lookup_2 in Hmr. apply elem_of_app in Hmr as [Hin | Hin];
      apply list_elem_of_In, repeat_spec in Hin; eauto. }
  destruct Hone as [x0 ->]. cbn [map mjoin list_join].
  rewrite length_zip_with, length_take, Hlen. reflexivity.
Qed.

(** One pass of the body leaves the source speaker's rows bounding the
    real frames of the pair. *)
Lemma process_pair_covers param_files data_dir longest_seq src_index src_spk
    trg_index trg_spk t basename w t' w' sp sm :
  tables_shaped longest_seq t ->
  process_pair param_files data_dir longest_seq src_index src_spk trg_index
    trg_spk t basename w = (Ok t', w') ->
  src_datatable t' = src_datatable t ++ [sp] ->
  src_masks t' = src_masks t ++ [sm] ->
  bounds_frames (spk_max t') (spk_min t') src_index sp sm.
Proof.
  intros [_ _ _ _ H5 H6] Hrun Esp Esm.
  apply process_pair_build in Hrun
    as (sp' & sm' & tp & tm & w0 & w1 & ma & old_max & old_min &
        Hb & Hma & Hox & Hon & Hlx & Hln & Hcx & Hcn & ->).
  cbn [src_datatable src_masks] in Esp, Esm.
  apply app_inj_tail in Esp as [_ ->]. apply app_inj_tail in Esm as [_ ->].
  apply build_file_table_shapes in Hb as (Hsp & _ & (n & Hn & ->) & _).
  destruct (masked_rows_width _ _ _ _ Hsp Hma) as [Hmc Hmr].
  destruct H5 as (_ & Cx & _). destruct H6 as (_ & Cn & _).
  intros frame col v Hreal Hcol Hv. cbn [spk_max spk_min].
  unfold cell in Hv.
  destruct (rows sp !! frame) as [row|] eqn:Hrow; [|discriminate]. cbn in Hv.
  (* the cell is not masked *)
  assert (Hcellm : exists mar, ma_rows ma !! frame = Some mar /\
                               mar !! col = Some (Some v)).
  { unfold ma_array in Hma. destruct (shape_eqb _ _); [|discriminate].
    inversion Hma; subst ma; clear Hma. cbn [ma_rows].
    eexists. split.
    - apply lookup_zip_with_Some. eexists _, _. split; [reflexivity|]. split.
      + unfold first_columns. cbn [rows]. rewrite list_lookup_fmap, Hrow. reflexivity.
      + by apply mask_row_real.
    - apply lookup_zip_with_Some. exists v, 0%Q. split; [reflexivity|]. split.
      + rewrite lookup_take_lt by exact Hcol. exact Hv.
      + by apply lookup_repeat. }
  destruct Hcellm as (mar & Hmar & Hmv).
  assert (Hmr' : Forall (fun r => length r = ma_ncols ma) (ma_rows ma)).
  { rewrite Hmc. exact Hmr. }
  destruct (ma_max_cover ma frame col mar v Hmr' Hmar Hmv) as (hi & Hhi & Hvhi).
  destruct (ma_min_cover ma frame col mar v Hmr' Hmar Hmv) as (lo & Hlo & Hvlo).
  destruct (lookup_lt_is_Some_2 old_max col) as [ox Hoxc]; [lia|].
  destruct (lookup_lt_is_Some_2 old_min col) as [on Honc]; [lia|].
  exists (Qmin on lo), (Qmax ox hi). unfold cell. cbn [rows].
  rewrite !list_lookup_insert_eq by (eapply lookup_lt_Some; eassumption). cbn.
  split; [|split; [|split]].
  - apply lookup_zip_with_Some. by exists on, lo.
  - apply lookup_zip_with_Some. by exists ox, hi.
  - eapply Qle_trans; [apply Q.le_min_r | exact Hvlo].
  - eapply Qle_trans; [exact Hvhi | apply Q.le_max_r].
Qed.

Lemma cell_le (a b : matrix) (i c : nat) (x : Q) :
  matrix_le a b -> cell a i c = Some x ->
  exists y, cell b i c = Some y /\ (x <= y)%Q.
Proof.
  unfold matrix_le, cell. intros Hle Hx.
  destruct (rows a !! i) as [ra|] eqn:Hra; [|discriminate]. cbn in Hx.
  destruct (Forall2_lookup_l _ _ _ _ _ Hle Hra) as (rb & Hrb & Hrows).
  destruct (Forall2_lookup_l _ _ _ _ _ Hrows Hx) as (y & Hy & Hxy).
  exists y. rewrite Hrb. cbn. by split.
Qed.

Lemma cell_ge (a b : matrix) (i c : nat) (y : Q) :
  matrix_le a b -> cell b i c = Some y ->
  exists x, cell a i c = Some x /\ (x <= y)%Q.
Proof.
  unfold matrix_le, cell. intros Hle Hy.
  destruct (rows b !! i) as [rb|] eqn:Hrb; [|discriminate]. cbn in Hy.
  destruct (Forall2_lookup_r _ _ _ _ _ Hle Hrb) as (ra & Hra & Hrows).
  destruct (Forall2_lookup_r _ _ _ _ _ Hrows Hy) as (x & Hx & Hxy).
  exists x. rewrite Hra. cbn. by split.
Qed.

Lemma pair_covered_mono (mx mn mx' mn' sp sm : matrix) :
  matrix_le mx mx' -> matrix_le mn' mn ->
  pair_covered mx mn sp sm -> pair_covered mx' mn' sp sm.
Proof.
  intros Hx Hn (i & Hi & Hcode & Hb). exists i. split; [exact Hi|].
  split; [exact Hcode|]. intros frame col v Hreal Hcol Hv.
  destruct (Hb frame col v Hreal Hcol Hv) as (lo & hi & Hlo & Hhi & Hlv & Hvh).
  destruct (cell_le _ _ _ _ _ Hx Hhi) as (hi' & Hhi' & Hle).
  destruct (cell_ge _ _ _ _ _ Hn Hlo) as (lo' & Hlo' & Hge).
  exists lo', hi'. split; [exact Hlo'|]. split; [exact Hhi'|].
  split; eapply Qle_trans; eassumption.
Qed.

Lemma last_app_repeat (l : list Q) (x : Q) (n : nat) :
  1 <= n -> last (l ++ repeat x n) = Some x.
Proof.
  intros Hn. destruct n as [|n]; [lia|].
  replace (repeat x (S n)) with (repeat x n ++ [x]).
  - by rewrite app_assoc, last_snoc.
  - clear. induction n as [|n IH]; [reflexivity|]. simpl. by rewrite IH.
Qed.

Lemma build_file_table_coded param_files source_dir src_index target_dir trg_index
    basename longest_seq w sp sm tp tm w' :
  seq2seq_build_file_table param_files source_dir src_index target_dir trg_index
    basename longest_seq w = (Ok (sp, sm, tp, tm), w') ->
  src_index < 10 /\ coded_for sp src_index.
Proof.
  intros Hrun. apply build_file_table_code in Hrun
    as (svf & tvf & _ & _ & [Hn _] & _ & Hi & _ & Hcode).
  split; [exact Hi|]. intros k Hk. destruct (Hcode k Hk) as [-> _].
  by apply last_app_repeat.
Qed.

Lemma process_pair_covered param_files data_dir longest_seq src_index src_spk
    trg_index trg_spk t basename w t' w' :
  tables_shaped longest_seq t ->
  Forall2 (pair_covered (spk_max t) (spk_min t)) (src_datatable t) (src_masks t) ->
  process_pair param_files data_dir longest_seq src_index src_spk trg_index
    trg_spk t basename w = (Ok t', w') ->
  Forall2 (pair_covered (spk_max t') (spk_min t')) (src_datatable t') (src_masks t').
Proof.
  intros Hshape Hcov Hrun.
  pose proof (process_pair_le _ _ _ _ _ _ _ _ _ _ _ _ Hrun) as [Hx Hn].
  pose proof Hrun as Hb. apply process_pair_build in Hb
    as (sp & sm & tp & tm & w0 & w1 & ma & old_max & old_min &
        Hb & _ & _ & _ & _ & _ & _ & _ & Et).
  assert (Esp : src_datatable t' = src_datatable t ++ [sp]) by (by rewrite Et).
  assert (Esm : src_masks t' = src_masks t ++ [sm]) by (by rewrite Et).
  pose proof (process_pair_covers _ _ _ _ _ _ _ _ _ _ _ _ sp sm Hshape Hrun Esp Esm)
    as Hnew.
  rewrite Esp, Esm. apply Forall2_app.
  - eapply Forall2_impl; [exact Hcov|]. intros sp0 sm0. by apply pair_covered_mono.
  - constructor; [|constructor].
    apply build_file_table_coded in Hb as [Hi Hcode].
    exists src_index. by split.
Qed.

Lemma mask_flat_real (longest_seq n frame : nat) :
  concat (rows (front_padded_mask longest_seq n)) !! frame = Some 1%Q ->
  rows (front_padded_mask longest_seq n) !! frame = Some [1%Q].
Proof.
  rewrite front_padded_flat. unfold front_padded_mask. cbn [rows]. intros H.
  destruct (decide (frame < longest_seq - n)) as [Hlt | Hge].
  - rewrite lookup_app_l in H by (rewrite repeat_length; lia).
    rewrite lookup_repeat in H by exact Hlt. discriminate.
  - rewrite lookup_app_r in H by (rewrite repeat_length; lia).
    rewrite repeat_length in H. apply lookup_lt_Some in H. rewrite repeat_length in H.
    rewrite lookup_app_r by (rewrite repeat_length; lia).
    rewrite repeat_length. by apply lookup_repeat.
Qed.

(** X18: the statistics bound the data.  Every array of the returned source
    table is coded for one source speaker [i < 10], and for each frame that
    its row of the source mask marks with a one, each of the first 42
    features lies between row [i] of the returned minima and row [i] of the
    returned maxima. *)
Theorem construct_datatable_statistics_cover
    (param_files : string -> option (list Q)) (text_files : string -> option string)
    (data_dir speakers_file basenames_file : string) (w w' : world)
    (a b c d : ndarray) (longest_seq : nat) (speakers_max speakers_min : matrix) :
  seq2seq_construct_datatable param_files text_files data_dir speakers_file
    basenames_file w
  = (Ok (a, b, c, d, longest_seq, speakers_max, speakers_min), w') ->
  exists src_blocks src_mask,
    a = Nd3 src_blocks /\ b = Nd2 src_mask /\
    forall pair sp mask_row,
      src_blocks !! pair = Some sp -> rows src_mask !! pair = Some mask_row ->
      exists i,
        i < 10 /\ coded_for sp i /\
        forall frame col v,
          mask_row !! frame = Some 1%Q -> col < 42 -> cell sp frame col = Some v ->
          exists lo hi,
            cell speakers_min i col = Some lo /\ cell speakers_max i col = Some hi /\
            (lo <= v <= hi)%Q.
Proof.
  intros Hrun.
  apply construct_datatable_tables in Hrun
    as (speakers & basenames & t & w2 & w3 & src_mask & trg_mask & _ & _ & Hloops &
        Hshape & -> & _ & -> & _ & -> & -> & _ & Hr1 & _).
  assert (Hinv : tables_shaped longest_seq t /\
                 Forall2 (pair_covered (spk_max t) (spk_min t))
                   (src_datatable t) (src_masks t)).
  { refine (assemble_loops_invariant
              (fun t => tables_shaped longest_seq t /\
                        Forall2 (pair_covered (spk_max t) (spk_min t))
                          (src_datatable t) (src_masks t))
              param_files data_dir longest_seq speakers basenames _
              initial_tables w2 t w3 _ Hloops).
    - intros si ss ti ts bn t0 w0 t1 w4 _ _ _ [Hs0 Hc0] Hp. split.
      + eapply process_pair_shaped; eassumption.
      + eapply process_pair_covered; eassumption.
    - split; [apply initial_tables_shaped | constructor]. }
  destruct Hinv as [_ Hcov]. destruct Hshape as [_ _ H3 _ _ _].
  exists (src_datatable t), src_mask. do 2 (split; [reflexivity|]).
  intros pair sp mask_row Hsp Hrow.
  rewrite Hr1, list_lookup_fmap in Hrow.
  destruct (src_masks t !! pair) as [sm|] eqn:Hsm; [|discriminate].
  injection Hrow as <-.
  pose proof (Forall2_lookup_lr _ _ _ _ _ _ Hcov Hsp Hsm) as (i & Hi & Hcode & Hb).
  rewrite Forall_lookup in H3. destruct (H3 _ _ Hsm) as (n & Hn & ->).
  exists i. split; [exact Hi|]. split; [exact Hcode|].
  intros frame col v Hreal Hcol Hv. apply (Hb frame col v); [|exact Hcol|exact Hv].
  by apply mask_flat_real.
Qed.

Lemma construct_datatable_statistics_cover_witness :
  exists a b c d longest_seq speakers_max speakers_min w',
    seq2seq_construct_datatable demo_params demo_text "d/" "speakers.list"
      "seq2seq_basenames.list" empty_world
    = (Ok (a, b, c, d, longest_seq, speakers_max, speakers_min), w') /\
    exists lo hi,
      cell speakers_min 1 0 = Some lo /\ cell speakers_max 1 0 = Some hi /\
      (lo <= 2 <= hi)%Q.
Proof.
  pose (r := seq2seq_construct_datatable demo_params demo_text "d/" "speakers.list"
               "seq2seq_basenames.list" empty_world).
  let v := eval vm_compute in r in assert (E : r = v) by (vm_compute; reflexivity).
  unfold r in E.
  match type of E with
  | _ = (Ok (?a, ?b, ?c, ?d, ?n, ?mx, ?mn), ?w') => exists a, b, c, d, n, mx, mn, w'
  end.
  split; [exact E|].
  destruct (construct_datatable_statistics_cover _ _ _ _ _ _ _ _ _ _ _ _ _ _ E)
    as (blocks & mask & Ea & Eb & Hcover).
  injection Ea as <-. injection Eb as <-.
  destruct (Hcover 2 _ _ eq_refl eq_refl) as (i & Hi & Hcode & Hb).
  assert (Ei : i = 1).
  { pose proof (Hcode 1 ltac:(lia)) as H1. destruct (decide (1 = i)); [done|].
    vm_compute in H1. discriminate. }
  subst i. apply (Hb 0 0 2%Q); [reflexivity | lia | reflexivity].
Defined.

(** ** The assembler: the corpora it accepts *)

(** A loop that returns has run its body on every element. *)
Lemma for_fold_visits {A S} (l : list A) (body : S -> A -> py S) (x : A) :
  x ∈ l ->
  forall s w s' w',
    for_fold l s body w = (Ok s', w') ->
    exists s1 w1 s2 w2, body s1 x w1 = (Ok s2, w2).
Proof.
  induction l as [|y l IH]; intros Hin s w s' w' Hrun; [by apply elem_of_nil in Hin|].
  simpl in Hrun. py_step Hrun. apply elem_of_cons in Hin as [-> | Hin].
  - eauto.
  - exact (IH Hin _ _ _ _ Hrun).
Qed.

Lemma elem_of_enumerate {A} (l : list A) (i : nat) (x : A) :
  l !! i = Some x -> (i, x) ∈ enumerate l.
Proof.
  intros Hx. unfold enumerate. apply (list_elem_of_lookup_2 _ i).
  apply lookup_zip_with_Some. exists i, x. split; [reflexivity|]. split; [|exact Hx].
  apply lookup_seq. split; [reflexivity|]. by eapply lookup_lt_Some.
Qed.

(** The loops that return have processed every triple. *)
Lemma assemble_loops_visits param_files data_dir longest_seq speakers basenames
    t0 w t w' src_index src_spk trg_index trg_spk basename :
  assemble_loops param_files data_dir longest_seq speakers basenames t0 w
    = (Ok t, w') ->
  speakers !! src_index = Some src_spk ->
  speakers !! trg_index = Some trg_spk ->
  basename ∈ basenames ->
  exists t1 w1 t2 w2,
    process_pair param_files data_dir longest_seq src_index src_spk trg_index
      trg_spk t1 basename w1 = (Ok t2, w2).
Proof.
  intros Hrun Hs Ht Hb. unfold assemble_loops in Hrun.
  apply elem_of_enumerate in Hs. apply elem_of_enumerate in Ht.
  destruct (for_fold_visits _ _ _ Hs _ _ _ _ Hrun) as (s1 & w1 & s2 & w2 & Hmid).
  destruct (for_fold_visits _ _ _ Ht _ _ _ _ Hmid) as (s3 & w3 & s4 & w4 & Hinner).
  destruct (for_fold_visits _ _ _ Hb _ _ _ _ Hinner) as (s5 & w5 & s6 & w6 & Hpair).
  eauto.
Qed.

(** X19: the corpora the assembler accepts.  It returns only when the
    speakers list has between one and ten entries and the basenames list at
    least one: an empty corpus cannot be reshaped, and an eleventh speaker
    has no place in the one-hot code. *)
Theorem construct_datatable_capacity
    (param_files : string -> option (list Q)) (text_files : string -> option string)
    (data_dir speakers_file basenames_file : string) (w w' : world) (x : datatable) :
  seq2seq_construct_datatable param_files text_files data_dir speakers_file
    basenames_file w = (Ok x, w') ->
  exists speakers basenames,
    read_list text_files (data_dir +:+ speakers_file) = Some speakers /\
    read_list text_files (data_dir +:+ basenames_file) = Some basenames /\
    1 <= length speakers <= 10 /\ 1 <= length basenames.
Proof.
  intros Hrun.
  apply construct_datatable_ok in Hrun
    as (speakers & basenames & L & t & w1 & w2 & w3 & _ & Hs & Hb & Hscan & Hloops &
        Hx & _).
  destruct Hx as (a_src & a_sm & m_src & a_trg & a_tm & m_trg &
                  _ & _ & Hm & _ & _ & _ & _).
  apply reshape_rows_ok in Hm as (_ & _ & HL).
  apply find_longest_sequence_ok in Hscan as (_ & Hmax & _).
  assert (Hne : speakers <> [] /\ basenames <> []).
  { split; intros ->; rewrite corpus_counts_empty in Hmax by auto;
      simpl in Hmax; lia. }
  destruct Hne as [Hsne Hbne].
  exists speakers, basenames. split; [exact Hs|]. split; [exact Hb|].
  destruct basenames as [|bn bns]; [congruence|].
  destruct speakers as [|s0 sps]; [congruence|].
  split; [|simpl; lia]. split; [simpl; lia|].
  destruct (lookup_lt_is_Some_2 (s0 :: sps) (length sps)) as [sl Hsl]; [simpl; lia|].
  destruct (assemble_loops_visits _ _ _ _ _ _ _ _ _ (length sps) sl 0 s0 bn Hloops Hsl)
    as (t1 & w4 & t2 & w5 & Hpair); [reflexivity | apply elem_of_cons; by left |].
  apply process_pair_build in Hpair
    as (sp & sm & tp & tm & w6 & w7 & ma & old_max & old_min & Hbuild & _).
  apply build_file_table_coded in Hbuild as [Hi _]. simpl. lia.
Qed.

Lemma construct_datatable_capacity_witness :
  exists x w',
    seq2seq_construct_datatable demo_params demo_text "d/" "speakers.list"
      "seq2seq_basenames.list" empty_world = (Ok x, w') /\
    exists speakers, read_list demo_text "d/speakers.list" = Some speakers /\
                     1 <= length speakers <= 10.
Proof.
  pose (r := seq2seq_construct_datatable demo_params demo_text "d/" "speakers.list"
               "seq2seq_basenames.list" empty_world).
  let v := eval vm_compute in r in assert (E : r = v) by (vm_compute; reflexivity).
  unfold r in E.
  match type of E with _ = (Ok ?x, ?w') => exists x, w' end.
  split; [exact E|].
  destruct (construct_datatable_capacity _ _ _ _ _ _ _ _ E)
    as (speakers & basenames & Hs & _ & Hn & _).
  exists speakers. by split.
Defined.

Lemma assemble_loops_empty param_files data_dir longest_seq speakers basenames t0 w :
  speakers = [] \/ basenames = [] ->
  assemble_loops param_files data_dir longest_seq speakers basenames t0 w = (Ok t0, w).
Proof.
  intros [-> | ->]; [reflexivity|]. unfold assemble_loops.
  assert (Hinner : forall (l : list (nat * string)) t w0 si ss,
            for_fold l t (fun t '(trg_index, trg_spk) =>
              for_fold [] t
                (process_pair param_files data_dir longest_seq si ss trg_index trg_spk))
              w0 = (Ok t, w0)).
  { induction l as [|[ti ts] l IH]; intros t w0 si ss; [reflexivity|].
    cbn [for_fold]. rewrite bind_ret. exact (IH t w0 si ss). }
  generalize (enumerate speakers) at 1. intros l. revert t0 w.
  induction l as [|[si ss] l IH]; intros t0 w; [reflexivity|].
  cbn [for_fold].
  rewrite (bind_run _ _ _ _ _ (Hinner (enumerate speakers) t0 w si ss)). apply IH.
Qed.

(** X20: an empty corpus is an error.  With a data root that is not empty
    and both list files there, the assembler raises [ValueError] when the
    speakers list or the basenames list has no entry: the longest sequence
    is then 0, and no array can be reshaped to rows of no cell. *)
Theorem construct_datatable_empty_corpus
    (param_files : string -> option (list Q)) (text_files : string -> option string)
    (data_dir speakers_file basenames_file : string) (w : world)
    (speakers basenames : list string) :
  data_dir <> EmptyString ->
  read_list text_files (data_dir +:+ speakers_file) = Some speakers ->
  read_list text_files (data_dir +:+ basenames_file) = Some basenames ->
  speakers = [] \/ basenames = [] ->
  fst (seq2seq_construct_datatable param_files text_files data_dir speakers_file
         basenames_file w) = Raise ValueError.
Proof.
  intros Hd Hs Hb Hempty. unfold read_list in Hs, Hb.
  destruct (text_files (data_dir +:+ speakers_file)) as [text1|] eqn:Ht1; [|discriminate].
  destruct (text_files (data_dir +:+ basenames_file)) as [text2|] eqn:Ht2; [|discriminate].
  injection Hs as Hs. injection Hb as Hb.
  unfold seq2seq_construct_datatable.
  erewrite bind_run by (apply dir_check_nonempty; auto).
  unfold open_readlines. rewrite Ht1, bind_ret, Ht2, bind_ret, Hs, Hb.
  erewrite bind_run.
  2:{ rewrite find_longest_sequence_unfold.
      erewrite bind_run by (apply dir_check_nonempty; auto).
      apply scan_loops_from_run.
      destruct Hempty as [-> | ->]; [constructor|].
      apply Forall_forall. intros sp _. constructor. }
  rewrite corpus_counts_empty by exact Hempty.
  erewrite bind_run
    by (apply (assemble_loops_empty param_files data_dir _ speakers basenames);
        exact Hempty).
  reflexivity.
Qed.

Lemma construct_datatable_empty_corpus_witness :
  fst (seq2seq_construct_datatable demo_params
         (fun path => if String.eqb path "d/speakers.list" then Some EmptyString
                      else demo_text path)
         "d/" "speakers.list" "seq2seq_basenames.list" empty_world)
  = Raise ValueError.
Proof.
  apply (construct_datatable_empty_corpus demo_params _ "d/" "speakers.list"
           "seq2seq_basenames.list" empty_world [] ["u"]).
  - discriminate.
  - reflexivity.
  - reflexivity.
  - by left.
Defined.

(** ** The assembler: the tables are the builder's outputs in loop order *)

Lemma world_blind_ret {A} (a : A) : world_blind (ret a).
Proof. intros w1 w2. reflexivity. Qed.

Lemma world_blind_lift {A} (r : result A) : world_blind (lift r).
Proof. intros w1 w2. reflexivity. Qed.

Lemma world_blind_assert (c : bool) : world_blind (assert_ c).
Proof. intros w1 w2. by destruct c. Qed.

Lemma world_blind_print (msg : string) : world_blind (print msg).
Proof. intros w1 w2. reflexivity. Qed.

Lemma world_blind_bind {A B} (m : py A) (k : A -> py B) :
  world_blind m -> (forall a, world_blind (k a)) -> world_blind (bind m k).
Proof.
  intros Hm Hk w1 w2. unfold bind. specialize (Hm w1 w2).
  destruct (m w1) as [[a1|e1] w1'], (m w2) as [[a2|e2] w2']; simpl in Hm;
    try discriminate; inversion Hm; subst; [apply Hk | reflexivity].
Qed.

Lemma world_blind_try_except (body : py unit) (e : exn) (handler : py unit) :
  world_blind body -> world_blind handler -> world_blind (try_except body e handler).
Proof.
  intros Hb Hh w1 w2. unfold try_except. specialize (Hb w1 w2).
  destruct (body w1) as [[[]|e1] w1'], (body w2) as [[[]|e2] w2']; simpl in Hb;
    try discriminate; [reflexivity|].
  inversion Hb; subst. destruct (bool_decide (e2 = e)); [apply Hh | reflexivity].
Qed.

Ltac world_blind_tac :=
  repeat first
    [ apply world_blind_ret | apply world_blind_lift | apply world_blind_assert
    | apply world_blind_print
    | apply world_blind_try_except
    | apply world_blind_bind; [|intros ?] ].

Lemma build_file_table_world_blind param_files source_dir src_index target_dir
    trg_index basename longest_seq :
  world_blind (seq2seq_build_file_table param_files source_dir src_index target_dir
                 trg_index basename longest_seq).
Proof.
  unfold seq2seq_build_file_table, char_is_slash. world_blind_tac.
Qed.

(** A loop whose passes each append some outputs has appended, when it
    returns, the outputs of all its passes in order. *)
Lemma for_fold_collect {A B S O} (holds : S -> list O -> Prop) (f : A -> list B)
    (rel : B -> O -> Prop) (l : list A) (body : S -> A -> py S) :
  (forall s x w s' w' os0,
     holds s os0 -> body s x w = (Ok s', w') ->
     exists os, holds s' (os0 ++ os) /\ Forall2 rel (f x) os) ->
  forall s w s' w' os0,
    holds s os0 -> for_fold l s body w = (Ok s', w') ->
    exists os, holds s' (os0 ++ os) /\ Forall2 rel (x ← l; f x) os.
Proof.
  intros Hbody. induction l as [|x l IH]; intros s w s' w' os0 Hs Hrun; simpl in Hrun.
  - py_lift Hrun. exists []. rewrite app_nil_r. split; [exact Hs | constructor].
  - py_step Hrun.
    destruct (Hbody _ _ _ _ _ _ Hs Hrun0) as (os1 & Hs1 & Hrel1).
    destruct (IH _ _ _ _ _ Hs1 Hrun) as (os2 & Hs2 & Hrel2).
    exists (os1 ++ os2). rewrite app_assoc. split; [exact Hs2|].
    cbn. by apply Forall2_app.
Qed.

Lemma process_pair_collects param_files data_dir longest_seq src_index src_spk
    trg_index trg_spk t basename w t' w' outs :
  collected t outs ->
  process_pair param_files data_dir longest_seq src_index src_spk trg_index
    trg_spk t basename w = (Ok t', w') ->
  exists os,
    collected t' (outs ++ os) /\
    Forall2 (fun triple out => build_output param_files data_dir longest_seq triple
                               = Ok out)
      [((src_index, src_spk), (trg_index, trg_spk), basename)] os.
Proof.
  intros (E1 & E2 & E3 & E4) Hrun.
  apply process_pair_build in Hrun
    as (sp & sm & tp & tm & w0 & w1 & ma & old_max & old_min & Hb & _ & _ & _ & _ & _ &
        _ & _ & ->).
  exists [(sp, sm, tp, tm)]. split.
  - unfold collected. cbn [src_datatable src_masks trg_datatable trg_masks].
    rewrite !map_app, E1, E2, E3, E4. by repeat split.
  - constructor; [|constructor]. unfold build_output.
    rewrite (build_file_table_world_blind _ _ _ _ _ _ _ empty_world w0), Hb.
    reflexivity.
Qed.

Lemma assemble_loops_collects param_files data_dir longest_seq speakers basenames
    t0 w t w' outs0 :
  collected t0 outs0 ->
  assemble_loops param_files data_dir longest_seq speakers basenames t0 w
    = (Ok t, w') ->
  exists outs,
    collected t (outs0 ++ outs) /\
    Forall2 (fun triple out => build_output param_files data_dir longest_seq triple
                               = Ok out)
      (triples speakers basenames) outs.
Proof.
  intros H0 Hrun. unfold assemble_loops in Hrun. unfold triples.
  refine (for_fold_collect collected
            (fun source => target ← enumerate speakers; basename ← basenames;
                           [(source, target, basename)])
            _ (enumerate speakers) _ _ t0 w t w' outs0 H0 Hrun).
  intros s [si ss] w1 s1 w1' os1 Hs Hmid.
  refine (for_fold_collect collected
            (fun target => basename ← basenames; [((si, ss), target, basename)])
            _ (enumerate speakers) _ _ s w1 s1 w1' os1 Hs Hmid).
  intros s2 [ti ts] w2 s3 w3 os2 Hs2 Hinner.
  refine (for_fold_collect collected
            (fun basename => [((si, ss), (ti, ts), basename)])
            _ basenames _ _ s2 w2 s3 w3 os2 Hs2 Hinner).
  intros s4 bn w4 s5 w5 os3 Hs4 Hpair.
  eapply process_pair_collects; eassumption.
Qed.

(** X21: the tables are the pair builder's outputs in loop order.  The
    assembler calls the builder once per triple (source speaker with its
    index, target speaker with its index, utterance), sources outermost and
    utterances innermost; array [k] of either table is the feature matrix
    the builder returns for triple [k], and row [k] of either mask matrix
    is the builder's mask column for that triple, laid flat. *)
Theorem construct_datatable_loop_order
    (param_files : string -> option (list Q)) (text_files : string -> option string)
    (data_dir speakers_file basenames_file : string) (w w' : world)
    (a b c d : ndarray) (longest_seq : nat) (speakers_max speakers_min : matrix) :
  seq2seq_construct_datatable param_files text_files data_dir speakers_file
    basenames_file w
  = (Ok (a, b, c, d, longest_seq, speakers_max, speakers_min), w') ->
  exists speakers basenames outs src_mask trg_mask,
    read_list text_files (data_dir +:+ speakers_file) = Some speakers /\
    read_list text_files (data_dir +:+ basenames_file) = Some basenames /\
    Forall2 (fun triple out => build_output param_files data_dir longest_seq triple
                               = Ok out)
      (triples speakers basenames) outs /\
    a = Nd3 (map (fun out => out.1.1.1) outs) /\
    b = Nd2 src_mask /\
    rows src_mask = map (fun out => concat (rows out.1.1.2)) outs /\
    c = Nd3 (map (fun out => out.1.2) outs) /\
    d = Nd2 trg_mask /\
    rows trg_mask = map (fun out => concat (rows out.2)) outs.
Proof.
  intros Hrun.
  apply construct_datatable_tables in Hrun
    as (speakers & basenames & t & w2 & w3 & src_mask & trg_mask & Hs & Hb & Hloops &
        _ & -> & -> & -> & -> & _ & _ & _ & Hr1 & _ & Hr2 & _).
  assert (H0 : collected initial_tables []) by (by repeat split).
  destruct (assemble_loops_collects _ _ _ _ _ _ _ _ _ [] H0 Hloops)
    as (outs & (E1 & E2 & E3 & E4) & Hrel).
  cbn [app] in E1, E2, E3, E4.
  exists speakers, basenames, outs, src_mask, trg_mask.
  split; [exact Hs|]. split; [exact Hb|]. split; [exact Hrel|].
  split; [by rewrite E1|]. split; [reflexivity|].
  split; [by rewrite Hr1, E2, map_map|].
  split; [by rewrite E3|]. split; [reflexivity|].
  by rewrite Hr2, E4, map_map.
Qed.

Lemma construct_datatable_loop_order_witness :
  exists a b c d longest_seq speakers_max speakers_min w' outs,
    seq2seq_construct_datatable demo_params demo_text "d/" "speakers.list"
      "seq2seq_basenames.list" empty_world
    = (Ok (a, b, c, d, longest_seq, speakers_max, speakers_min), w') /\
    Forall2 (fun triple out => build_output demo_params "d/" longest_seq triple = Ok out)
      [((0, "A"), (0, "A"), "u"); ((0, "A"), (1, "B"), "u");
       ((1, "B"), (0, "A"), "u"); ((1, "B"), (1, "B"), "u")] outs /\
    a = Nd3 (map (fun out => out.1.1.1) outs).
Proof.
  pose (r := seq2seq_construct_datatable demo_params demo_text "d/" "speakers.list"
               "seq2seq_basenames.list" empty_world).
  let v := eval vm_compute in r in assert (E : r = v) by (vm_compute; reflexivity).
  unfold r in E.
  match type of E with
  | _ = (Ok (?a, ?b, ?c, ?d, ?n, ?mx, ?mn), ?w') => exists a, b, c, d, n, mx, mn, w'
  end.
  destruct (construct_datatable_loop_order _ _ _ _ _ _ _ _ _ _ _ _ _ _ E)
    as (speakers & basenames & outs & sm & tm & Hs & Hb & Hrel & Ea & _).
  eval_lhs_opt Hs. eval_lhs_opt Hb. subst speakers basenames.
  exists outs. split; [exact E|]. split; [exact Hrel | exact Ea].
Defined.
